(** * SchoolDataCodingChallenge: a shallow embedding of [lib/school_data.py],
      [lib/school_search.py] and [count_schools.py], with the properties of
      the registry, the tallies, the loading of the data file, the phrase
      search and the console.

    Python values are modelled as follows.
    - [str] is [string]: a sequence of 8-bit code points (Latin-1), on which
      [str.lower] works character by character.
    - [int] is [Z].
    - A [list] object that the code mutates or passes around lives in a
      store of list objects and is named by its address.
    - Class attributes ([class_obj_list], the tally dictionaries) are fields
      of the process state [world]; a tally dictionary is named by a
      [dict_ref], so that returning it returns the object, not a copy.
    - A raised exception is an [outcome]; the state reached when it was
      raised is kept.
    - The data file is what its [csv.reader] gives, one event per call of
      [__next__]; the files there are, and the text of an exception, are
      given by an [environment].
    - Standard output is the sequence of the texts written; standard input
      is the sequence of what the user does at the prompt. *)

From Stdlib Require Import String Ascii ZArith Lia Bool DecimalString.
From stdpp Require Import base list.

Local Open Scope string_scope.

(** ** Python [str] operations used by the program *)
Module PyStr.

(** Code points with [c.isupper()] below 256: A-Z, and the Latin-1
    capitals 192..222 without the multiplication sign 215. *)
Definition isupper_char (c : ascii) : bool :=
  let n := nat_of_ascii c in
  (((65 <=? n) && (n <=? 90)) ||
   ((192 <=? n) && (n <=? 222) && negb (n =? 215)))%nat.

(** [c.lower()]: capitals move up by 32, everything else stays. *)
Definition lower_char (c : ascii) : ascii :=
  if isupper_char c then ascii_of_nat (nat_of_ascii c + 32) else c.

(** [s.lower()] *)
Fixpoint lower (s : string) : string :=
  match s with
  | EmptyString => EmptyString
  | String c s' => String (lower_char c) (lower s')
  end.

(** [c in s] for a single character *)
Fixpoint has_char (c : ascii) (s : string) : bool :=
  match s with
  | EmptyString => false
  | String d s' => Ascii.eqb c d || has_char c s'
  end.


(** [w in s]: [w] occurs in [s] as a contiguous substring. *)
Fixpoint contains (w s : string) : bool :=
  String.prefix w s ||
  match s with
  | EmptyString => false
  | String _ s' => contains w s'
  end.

(** [s.split(" ")]: cut at every single space; never the empty list. *)
Fixpoint split_space (s : string) : list string :=
  match s with
  | EmptyString => [EmptyString]
  | String c s' =>
      if Ascii.eqb c " "%char then EmptyString :: split_space s'
      else match split_space s' with
           | w :: ws => String c w :: ws
           | [] => [String c EmptyString]
           end
  end.

(** [sep.join(parts)] *)
Definition join (sep : string) (parts : list string) : string :=
  String.concat sep parts.

(** [str(i)] for a non-negative [int] *)
Definition of_nat (i : nat) : string :=
  NilZero.string_of_uint (Nat.to_uint i).

End PyStr.

(** ** Exceptions, outcomes and the process state *)

(** The exception classes the modelled code can raise; all of them derive
    from [Exception].  Messages are not modelled. *)
Inductive exn :=
| ValueError
| IndexError
| KeyError
| AttributeError
| EOFError.

(** What running a piece of code gives: a value, a raised exception, or
    [Diverge] when the iteration budget of a [while] loop is used up (shown
    below never to happen). *)
Inductive outcome (A : Type) :=
| Ok (a : A)
| Raise (e : exn)
| Diverge.
Arguments Ok {A} a.
Arguments Raise {A} e.
Arguments Diverge {A}.

(** An instance of [City].  Its attributes are set once in [__init__] and
    never assigned again, so the object is its identity [City_oid] (the
    order of allocation, Python's [id]) together with the attribute values. *)
Record City := mk_City {
  City_oid : nat;
  City_city : string;
  City_state : string }.

(** An instance of [Agency], likewise. *)
Record Agency := mk_Agency {
  Agency_oid : nat;
  Agency_agency_id : string;
  Agency_agency_name : string }.

(** A [dict] from [str] to [int]: the items in insertion order, keys unique. *)
Definition dict := list (string * Z).

(** The five tally dictionaries, created once in the class bodies and never
    rebound: a [dict_ref] names the object itself. *)
Inductive dict_ref :=
| City__counts_city
| City__counts_state
| School__locale_code_count
| School__urban_code_count
| School__status_code_count.

(** The address of a [list] of [str] in the store of list objects. *)
Abbreviation ref := nat.

(** An instance of [SchoolSearchEngine]: its one attribute holds a list
    object. *)
Record SchoolSearchEngine := mk_SchoolSearchEngine {
  _whole_terms : ref }.

(** Modelled from the spec: [utils/logger.py] is not part of the sources at
    hand; the spec calls what [log.warning] and [log.error] give a
    diagnostic, not an error.  The logger is a sink of records that never
    raises. *)
Inductive log_record :=
| LogDebug (msg : string)
| LogInfo (msg : string)
| LogWarning (msg : string)
| LogError (msg : string)
| LogException (e : exn).

Record world := mk_world {
  City_class_obj_list : list City;
  Agency_class_obj_list : list Agency;
  counts_city : dict;
  counts_state : dict;
  locale_code_count : dict;
  urban_code_count : dict;
  status_code_count : dict;
  next_oid : nat;
  lists : list (list string);
  SEARCH : option SchoolSearchEngine;
  log : list log_record;
  stdout : list string }.

(** The state of a fresh process, after the modules are imported. *)
Definition init_world : world :=
  mk_world [] [] [] [] [] [] [] 0 [] None [] [].

Definition set_City_class_obj_list (l : list City) (w : world) : world :=
  mk_world l (Agency_class_obj_list w) (counts_city w) (counts_state w)
    (locale_code_count w) (urban_code_count w) (status_code_count w)
    (next_oid w) (lists w) (SEARCH w) (log w) (stdout w).

Definition set_Agency_class_obj_list (l : list Agency) (w : world) : world :=
  mk_world (City_class_obj_list w) l (counts_city w) (counts_state w)
    (locale_code_count w) (urban_code_count w) (status_code_count w)
    (next_oid w) (lists w) (SEARCH w) (log w) (stdout w).

Definition set_next_oid (n : nat) (w : world) : world :=
  mk_world (City_class_obj_list w) (Agency_class_obj_list w) (counts_city w)
    (counts_state w) (locale_code_count w) (urban_code_count w)
    (status_code_count w) n (lists w) (SEARCH w) (log w) (stdout w).

Definition set_lists (h : list (list string)) (w : world) : world :=
  mk_world (City_class_obj_list w) (Agency_class_obj_list w) (counts_city w)
    (counts_state w) (locale_code_count w) (urban_code_count w)
    (status_code_count w) (next_oid w) h (SEARCH w) (log w) (stdout w).

Definition set_SEARCH (s : option SchoolSearchEngine) (w : world) : world :=
  mk_world (City_class_obj_list w) (Agency_class_obj_list w) (counts_city w)
    (counts_state w) (locale_code_count w) (urban_code_count w)
    (status_code_count w) (next_oid w) (lists w) s (log w) (stdout w).

Definition set_log (l : list log_record) (w : world) : world :=
  mk_world (City_class_obj_list w) (Agency_class_obj_list w) (counts_city w)
    (counts_state w) (locale_code_count w) (urban_code_count w)
    (status_code_count w) (next_oid w) (lists w) (SEARCH w) l (stdout w).

Definition set_stdout (l : list string) (w : world) : world :=
  mk_world (City_class_obj_list w) (Agency_class_obj_list w) (counts_city w)
    (counts_state w) (locale_code_count w) (urban_code_count w)
    (status_code_count w) (next_oid w) (lists w) (SEARCH w) (log w) l.

(** The dictionary object a [dict_ref] names, as it is now. *)
Definition the_dict (r : dict_ref) (w : world) : dict :=
  match r with
  | City__counts_city => counts_city w
  | City__counts_state => counts_state w
  | School__locale_code_count => locale_code_count w
  | School__urban_code_count => urban_code_count w
  | School__status_code_count => status_code_count w
  end.

Definition set_dict (r : dict_ref) (d : dict) (w : world) : world :=
  mk_world (City_class_obj_list w) (Agency_class_obj_list w)
    (match r with City__counts_city => d | _ => counts_city w end)
    (match r with City__counts_state => d | _ => counts_state w end)
    (match r with School__locale_code_count => d | _ => locale_code_count w end)
    (match r with School__urban_code_count => d | _ => urban_code_count w end)
    (match r with School__status_code_count => d | _ => status_code_count w end)
    (next_oid w) (lists w) (SEARCH w) (log w) (stdout w).

(** ** The monad of Python code: state, and exceptions that keep the state *)

Definition M (A : Type) : Type := world -> outcome A * world.

Definition ret {A} (a : A) : M A := fun w => (Ok a, w).

Definition bind {A B} (m : M A) (k : A -> M B) : M B :=
  fun w =>
    match m w with
    | (Ok a, w') => k a w'
    | (Raise e, w') => (Raise e, w')
    | (Diverge, w') => (Diverge, w')
    end.

Definition raise {A} (e : exn) : M A := fun w => (Raise e, w).

Definition diverge {A} : M A := fun w => (Diverge, w).

(** [try: body except <classes>: handler]; an exception outside [catches]
    goes on to the caller. *)
Definition try_except {A} (body : M A) (catches : exn -> bool)
    (handler : exn -> M A) : M A :=
  fun w =>
    match body w with
    | (Raise e, w') => if catches e then handler e w' else (Raise e, w')
    | r => r
    end.

Declare Scope py_scope.
Delimit Scope py_scope with py.
Notation "x <- c ;; k" := (bind c (fun x => k))
  (at level 100, c at next level, right associativity) : py_scope.
Notation "c ;;; k" := (bind c (fun _ => k))
  (at level 100, right associativity) : py_scope.
Local Open Scope py_scope.

Definition is_ValueError (e : exn) : bool :=
  match e with ValueError => true | _ => false end.

(** [except Exception]: every class of [exn] derives from [Exception]. *)
Definition is_Exception (e : exn) : bool := true.

Definition log_emit (r : log_record) : M unit :=
  fun w => (Ok tt, set_log (log w ++ [r]) w).

(** [print(line)] *)
Definition print (line : string) : M unit :=
  fun w => (Ok tt, set_stdout (stdout w ++ [line]) w).

(** ** [dict] operations *)

(** [d.get(k)]: the value under [k], if any. *)
Fixpoint dict_get (k : string) (d : dict) : option Z :=
  match d with
  | [] => None
  | (k', v) :: d' => if String.eqb k k' then Some v else dict_get k d'
  end.

(** [d[k] = v] on the value: replace in place, or add at the end. *)
Fixpoint dict_set (k : string) (v : Z) (d : dict) : dict :=
  match d with
  | [] => [(k, v)]
  | (k', v') :: d' =>
      if String.eqb k k' then (k', v) :: d' else (k', v') :: dict_set k v d'
  end.

(** [sum(d.values())] *)
Definition dict_sum (d : dict) : Z :=
  fold_right (fun kv acc => (snd kv + acc)%Z) 0%Z d.

(** The count read off a tally: a missing key counts zero. *)
Definition count_of (k : string) (d : dict) : Z :=
  default 0%Z (dict_get k d).

(** [k in d] on the object named [r] *)
Definition dict_contains (r : dict_ref) (k : string) : M bool :=
  fun w => (Ok (bool_decide (is_Some (dict_get k (the_dict r w)))), w).

(** [d[k]]; [KeyError] when [k] is missing. *)
Definition dict_getitem (r : dict_ref) (k : string) : M Z :=
  fun w =>
    match dict_get k (the_dict r w) with
    | Some v => (Ok v, w)
    | None => (Raise KeyError, w)
    end.

(** [d[k] = v] *)
Definition dict_setitem (r : dict_ref) (k : string) (v : Z) : M unit :=
  fun w => (Ok tt, set_dict r (dict_set k v (the_dict r w)) w).

(** ** [lib/school_data.py] *)

(** [class SearchableEnum(Enum)] and its three subclasses: the members in
    definition order, with their values and names. *)
Class SearchableEnum (E : Type) := {
  members : list E;
  value : E -> Z;
  name : E -> string }.

Inductive LocaleCodes :=
| LARGE_CITY | MIDSIZE_CITY | URBAN_FRINGE_LARGE_CITY
| URBAN_FRINGE_MIDSIZE_CITY | LARGE_TOWN | SMALL_TOWN
| RURAL_OUTSIDE_CBSA | RURAL_INSIDE_CBSA.

Inductive UrbanLocaleCodes :=
| CITY_LARGE | CITY_MIDSIZE | CITY_SMALL
| SUBURB_LARGE | SUBURB_MIDSIZE | SUBURB_SMALL
| TOWN_FRINGE | TOWN_DISTANT | TIWN_REMOTE
| RURAL_FRINGE | RURAL_DISTANT | RURAL_REMOTE.

Inductive SchoolStatusCodes :=
| OPERATIONAL | CLOSED | OPENED | OPERATIONAL_NEWLY_LISTED
| NEW_AGENCY | TEMP_CLOSED | WILL_BE_OPERATIONAL | REOPENED.

#[export] Instance LocaleCodes_enum : SearchableEnum LocaleCodes := {
  members := [LARGE_CITY; MIDSIZE_CITY; URBAN_FRINGE_LARGE_CITY;
              URBAN_FRINGE_MIDSIZE_CITY; LARGE_TOWN; SMALL_TOWN;
              RURAL_OUTSIDE_CBSA; RURAL_INSIDE_CBSA];
  value c := match c with
             | LARGE_CITY => 1 | MIDSIZE_CITY => 2
             | URBAN_FRINGE_LARGE_CITY => 3 | URBAN_FRINGE_MIDSIZE_CITY => 4
             | LARGE_TOWN => 5 | SMALL_TOWN => 6
             | RURAL_OUTSIDE_CBSA => 7 | RURAL_INSIDE_CBSA => 8
             end%Z;
  name c := match c with
            | LARGE_CITY => "LARGE_CITY" | MIDSIZE_CITY => "MIDSIZE_CITY"
            | URBAN_FRINGE_LARGE_CITY => "URBAN_FRINGE_LARGE_CITY"
            | URBAN_FRINGE_MIDSIZE_CITY => "URBAN_FRINGE_MIDSIZE_CITY"
            | LARGE_TOWN => "LARGE_TOWN" | SMALL_TOWN => "SMALL_TOWN"
            | RURAL_OUTSIDE_CBSA => "RURAL_OUTSIDE_CBSA"
            | RURAL_INSIDE_CBSA => "RURAL_INSIDE_CBSA"
            end }.

#[export] Instance UrbanLocaleCodes_enum : SearchableEnum UrbanLocaleCodes := {
  members := [CITY_LARGE; CITY_MIDSIZE; CITY_SMALL; SUBURB_LARGE;
              SUBURB_MIDSIZE; SUBURB_SMALL; TOWN_FRINGE; TOWN_DISTANT;
              TIWN_REMOTE; RURAL_FRINGE; RURAL_DISTANT; RURAL_REMOTE];
  value c := match c with
             | CITY_LARGE => 11 | CITY_MIDSIZE => 12 | CITY_SMALL => 13
             | SUBURB_LARGE => 21 | SUBURB_MIDSIZE => 22 | SUBURB_SMALL => 23
             | TOWN_FRINGE => 31 | TOWN_DISTANT => 32 | TIWN_REMOTE => 33
             | RURAL_FRINGE => 41 | RURAL_DISTANT => 42 | RURAL_REMOTE => 43
             end%Z;
  name c := match c with
            | CITY_LARGE => "CITY_LARGE" | CITY_MIDSIZE => "CITY_MIDSIZE"
            | CITY_SMALL => "CITY_SMALL" | SUBURB_LARGE => "SUBURB_LARGE"
            | SUBURB_MIDSIZE => "SUBURB_MIDSIZE"
            | SUBURB_SMALL => "SUBURB_SMALL" | TOWN_FRINGE => "TOWN_FRINGE"
            | TOWN_DISTANT => "TOWN_DISTANT" | TIWN_REMOTE => "TIWN_REMOTE"
            | RURAL_FRINGE => "RURAL_FRINGE"
            | RURAL_DISTANT => "RURAL_DISTANT"
            | RURAL_REMOTE => "RURAL_REMOTE"
            end }.

#[export] Instance SchoolStatusCodes_enum : SearchableEnum SchoolStatusCodes := {
  members := [OPERATIONAL; CLOSED; OPENED; OPERATIONAL_NEWLY_LISTED;
              NEW_AGENCY; TEMP_CLOSED; WILL_BE_OPERATIONAL; REOPENED];
  value c := match c with
             | OPERATIONAL => 1 | CLOSED => 2 | OPENED => 3
             | OPERATIONAL_NEWLY_LISTED => 4 | NEW_AGENCY => 5
             | TEMP_CLOSED => 6 | WILL_BE_OPERATIONAL => 7 | REOPENED => 8
             end%Z;
  name c := match c with
            | OPERATIONAL => "OPERATIONAL" | CLOSED => "CLOSED"
            | OPENED => "OPENED"
            | OPERATIONAL_NEWLY_LISTED => "OPERATIONAL_NEWLY_LISTED"
            | NEW_AGENCY => "NEW_AGENCY" | TEMP_CLOSED => "TEMP_CLOSED"
            | WILL_BE_OPERATIONAL => "WILL_BE_OPERATIONAL"
            | REOPENED => "REOPENED"
            end }.

(** [cls(val)]: the member whose value is [val], else [ValueError].  [val]
    is what [convert_type(int, raw)] gave: an [int], or the raw [str], which
    no member has as its value. *)
Definition Enum_call {E} `{SearchableEnum E} (val : Z + string) : M E :=
  match val with
  | inl n =>
      match find (fun m => Z.eqb (value m) n) members with
      | Some m => ret m
      | None => raise ValueError
      end
  | inr _ => raise ValueError
  end.

(** [SearchableEnum.find_val] *)
Definition find_val {E} `{SearchableEnum E} (val : Z + string)
    : M (option E) :=
  try_except (m <- Enum_call val ;; ret (Some m)) is_ValueError
    (fun _ => ret None).

(** [Search.search], for a class with the given [class_obj_list] and
    [search_fields]; [kwargs] are the keyword arguments of the call. *)
Definition Search_search {Obj} (class_obj_list : list Obj)
    (search_fields : list (string * (Obj -> string -> bool)))
    (kwargs : list (string * string)) : list Obj :=
  fold_left
    (fun results obj =>
       let matched :=
         fold_left
           (fun matched fp =>
              match List.find (fun kv => String.eqb (fst fp) (fst kv)) kwargs with
              | Some kv => if negb (snd fp obj (snd kv)) then false else matched
              | None => matched
              end)
           search_fields true in
       if matched then (results ++ [obj])%list else results)
    class_obj_list [].

(** The classes that have [get_count_metadata] and their [_counts_lookup]. *)
Inductive counts_class := cls_CountsMetadata | cls_City | cls_School.

Definition _counts_lookup (cls : counts_class) : list (string * dict_ref) :=
  match cls with
  | cls_CountsMetadata => []
  | cls_City => [("city", City__counts_city); ("state", City__counts_state)]
  | cls_School => [("locale", School__locale_code_count);
                   ("urban", School__urban_code_count);
                   ("status", School__status_code_count)]
  end.

(** What [get_count_metadata] returns ([Union[list, dict]]): a new list of
    dictionary objects, or one dictionary object. *)
Inductive counts_result :=
| ResList (ds : list dict_ref)
| ResDict (d : dict_ref).

(** [CountsMetadata.get_count_metadata] *)
Definition get_count_metadata (cls : counts_class) (name : option string)
    : M counts_result :=
  match name with
  | None => ret (ResList (map snd (_counts_lookup cls)))
  | Some name =>
      match List.find (fun kv => String.eqb name (fst kv)) (_counts_lookup cls) with
      | Some kv => ret (ResDict (snd kv))
      | None =>
          log_emit (LogWarning
            ("`" ++ name ++
             "` was not found to be a valid code name in School metadata. " ++
             "Options are: " ++ PyStr.join " " (map fst (_counts_lookup cls))));;;
          ret (ResList [])
      end
  end.

(** [CountsMetadata.increment_count_metadata] *)
Definition increment_count_metadata {E} `{SearchableEnum E}
    (class_code : option E) (code_count_dict : dict_ref) : M unit :=
  match class_code with
  | None => ret tt
  | Some class_code =>
      present <- dict_contains code_count_dict (name class_code) ;;
      (if negb present
       then dict_setitem code_count_dict (name class_code) 0%Z
       else ret tt) ;;;
      n <- dict_getitem code_count_dict (name class_code) ;;
      dict_setitem code_count_dict (name class_code) (n + 1)%Z
  end.

Definition City_search_fields : list (string * (City -> string -> bool)) :=
  [("city", fun obj val => String.eqb (City_city obj) val);
   ("state", fun obj val => String.eqb (City_state obj) val)].

(** [City.__init__], with the allocation of the instance. *)
Definition City_init (city state : string) : M City :=
  fun w =>
    let self := mk_City (next_oid w) city state in
    (Ok self,
     set_City_class_obj_list (City_class_obj_list w ++ [self])
       (set_next_oid (S (next_oid w)) w)).

(** [City.get_or_create] *)
Definition City_get_or_create (city state : string) : M City :=
  if negb (Nat.eqb (String.length state) 2) then raise ValueError
  else
    matched <- (fun w =>
      (Ok (Search_search (City_class_obj_list w) City_search_fields
             [("city", city); ("state", state)]), w)) ;;
    present <- dict_contains City__counts_city city ;;
    (if negb present then dict_setitem City__counts_city city 0%Z
     else ret tt) ;;;
    n <- dict_getitem City__counts_city city ;;
    dict_setitem City__counts_city city (n + 1)%Z ;;;
    present <- dict_contains City__counts_state state ;;
    (if negb present then dict_setitem City__counts_state state 0%Z
     else ret tt) ;;;
    n <- dict_getitem City__counts_state state ;;
    dict_setitem City__counts_state state (n + 1)%Z ;;;
    match matched with
    | [] => City_init city state
    | first :: _ => ret first
    end.

Definition Agency_search_fields : list (string * (Agency -> string -> bool)) :=
  [("agency_id", fun obj val => String.eqb (Agency_agency_id obj) val);
   ("agency_name", fun obj val => String.eqb (Agency_agency_name obj) val)].

(** [Agency.__init__], with the allocation of the instance. *)
Definition Agency_init (aid name : string) : M Agency :=
  fun w =>
    let self := mk_Agency (next_oid w) aid name in
    (Ok self,
     set_Agency_class_obj_list (Agency_class_obj_list w ++ [self])
       (set_next_oid (S (next_oid w)) w)).

(** [Agency.get_or_create] *)
Definition Agency_get_or_create (agency_id agency_name : string) : M Agency :=
  matched <- (fun w =>
    (Ok (Search_search (Agency_class_obj_list w) Agency_search_fields
           [("agency_id", agency_id); ("agency_name", agency_name)]), w)) ;;
  match matched with
  | [] => Agency_init agency_id agency_name
  | first :: _ => ret first
  end.

(** For concrete runs of the program: [int] on plain decimal digits, as
    the codes of the data file are written (it gives [None] on every other
    string, also where [int] would accept one, with a sign or with spaces),
    and coordinates left as they are read. *)
Fixpoint decimal_digits (s : string) (acc : Z) : option Z :=
  match s with
  | EmptyString => Some acc
  | String c s' =>
      let n := nat_of_ascii c in
      if ((48 <=? n) && (n <=? 57))%nat
      then decimal_digits s' (10 * acc + Z.of_nat (n - 48))%Z
      else None
  end.

Definition decimal_int (s : string) : option Z :=
  match s with
  | EmptyString => None
  | _ => decimal_digits s 0%Z
  end.

Definition no_float (s : string) : option unit := None.

Section Program.

(** The built-ins [int] and [float] applied to a [str] are parameters:
    [py_int s] is [Some n] when [int(s)] returns [n] and [None] when it
    raises [ValueError], and likewise [py_float] with [pyfloat] the type of
    Python floats. *)
Context {pyfloat : Type}.
Variable py_int : string -> option Z.
Variable py_float : string -> option pyfloat.

Definition builtin_int (s : string) : M Z :=
  match py_int s with
  | Some n => ret n
  | None => raise ValueError
  end.

Definition builtin_float (s : string) : M pyfloat :=
  match py_float s with
  | Some x => ret x
  | None => raise ValueError
  end.

(** [utils.typing.convert_type].  Every [value] it is given is a field of a
    row of [csv.reader], a [str]; the result is the converted value or that
    [str]. *)
Definition convert_type {T} (target_type : string -> M T) (value : string)
    (raise_on_error : bool) : M (T + string) :=
  try_except (t <- target_type value ;; ret (inl t)) is_ValueError
    (fun e => if raise_on_error then raise e else ret (inr value)).

(** An instance of [School].  [School_agency] and [School_city] hold the
    shared [Agency] and [City] instances. *)
Record School := mk_School {
  School_school_id : string;
  School_name : string;
  School_agency : Agency;
  School_city : City;
  School_lat : pyfloat + string;
  School_long : pyfloat + string;
  School_locale_code : option LocaleCodes;
  School_urban_code : option UrbanLocaleCodes;
  School_status_code : option SchoolStatusCodes }.

(** [School.__init__] *)
Definition School_init
    (sid agency_id agency_name name city state lat long
     locale_code urban_code status_code : string) : M School :=
  agency <- Agency_get_or_create agency_id agency_name ;;
  the_city <- City_get_or_create city state ;;
  lat' <- convert_type builtin_float lat false ;;
  long' <- convert_type builtin_float long false ;;
  locale_val <- convert_type builtin_int locale_code false ;;
  locale_code' <- find_val locale_val ;;
  increment_count_metadata locale_code' School__locale_code_count ;;;
  urban_val <- convert_type builtin_int urban_code false ;;
  urban_code' <- find_val urban_val ;;
  increment_count_metadata urban_code' School__urban_code_count ;;;
  status_val <- convert_type builtin_int status_code false ;;
  status_code' <- find_val status_val ;;
  increment_count_metadata status_code' School__status_code_count ;;;
  ret (mk_School sid name agency the_city lat' long'
         locale_code' urban_code' status_code').

(** *** A process as a sequence of calls

    The callers of the registry: direct [get_or_create] calls and [School]
    constructions, one after the other.  An exception raised by a call is
    seen by its caller and the process goes on with the state the call left,
    as [load_csv] does with a row it cannot use. *)
Inductive call :=
| Call_City_get_or_create (city state : string)
| Call_Agency_get_or_create (agency_id agency_name : string)
| Call_School (sid agency_id agency_name name city state lat long
               locale_code urban_code status_code : string).

Inductive instance :=
| I_City (c : City)
| I_Agency (a : Agency)
| I_School (s : School).

Definition do_call (c : call) : M instance :=
  match c with
  | Call_City_get_or_create city state =>
      c <- City_get_or_create city state ;; ret (I_City c)
  | Call_Agency_get_or_create agency_id agency_name =>
      a <- Agency_get_or_create agency_id agency_name ;; ret (I_Agency a)
  | Call_School sid agency_id agency_name name city state lat long
                locale_code urban_code status_code =>
      s <- School_init sid agency_id agency_name name city state lat long
             locale_code urban_code status_code ;;
      ret (I_School s)
  end.

Fixpoint run_calls (cs : list call) (w : world)
    : list (outcome instance) * world :=
  match cs with
  | [] => ([], w)
  | c :: cs' =>
      let (o, w1) := do_call c w in
      let (os, w2) := run_calls cs' w1 in
      (o :: os, w2)
  end.

(** The [School] instances a process constructed, in order. *)
Definition schools_of (os : list (outcome instance)) : list School :=
  omap (fun o => match o with Ok (I_School s) => Some s | _ => None end) os.

(** The [City.get_or_create] invocations a call makes, as (city, state). *)
Definition City_invocations (c : call) : list (string * string) :=
  match c with
  | Call_City_get_or_create city state => [(city, state)]
  | Call_Agency_get_or_create _ _ => []
  | Call_School _ _ _ _ city state _ _ _ _ _ => [(city, state)]
  end.

(** ** [lib/school_search.py] *)

(** *** [list] objects in the store *)

(** A new list object with the items [l]: a list display, a comprehension
    or a slice. *)
Definition new_list (l : list string) : M ref :=
  fun w => (Ok (length (lists w)), set_lists (lists w ++ [l]) w).

(** The items of the list object at [r] (no items at an address that holds
    no object, which no reference of the program is). *)
Definition get_list (r : ref) : M (list string) :=
  fun w => (Ok (default [] (lists w !! r)), w).

Definition put_list (r : ref) (l : list string) : M unit :=
  fun w => (Ok tt, set_lists (<[r := l]> (lists w)) w).

(** [len(r)] *)
Definition list_len (r : ref) : M nat :=
  l <- get_list r ;; ret (length l).

(** [r.append(x)] *)
Definition list_append (r : ref) (x : string) : M unit :=
  l <- get_list r ;; put_list r (l ++ [x]).

(** [r.pop()]: remove and return the last item; [IndexError] on an empty
    list. *)
Definition list_pop (r : ref) : M string :=
  l <- get_list r ;;
  match rev l with
  | [] => raise IndexError
  | x :: front => put_list r (rev front) ;;; ret x
  end.

(** [x in l] for a list of [str] *)
Definition list_mem (x : string) (l : list string) : bool :=
  existsb (String.eqb x) l.

(** [SchoolSearchEngine._build_cache]: the loop over [dataset]. *)
Fixpoint _build_cache (self : SchoolSearchEngine) (dataset : list School)
    : M unit :=
  match dataset with
  | [] => ret tt
  | i :: dataset' =>
      list_append (_whole_terms self)
        (PyStr.join " " [PyStr.lower (School_name i);
                         PyStr.lower (City_city (School_city i));
                         PyStr.lower (City_state (School_city i))]) ;;;
      _build_cache self dataset'
  end.

(** [SchoolSearchEngine.__init__] *)
Definition SchoolSearchEngine_init (dataset : list School)
    : M SchoolSearchEngine :=
  whole_terms <- new_list [] ;;
  let self := mk_SchoolSearchEngine whole_terms in
  _build_cache self dataset ;;;
  ret self.

(** The [while] loop of [_match_words] (lines 66-69).  Every iteration pops
    from [remaining_options] or raises, so [fuel] beyond the length of that
    list is never used up. *)
Fixpoint backfill (fuel : nat) (results remaining_options : ref) : M unit :=
  match fuel with
  | O => diverge
  | S fuel' =>
      n <- list_len results ;;
      if (n <? 3)%nat then
        next_option <- list_pop remaining_options ;;
        rs <- get_list results ;;
        (if negb (list_mem next_option rs)
         then x <- list_pop remaining_options ;; list_append results x
         else ret tt) ;;;
        backfill fuel' results remaining_options
      else ret tt
  end.

(** [SchoolSearchEngine._match_words]; [options] is [None] or a list
    object.  The recursion is on [words[1:]]; the interpreter's limit on the
    depth of recursion is not modelled. *)
Fixpoint _match_words (self : SchoolSearchEngine) (words : list string)
    (options : option ref) : M ref :=
  (* options = options or self._whole_terms *)
  options <- match options with
             | None => ret (_whole_terms self)
             | Some o =>
                 n <- list_len o ;;
                 ret (if (n =? 0)%nat then _whole_terms self else o)
             end ;;
  match words with
  | [] => ret options
  | word0 :: words1 =>
      opts <- get_list options ;;
      remaining_options <-
        new_list (List.filter (fun option => PyStr.contains word0 option) opts) ;;
      n <- list_len remaining_options ;;
      if (n =? 0)%nat && negb (1 <? length (word0 :: words1))%nat then
        (* return options[:3] *)
        opts <- get_list options ;; new_list (take 3 opts)
      else
        remaining_options <-
          (if (n =? 0)%nat
           then _match_words self words1 (Some options)
           else ret remaining_options) ;;
        if (length (word0 :: words1) =? 1)%nat then
          (* return remaining_options[:3] *)
          rem <- get_list remaining_options ;; new_list (take 3 rem)
        else
          n <- list_len remaining_options ;;
          if (n <=? 3)%nat then ret remaining_options
          else
            results <- _match_words self words1 (Some remaining_options) ;;
            fuel <- list_len remaining_options ;;
            backfill (S fuel) results remaining_options ;;;
            ret results
  end.

(** [SchoolSearchEngine.phrase] *)
Definition phrase (self : SchoolSearchEngine) (phrase : string) : M ref :=
  let words := PyStr.split_space phrase in
  try_except (_match_words self words None) is_Exception
    (fun e =>
       log_emit (LogError "Search error.") ;;;
       log_emit (LogException e) ;;;
       new_list []).






(** *** The search on values

    What the list returned by [_match_words] holds, as a function of what
    the cache and the [options] argument hold; [None] stands for the
    [IndexError] of [pop] on an empty list.  An empty [options] stands for
    both [None] and an empty list object.  The store-level code is related
    to these functions by [match_words_refines] below. *)

(** The [while] loop, on the items of [results] and the items of
    [remaining_options] in reverse (next to pop first). *)
Fixpoint backfill_value (results rem_rev : list string)
    : option (list string) :=
  if (length results <? 3)%nat then
    match rem_rev with
    | [] => None
    | next_option :: rest =>
        if negb (list_mem next_option results) then
          match rest with
          | [] => None
          | x :: rest' => backfill_value (results ++ [x]) rest'
          end
        else backfill_value results rest
    end
  else Some results.

(** [options or self._whole_terms], on the items. *)
Definition options_or (cache options : list string) : list string :=
  if (length options =? 0)%nat then cache else options.

Fixpoint match_words_value (cache words options : list string)
    : option (list string) :=
  let options := options_or cache options in
  match words with
  | [] => Some options
  | word0 :: words1 =>
      let filtered :=
        List.filter (fun option => PyStr.contains word0 option) options in
      if (length filtered =? 0)%nat && negb (1 <? length (word0 :: words1))%nat
      then Some (take 3 options)
      else
        match (if (length filtered =? 0)%nat
               then match_words_value cache words1 options
               else Some filtered) with
        | None => None
        | Some remaining =>
            if (length (word0 :: words1) =? 1)%nat then Some (take 3 remaining)
            else if (length remaining <=? 3)%nat then Some remaining
            else
              match match_words_value cache words1 remaining with
              | None => None
              | Some results => backfill_value results (rev remaining)
              end
        end
  end.

(** The cache entry of a school, and the cache of a dataset. *)
Definition cache_entry (i : School) : string :=
  PyStr.join " " [PyStr.lower (School_name i);
                  PyStr.lower (City_city (School_city i));
                  PyStr.lower (City_state (School_city i))].

Definition cache_of (dataset : list School) : list string :=
  map cache_entry dataset.

(** The items of the list object at [r] in [w]. *)
Definition items (r : ref) (w : world) : list string :=
  default [] (lists w !! r).

(** [w'] is [w] but for its list objects. *)
Definition same_but_lists (w w' : world) : Prop :=
  set_lists (lists w) w' = w.

(** [w'] is [w] with list objects added: every object of [w] is as it was. *)
Definition extends (w w' : world) : Prop :=
  same_but_lists w w' /\
  length (lists w) <= length (lists w') /\
  forall i, i < length (lists w) -> lists w' !! i = lists w !! i.

(** *** Notions used to state the properties *)

Local Open Scope list_scope.

(** [w'] is [w] but for the items of the list objects at [r1] and [r2]. *)
Definition changed_at (r1 r2 : ref) (w w' : world) : Prop :=
  same_but_lists w w' /\
  length (lists w') = length (lists w) /\
  forall i, i <> r1 -> i <> r2 -> lists w' !! i = lists w !! i.

(** The items [options] stands for: none for [None]. *)
Definition option_items (options : option ref) (w : world) : list string :=
  match options with
  | None => []
  | Some o => items o w
  end.

Definition option_valid (options : option ref) (w : world) : Prop :=
  match options with
  | None => True
  | Some o => o < length (lists w)
  end.

(** What a call of [_match_words] on non-empty [words] does, in terms of
    [match_words_value]: it leaves every list object of [w] as it was and
    returns a new list object, or raises [IndexError]. *)
Definition refines_at (self : SchoolSearchEngine) (words : list string)
    (options : option ref) (w : world) : Prop :=
  exists w', extends w w' /\
    match match_words_value (items (_whole_terms self) w) words
            (option_items options w) with
    | Some out =>
        exists r, _match_words self words options w = (Ok r, w') /\
                  length (lists w) <= r < length (lists w') /\
                  items r w' = out
    | None => _match_words self words options w = (Raise IndexError, w')
    end.

(** The engine's list object is in the store and holds [cache]. *)
Definition engine_in (self : SchoolSearchEngine) (cache : list string)
    (w : world) : Prop :=
  lists w !! _whole_terms self = Some cache.

(** What a computation that returns a list object gives, with the items of
    that object when it returns. *)
Definition result_of (m : M ref) (w : world) : outcome (list string) :=
  match m w with
  | (Ok r, w') => Ok (items r w')
  | (Raise e, _) => Raise e
  | (Diverge, _) => Diverge
  end.

(** A school of Springfield, IL with the given name. *)
Definition springfield_school (name : string) : School :=
  mk_School "1" name (mk_Agency 0 "A1" "Springfield District")
    (mk_City 1 "Springfield" "IL") (inr EmptyString) (inr EmptyString) None None None.

Definition lincoln_dataset : list School :=
  [springfield_school "Lincoln East"; springfield_school "Lincoln North";
   springfield_school "Lincoln South"; springfield_school "Lincoln West"].

Definition mixed_dataset : list School :=
  [springfield_school "Adams"; springfield_school "Baker";
   springfield_school "Clark"; springfield_school "Lincoln"].

(** [d[k] += 1] with a missing key read as 0, on the items. *)
Definition dict_incr (k : string) (d : dict) : dict :=
  dict_set k (count_of k d + 1)%Z d.

(** The instances of [City] with the given city and state. *)
Definition City_matches (city state : string) (obj : City) : bool :=
  String.eqb (City_city obj) city && String.eqb (City_state obj) state.

Definition Agency_matches (agency_id agency_name : string) (obj : Agency) : bool :=
  String.eqb (Agency_agency_id obj) agency_id &&
  String.eqb (Agency_agency_name obj) agency_name.

(** The state after the two tallies of [City.get_or_create]. *)
Definition City_counted (city state : string) (w : world) : world :=
  let w1 := set_dict City__counts_city (dict_incr city (counts_city w)) w in
  set_dict City__counts_state (dict_incr state (counts_state w1)) w1.

(** What identifies a [City] and an [Agency]. *)
Definition City_identity (c : City) : string * string :=
  (City_city c, City_state c).

Definition Agency_identity (a : Agency) : string * string :=
  (Agency_agency_id a, Agency_agency_name a).

(** The registries hold at most one instance per identity, and their
    instances are distinct objects allocated before [next_oid]. *)
Record registry_ok (w : world) : Prop := mk_registry_ok {
  City_one_per_identity : List.NoDup (map City_identity (City_class_obj_list w));
  Agency_one_per_identity : List.NoDup (map Agency_identity (Agency_class_obj_list w));
  City_distinct : List.NoDup (map City_oid (City_class_obj_list w));
  Agency_distinct : List.NoDup (map Agency_oid (Agency_class_obj_list w));
  City_allocated : forall c, In c (City_class_obj_list w) -> City_oid c < next_oid w;
  Agency_allocated : forall a, In a (Agency_class_obj_list w) -> Agency_oid a < next_oid w }.

(** [convert_type(target, raw)] on the value: the converted value, or the
    raw string. *)
Definition converted {T} (conv : string -> option T) (raw : string)
    : T + string :=
  match conv raw with
  | Some t => inl t
  | None => inr raw
  end.

(** The classification a raw code resolves to:
    [cls.find_val(convert_type(int, raw))]. *)
Definition resolve {E} `{SearchableEnum E} (raw : string) : option E :=
  match py_int raw with
  | Some n => List.find (fun m => Z.eqb (value m) n) members
  | None => None
  end.

(** A tally after one more resolution. *)
Definition counted_code {E} `{SearchableEnum E} (code : option E) (d : dict)
    : dict :=
  match code with
  | None => d
  | Some c => dict_incr (name c) d
  end.

Definition tallied {E} `{SearchableEnum E} (code : option E) (r : dict_ref)
    (w : world) : world :=
  match code with
  | None => w
  | Some c => set_dict r (dict_incr (name c) (the_dict r w)) w
  end.

(** The [School] a call gave, if it gave one. *)
Definition school_of (o : outcome instance) : option School :=
  match o with
  | Ok (I_School s) => Some s
  | _ => None
  end.

(** The invocations of [City.get_or_create] that pass the check of the
    state. *)
Definition counted_invocations (c : call) : list (string * string) :=
  List.filter (fun cs => (String.length (snd cs) =? 2)%nat) (City_invocations c).

(** The schools whose code of a category resolved. *)
Definition resolved {E} (code : School -> option E) (schools : list School)
    : list School :=
  List.filter (fun s => bool_decide (is_Some (code s))) schools.

(** ** The rest of [lib/school_data.py] *)

(** What [find_max_schools_in_city] returns: the dictionary with the keys
    "count" and "city". *)
Record max_schools := mk_max_schools {
  max_count : Z;
  max_city : string }.

(** [find_max_schools_in_city], on the items of [data] in their order. *)
Definition find_max_schools_in_city (data : dict) : max_schools :=
  fold_left
    (fun result kv =>
       if (max_count result <? snd kv)%Z
       then mk_max_schools (snd kv) (fst kv)
       else result)
    data (mk_max_schools 0 EmptyString).

(** An instance of [SchoolDataSet].  Its methods are given the object and
    give it back as they leave it. *)
Record SchoolDataSet := mk_SchoolDataSet {
  SchoolDataSet_schools : list School;
  SchoolDataSet__lookup_nces_id : dict }.

(** [SchoolDataSet.__init__] *)
Definition SchoolDataSet_init : SchoolDataSet := mk_SchoolDataSet [] [].

(** [SchoolDataSet.__len__] *)
Definition SchoolDataSet_len (self : SchoolDataSet) : nat :=
  length (SchoolDataSet_schools self).

(** The loop of [_occurrence_count] from [schools] on, with [results] the
    items of the local dictionary.  The bare [except] takes every exception
    of the body and goes on with the dictionary as it is. *)
Fixpoint _occurrence_count_loop (fn : School -> M string)
    (schools : list School) (results : dict) : M dict :=
  match schools with
  | [] => ret results
  | school :: schools' =>
      results <-
        try_except
          (val <- fn school ;;
           let results :=
             if negb (bool_decide (is_Some (dict_get val results)))
             then dict_set val 0%Z results
             else results in
           match dict_get val results with
           | Some n => ret (dict_set val (n + 1)%Z results)
           | None => ret results
           end)
          (fun _ => true)
          (fun _ => ret results) ;;
      _occurrence_count_loop fn schools' results
  end.

(** [SchoolDataSet._occurrence_count] *)
Definition _occurrence_count (self : SchoolDataSet) (fn : School -> M string)
    : M dict :=
  _occurrence_count_loop fn (SchoolDataSet_schools self) [].

(** [SchoolDataSet.state_occurrence_count] *)
Definition state_occurrence_count (self : SchoolDataSet) : M dict :=
  _occurrence_count self (fun x => ret (City_state (School_city x))).

(** [SchoolDataSet.metro_occurrence_count]; [None] has no [name]. *)
Definition metro_occurrence_count (self : SchoolDataSet) : M dict :=
  _occurrence_count self
    (fun x => match School_locale_code x with
              | Some code => ret (name code)
              | None => raise AttributeError
              end).

(** [SchoolDataSet.city_occurrence_count] *)
Definition city_occurrence_count (self : SchoolDataSet) : M dict :=
  _occurrence_count self (fun x => ret (City_city (School_city x))).

(** *** Reading the data file *)

(** What running code that reads files gives: a value, an exception of the
    classes [X], or no end. *)
Inductive result (X A : Type) :=
| Return (a : A)
| Throw (x : X)
| Loops.
#[global] Arguments Return {X A} a.
#[global] Arguments Throw {X A} x.
#[global] Arguments Loops {X A}.

(** What a call of [reader.__next__()] finds: a row, or text it cannot
    decode.  The [csv.reader] of a file is the list of what its successive
    calls find; at the end of the list it raises [StopIteration]. *)
Inductive reader_event :=
| Row (line : list string)
| Undecodable.

Inductive next_exn :=
| StopIteration
| UnicodeDecodeError.

(** The exceptions [load_csv] lets out. *)
Inductive load_exn :=
| FileNotFoundError
| Header (e : next_exn).

(** [reader.__next__()] *)
Definition reader_next (reader : list reader_event)
    : result next_exn (list string) * list reader_event :=
  match reader with
  | [] => (Throw StopIteration, [])
  | Row line :: reader' => (Return line, reader')
  | Undecodable :: reader' => (Throw UnicodeDecodeError, reader')
  end.

(** What the program is run in.  [fs filepath] is [None] when no file is at
    [filepath], and otherwise what a [csv.reader] of the file gives.
    [exn_str e] is [str(e)]: [exn] carries no message, so the text of an
    exception is given from outside.  [search_csv_path] is
    [join_path(PROJECT_ROOT, "school_data.csv")] and [main_csv_path] is
    [os.path.join(os.path.dirname(__file__), "school_data.csv")]. *)
Record environment := mk_environment {
  fs : string -> option (list reader_event);
  exn_str : exn -> string;
  search_csv_path : string;
  main_csv_path : string }.

(** [SchoolDataSet._read_line]: the object and the reader as they are left.
    A line of 11 fields is the argument list of [School]. *)
Definition _read_line (self : SchoolDataSet) (reader : list reader_event)
    (w : world)
    : result (exn + next_exn) unit * SchoolDataSet * list reader_event * world :=
  match reader_next reader with
  | (Throw e, reader) => (Throw (inr e), self, reader, w)
  | (Loops, reader) => (Loops, self, reader, w)
  | (Return line, reader) =>
      match line with
      | [sid; agency_id; agency_name; name; city; state; lat; long;
         locale_code; urban_code; status_code] =>
          match School_init sid agency_id agency_name name city state lat long
                  locale_code urban_code status_code w with
          | (Ok new_school, w) =>
              (Return tt,
               mk_SchoolDataSet (SchoolDataSet_schools self ++ [new_school])
                 (SchoolDataSet__lookup_nces_id self),
               reader, w)
          | (Raise e, w) => (Throw (inl e), self, reader, w)
          | (Diverge, w) => (Loops, self, reader, w)
          end
      | _ => (* len(line) != 11 *) (Return tt, self, reader, w)
      end
  end.

(** [print(text, end=...)] with an empty [end]: the text, without a line end. *)
Definition stdout_write (text : string) : M unit :=
  fun w => (Ok tt, set_stdout (stdout w ++ [text]) w).

(** [f"\rRead Count: {read_count}"] *)
Definition read_count_line (read_count : nat) : string :=
  (String (ascii_of_nat 13) "Read Count: " ++ PyStr.of_nat read_count)%string.

#[global] Arguments read_count_line : simpl never.

(** The text [load_csv] prints after the loop. *)
Definition read_count_note : string :=
  (String (ascii_of_nat 10)
     "NOTE: Read Count = Total lines read. It may not reflect how many records were created."
   ++ String (ascii_of_nat 10) "-------")%string.

(** The [while True] loop of [load_csv].  Every turn takes one event from
    the reader, so [fuel] beyond the length of the reader is never used up. *)
Fixpoint load_csv_loop (env : environment) (fuel : nat)
    (self : SchoolDataSet)
    (reader : list reader_event) (read_count : nat) (w : world)
    : result load_exn unit * SchoolDataSet * world :=
  match fuel with
  | O => (Loops, self, w)
  | S fuel' =>
      let read_count := S read_count in
      let w := snd (stdout_write (read_count_line read_count) w) in
      match _read_line self reader w with
      | (Return _, self, reader, w) =>
          load_csv_loop env fuel' self reader read_count w
      | (Throw (inr UnicodeDecodeError), self, reader, w) =>
          let w := snd (log_emit (LogWarning "Line read error") w) in
          load_csv_loop env fuel' self reader read_count w
      | (Throw (inl ValueError), self, reader, w) =>
          let w := snd (log_emit
                          (LogWarning ("Invalid Value Found. "
                                       ++ exn_str env ValueError)%string) w) in
          load_csv_loop env fuel' self reader read_count w
      | (Throw (inr StopIteration), self, reader, w) => (Return tt, self, w)
      | (Throw (inl e), self, reader, w) =>
          let w := snd (log_emit
                          (LogWarning ("Unexpected exception: "
                                       ++ exn_str env e)%string) w) in
          let w := snd (log_emit (LogException e) w) in
          load_csv_loop env fuel' self reader read_count w
      | (Loops, self, reader, w) => (Loops, self, w)
      end
  end.

(** [SchoolDataSet.load_csv] *)
Definition load_csv (env : environment) (self : SchoolDataSet)
    (filepath : string)
    (has_header : bool) (w : world)
    : result load_exn unit * SchoolDataSet * world :=
  match fs env filepath with
  | None => (Throw FileNotFoundError, self, w)
  | Some reader =>
      let w := snd (log_emit
                      (LogInfo ("Processing " ++ filepath ++ "...")%string) w) in
      match (if has_header then reader_next reader
             else (Return [], reader)) with
      | (Throw e, _) => (Throw (Header e), self, w)
      | (Loops, _) => (Loops, self, w)
      | (Return _, reader) =>
          match load_csv_loop env (S (length reader)) self reader 0 w with
          | (Return _, self, w) =>
              (Return tt, self,
               snd (print read_count_note w))
          | r => r
          end
      end
  end.

(** [str(v)] for an [int] *)
Definition str_of_Z (v : Z) : string :=
  NilZero.string_of_int (Z.to_int v).

(** [data.items()] for what [get_count_metadata] returned; a list has no
    [items]. *)
Definition items_of (data : counts_result) : M dict :=
  match data with
  | ResDict d => fun w => (Ok (the_dict d w), w)
  | ResList _ => raise AttributeError
  end.

(** [for k, v in items: print(f"{k}: {v}")] *)
Fixpoint print_items (items : dict) : M unit :=
  match items with
  | [] => ret tt
  | (k, v) :: items' =>
      print (k ++ ": " ++ str_of_Z v)%string ;;; print_items items'
  end.

(** [print_counts] *)
Definition print_counts (dataset : list School) : M unit :=
  print ("Total Schools: " ++ PyStr.of_nat (length dataset))%string ;;;
  print "Schools by State:" ;;;
  by_state <- get_count_metadata cls_City (Some "state"%string) ;;
  items <- items_of by_state ;;
  print_items items ;;;
  print "..." ;;;
  print "Schools by Metro-centric Locale:" ;;;
  mcl <- get_count_metadata cls_School (Some "locale"%string) ;;
  items <- items_of mcl ;;
  print_items items ;;;
  print "..." ;;;
  by_city <- get_count_metadata cls_City (Some "city"%string) ;;
  items <- items_of by_city ;;
  let max_schools := find_max_schools_in_city items in
  print ("City with the most schools: " ++ max_city max_schools ++ " ("
         ++ str_of_Z (max_count max_schools) ++ " schools)")%string ;;;
  n <- (fun w => (Ok (length (City_class_obj_list w)), w)) ;;
  print ("Unique cities with at least one school: " ++ PyStr.of_nat n
         ++ String (ascii_of_nat 10) (String (ascii_of_nat 10) EmptyString))%string.

(** ** The rest of [lib/school_search.py], and [count_schools.py] *)



(** *** Notions used to state the further properties *)

(** The value a call of [search] was given for [field], if any. *)
Definition kwarg (field : string) (kwargs : list (string * string))
    : option string :=
  option_map snd (List.find (fun kv => String.eqb field (fst kv)) kwargs).

(** The [Agency.get_or_create] invocations a call makes, as (id, name). *)
Definition Agency_invocations (c : call) : list (string * string) :=
  match c with
  | Call_City_get_or_create _ _ => []
  | Call_Agency_get_or_create agency_id agency_name =>
      [(agency_id, agency_name)]
  | Call_School _ agency_id agency_name _ _ _ _ _ _ _ _ =>
      [(agency_id, agency_name)]
  end.

Definition pair_eqb (a b : string * string) : bool :=
  String.eqb (fst a) (fst b) && String.eqb (snd a) (snd b).

(** [x] after [acc], unless it is there. *)
Definition add_first (x : string * string) (acc : list (string * string))
    : list (string * string) :=
  if existsb (pair_eqb x) acc then acc else acc ++ [x].


(** A dictionary of counts as [d[k] += 1] leaves it: no key twice, no count
    below 1. *)
Definition dict_ok (d : dict) : Prop :=
  List.NoDup (map fst d) /\ Forall (fun kv => (1 <= snd kv)%Z) d.

(** The city and state of the school a call constructs: those of a [School]
    row with a 2-character state. *)
Definition constructed (c : call) : list (string * string) :=
  match c with
  | Call_School _ _ _ _ city state _ _ _ _ _ =>
      if (String.length state =? 2)%nat then [(city, state)] else []
  | _ => []
  end.

(** The call is a [School] construction. *)
Definition is_School_call (c : call) : bool :=
  match c with
  | Call_School _ _ _ _ _ _ _ _ _ _ _ => true
  | _ => false
  end.

(** The name of the locale classification of a school, if it has one. *)
Definition locale_name (x : School) : option string :=
  option_map name (School_locale_code x).

(** The school has the locale classification of name [n]. *)
Definition has_locale_name (n : string) (x : School) : bool :=
  match locale_name x with
  | Some v => String.eqb v n
  | None => false
  end.

(** The [School] construction a reader event leads to: one for a row of 11
    fields, none for any other row and for text that cannot be decoded. *)
Definition row_calls (ev : reader_event) : list call :=
  match ev with
  | Row [sid; agency_id; agency_name; name; city; state; lat; long;
         locale_code; urban_code; status_code] =>
      [Call_School sid agency_id agency_name name city state lat long
         locale_code urban_code status_code]
  | _ => []
  end.

(** [w] with the log [l] and the output [s]. *)
Definition with_io (l : list log_record) (s : list string) (w : world)
    : world :=
  set_log l (set_stdout s w).

(** The state without its log and its output: the registries, the counters,
    the tallies, the list objects and [SEARCH]. *)
Definition data_part (w : world) : world := with_io [] [] w.

(** The events left for the loop of [load_csv] once the header of the file
    is read: none when reading the header raises. *)
Definition reader_body (has_header : bool) (reader : list reader_event)
    : option (list reader_event) :=
  if has_header then
    match reader with
    | Row _ :: reader' => Some reader'
    | _ => None
    end
  else Some reader.

(** The rows of 11 fields whose state has 2 characters. *)
Definition accepted (ev : reader_event) : bool :=
  match ev with
  | Row [sid; agency_id; agency_name; name; city; state; lat; long;
         locale_code; urban_code; status_code] =>
      (String.length state =? 2)%nat
  | _ => false
  end.

(** The warning the loop of [load_csv] logs for a reader event: text that
    cannot be decoded, and a row of 11 fields that [School] refuses. *)
Definition row_warnings (env : environment) (ev : reader_event)
    : list log_record :=
  match ev with
  | Undecodable => [LogWarning "Line read error"]
  | Row [sid; agency_id; agency_name; name; city; state; lat; long;
         locale_code; urban_code; status_code] =>
      if (String.length state =? 2)%nat then []
      else [LogWarning ("Invalid Value Found. " ++ exn_str env ValueError)%string]
  | Row _ => []
  end.

(** A file for the properties at concrete inputs: a header, two rows that
    make a school, text that cannot be decoded, a row of 3 fields and a row
    whose state has 3 characters. *)
Definition sample_reader : list reader_event :=
  [Row ["NCESSCH"; "LEAID"; "LEANM05"; "SCHNAM05"; "LCITY05"; "LSTATE05";
        "LATCOD"; "LONCOD"; "MLOCALE"; "ULOCALE"; "status05"];
   Row ["1"; "A1"; "District"; "Lincoln"; "Springfield"; "IL";
        "39.8"; "-89.6"; "1"; "11"; "1"];
   Undecodable;
   Row ["2"; "A1"; "District"];
   Row ["3"; "A2"; "County"; "Central"; "Peoria"; "ILL";
        "40.7"; "-89.6"; "3"; "13"; "2"];
   Row ["4"; "A1"; "District"; "East"; "Peoria"; "IL";
        "40.7"; "-89.5"; "x"; "13"; "2"]]%string.

Definition sample_env : environment :=
  mk_environment
    (fun filepath =>
       if String.eqb filepath "school_data.csv" then Some sample_reader
       else None)
    (fun _ => "Invalid State")
    "school_data.csv" "school_data.csv".





(** The data of the state alone: the registries, the counters, the tallies
    and the allocation counter, without the engine, the list objects, the log
    and the output. *)
Definition data_only (w : world) : world :=
  set_SEARCH None (set_lists [] (set_log [] (set_stdout [] w))).


(** [f"{k}: {v}"] *)
Definition item_line (kv : string * Z) : string :=
  (fst kv ++ ": " ++ str_of_Z (snd kv))%string.

(** What [print_counts] prints for [dataset] in the state [w]. *)
Definition counts_lines (dataset : list School) (w : world) : list string :=
  ([("Total Schools: " ++ PyStr.of_nat (length dataset))%string;
    "Schools by State:"%string]
   ++ map item_line (counts_state w)
   ++ ["..."%string; "Schools by Metro-centric Locale:"%string]
   ++ map item_line (locale_code_count w)
   ++ ["..."%string;
       ("City with the most schools: "
        ++ max_city (find_max_schools_in_city (counts_city w)) ++ " ("
        ++ str_of_Z (max_count (find_max_schools_in_city (counts_city w)))
        ++ " schools)")%string;
       ("Unique cities with at least one school: "
        ++ PyStr.of_nat (length (City_class_obj_list w))
        ++ String (ascii_of_nat 10) (String (ascii_of_nat 10) EmptyString))%string])%list.

(** [w] with the engine [s] in [SEARCH] and the list objects [h]. *)
Definition with_engine (s : option SchoolSearchEngine)
    (h : list (list string)) (w : world) : world :=
  set_SEARCH s (set_lists h w).

(** ** Properties *)

(** *** Python strings *)

Example split_two_spaces : PyStr.split_space "a  b" = ["a"; EmptyString; "b"].
Proof. reflexivity. Qed.

Example split_empty : PyStr.split_space EmptyString = [EmptyString].
Proof. reflexivity. Qed.

Example lower_mixed : PyStr.lower "Lincoln HIGH il" = "lincoln high il".
Proof. reflexivity. Qed.

Example contains_mid : PyStr.contains "field" "springfield il" = true.
Proof. reflexivity. Qed.

Example contains_empty : PyStr.contains EmptyString "abc" = true.
Proof. reflexivity. Qed.

Example contains_case : PyStr.contains "Field" "springfield il" = false.
Proof. reflexivity. Qed.


(** *** The store of list objects *)

Lemma set_lists_lists w : set_lists (lists w) w = w.
Proof. by destruct w. Qed.

Lemma set_lists_twice h h' w : set_lists h (set_lists h' w) = set_lists h w.
Proof. reflexivity. Qed.

Lemma lists_set_lists h w : lists (set_lists h w) = h.
Proof. reflexivity. Qed.

Lemma extends_refl w : extends w w.
Proof. split; [apply set_lists_lists | split; [lia | done]]. Qed.

Lemma extends_trans w1 w2 w3 : extends w1 w2 -> extends w2 w3 -> extends w1 w3.
Proof.
  intros (S12 & L12 & A12) (S23 & L23 & A23). split; [|split].
  - unfold same_but_lists in *.
    rewrite <- S12 at 2. rewrite <- S23. by rewrite !set_lists_twice.
  - lia.
  - intros i Hi. rewrite A23 by lia. by apply A12.
Qed.

Lemma extends_alloc w l : extends w (set_lists (lists w ++ [l]) w).
Proof.
  split; [|split].
  - unfold same_but_lists. rewrite set_lists_twice. apply set_lists_lists.
  - rewrite lists_set_lists, length_app. lia.
  - intros i Hi. rewrite lists_set_lists. by apply lookup_app_l.
Qed.

Lemma items_extends w w' r :
  extends w w' -> r < length (lists w) -> items r w' = items r w.
Proof. intros (_ & _ & A) Hr. unfold items. by rewrite A. Qed.

Lemma items_alloc w l : items (length (lists w)) (set_lists (lists w ++ [l]) w) = l.
Proof.
  unfold items. rewrite lists_set_lists.
  rewrite lookup_app_r by lia. by rewrite Nat.sub_diag.
Qed.

(** *** Running the monad *)

Lemma bind_ok {A B} (m : M A) (k : A -> M B) w a w' :
  m w = (Ok a, w') -> bind m k w = k a w'.
Proof. unfold bind. by intros ->. Qed.

Lemma bind_raise {A B} (m : M A) (k : A -> M B) w e w' :
  m w = (Raise e, w') -> bind m k w = (Raise e, w').
Proof. unfold bind. by intros ->. Qed.

Lemma run_get_list r w : get_list r w = (Ok (items r w), w).
Proof. reflexivity. Qed.

Lemma run_list_len r w : list_len r w = (Ok (length (items r w)), w).
Proof. reflexivity. Qed.

Lemma run_new_list l w :
  new_list l w = (Ok (length (lists w)), set_lists (lists w ++ [l]) w).
Proof. reflexivity. Qed.

Lemma run_list_append r x w :
  list_append r x w = (Ok tt, set_lists (<[r := items r w ++ [x]]> (lists w)) w).
Proof. reflexivity. Qed.

Lemma run_list_pop_empty r w :
  items r w = [] -> list_pop r w = (Raise IndexError, w).
Proof.
  intros E. unfold list_pop. erewrite bind_ok by apply run_get_list.
  by rewrite E.
Qed.

Lemma run_list_pop r w front x :
  items r w = front ++ [x] ->
  list_pop r w = (Ok x, set_lists (<[r := front]> (lists w)) w).
Proof.
  intros E. unfold list_pop. erewrite bind_ok by apply run_get_list.
  rewrite E, rev_app_distr. simpl. unfold bind, put_list, ret.
  by rewrite rev_involutive.
Qed.

Lemma items_lookup r w l : lists w !! r = Some l -> items r w = l.
Proof. unfold items. by intros ->. Qed.

Lemma items_put_eq r l w :
  r < length (lists w) -> items r (set_lists (<[r := l]> (lists w)) w) = l.
Proof.
  intros Hr. unfold items. rewrite lists_set_lists.
  by rewrite list_lookup_insert_eq.
Qed.

Lemma items_put_ne r r' l w :
  r <> r' -> items r' (set_lists (<[r := l]> (lists w)) w) = items r' w.
Proof.
  intros Hr. unfold items. rewrite lists_set_lists.
  by rewrite list_lookup_insert_ne.
Qed.

Lemma backfill_eq fuel results remaining_options :
  backfill (S fuel) results remaining_options =
  (n <- list_len results ;;
   if (n <? 3)%nat then
     next_option <- list_pop remaining_options ;;
     rs <- get_list results ;;
     (if negb (list_mem next_option rs)
      then x <- list_pop remaining_options ;; list_append results x
      else ret tt) ;;;
     backfill fuel results remaining_options
   else ret tt).
Proof. reflexivity. Qed.

(** *** The [while] loop against [backfill_value] *)

Lemma changed_at_refl r1 r2 w : changed_at r1 r2 w w.
Proof. split; [apply set_lists_lists | done]. Qed.

Lemma changed_at_trans r1 r2 w1 w2 w3 :
  changed_at r1 r2 w1 w2 -> changed_at r1 r2 w2 w3 -> changed_at r1 r2 w1 w3.
Proof.
  intros (S12 & L12 & A12) (S23 & L23 & A23). split; [|split].
  - unfold same_but_lists in *.
    rewrite <- S12 at 2. rewrite <- S23. by rewrite !set_lists_twice.
  - lia.
  - intros i H1 H2. rewrite A23 by done. by apply A12.
Qed.

Lemma changed_at_put_l r1 r2 l w :
  changed_at r1 r2 w (set_lists (<[r1 := l]> (lists w)) w).
Proof.
  split; [|split].
  - unfold same_but_lists. rewrite set_lists_twice. apply set_lists_lists.
  - rewrite lists_set_lists. apply length_insert.
  - intros i H1 _. rewrite lists_set_lists. by apply list_lookup_insert_ne.
Qed.

Lemma changed_at_put_r r1 r2 l w :
  changed_at r1 r2 w (set_lists (<[r2 := l]> (lists w)) w).
Proof.
  split; [|split].
  - unfold same_but_lists. rewrite set_lists_twice. apply set_lists_lists.
  - rewrite lists_set_lists. apply length_insert.
  - intros i _ H2. rewrite lists_set_lists. by apply list_lookup_insert_ne.
Qed.

Lemma backfill_refines fuel : forall rem_rev rs w res rem,
  res <> rem ->
  res < length (lists w) ->
  rem < length (lists w) ->
  items res w = rs ->
  items rem w = rev rem_rev ->
  length rem_rev < fuel ->
  exists w', changed_at res rem w w' /\
    match backfill_value rs rem_rev with
    | Some out => backfill fuel res rem w = (Ok tt, w') /\ items res w' = out
    | None => backfill fuel res rem w = (Raise IndexError, w')
    end.
Proof.
  induction fuel as [|fuel IH];
    intros rem_rev rs w res rem Hne Hlres Hlrem Hres Hrem Hfuel; [lia|].
  rewrite backfill_eq. erewrite bind_ok by apply run_list_len. rewrite Hres.
  destruct rem_rev as [|next rest]; simpl backfill_value;
    destruct (length rs <? 3)%nat eqn:E;
    try (exists w; split; [apply changed_at_refl | done]).
  - (* nothing left to pop *)
    exists w. split; [apply changed_at_refl|].
    by erewrite bind_raise by (by apply run_list_pop_empty).
  - (* pop [next] *)
    simpl in Hrem, Hfuel.
    set (w1 := set_lists (<[rem := rev rest]> (lists w)) w).
    rewrite (bind_ok _ _ w next w1) by (by apply run_list_pop).
    assert (C1 : changed_at res rem w w1) by apply changed_at_put_r.
    assert (Hres1 : items res w1 = rs)
      by (unfold w1; by rewrite items_put_ne).
    assert (Hrem1 : items rem w1 = rev rest)
      by (unfold w1; by rewrite items_put_eq).
    assert (L1 : length (lists w1) = length (lists w)) by apply C1.
    rewrite (bind_ok _ _ w1 rs w1) by (by rewrite run_get_list, Hres1).
    destruct (list_mem next rs) eqn:Hmem; simpl negb; cbv iota.
    + (* already in the results: nothing is added *)
      erewrite bind_ok by reflexivity.
      destruct (IH rest rs w1 res rem) as (w' & C & H); try done; try lia.
      exists w'. split; [by eapply changed_at_trans|done].
    + destruct rest as [|x rest'].
      * (* the second pop finds the list empty *)
        exists w1. split; [done|].
        erewrite bind_raise; [done|].
        erewrite bind_raise; [done|]. by apply run_list_pop_empty.
      * simpl in Hrem1, Hfuel.
        set (w2 := set_lists (<[rem := rev rest']> (lists w1)) w1).
        set (w3 := set_lists (<[res := rs ++ [x]]> (lists w2)) w2).
        assert (C2 : changed_at res rem w1 w2) by apply changed_at_put_r.
        assert (C3 : changed_at res rem w2 w3) by apply changed_at_put_l.
        assert (L2 : length (lists w2) = length (lists w1)) by apply C2.
        assert (Hres2 : items res w2 = rs)
          by (unfold w2; by rewrite items_put_ne).
        erewrite (bind_ok _ _ w1 tt w3).
        2:{ rewrite (bind_ok _ _ w1 x w2) by (by apply run_list_pop).
            rewrite run_list_append. by rewrite Hres2. }
        destruct (IH rest' (rs ++ [x]) w3 res rem) as (w' & C & H);
          try done; try lia.
        -- unfold w3. rewrite lists_set_lists, length_insert. lia.
        -- unfold w3. rewrite lists_set_lists, length_insert. lia.
        -- unfold w3. rewrite items_put_eq; [done|lia].
        -- unfold w3. rewrite items_put_ne by done.
           unfold w2. rewrite items_put_eq; [done|lia].
        -- exists w'. split; [|done].
           eapply changed_at_trans; [exact C1|].
           eapply changed_at_trans; [exact C2|].
           eapply changed_at_trans; [exact C3|done].
Qed.

(** *** [_match_words] against [match_words_value] *)

Lemma match_words_eq self word0 words1 options :
  _match_words self (word0 :: words1) options =
  (options <- match options with
              | None => ret (_whole_terms self)
              | Some o =>
                  n <- list_len o ;;
                  ret (if (n =? 0)%nat then _whole_terms self else o)
              end ;;
   opts <- get_list options ;;
   remaining_options <-
     new_list (List.filter (fun option => PyStr.contains word0 option) opts) ;;
   n <- list_len remaining_options ;;
   if (n =? 0)%nat && negb (1 <? length (word0 :: words1))%nat then
     opts <- get_list options ;; new_list (take 3 opts)
   else
     remaining_options <-
       (if (n =? 0)%nat
        then _match_words self words1 (Some options)
        else ret remaining_options) ;;
     if (length (word0 :: words1) =? 1)%nat then
       rem <- get_list remaining_options ;; new_list (take 3 rem)
     else
       n <- list_len remaining_options ;;
       if (n <=? 3)%nat then ret remaining_options
       else
         results <- _match_words self words1 (Some remaining_options) ;;
         fuel <- list_len remaining_options ;;
         backfill (S fuel) results remaining_options ;;;
         ret results).
Proof. reflexivity. Qed.

Lemma run_options_or self options w :
  exists o,
    (match options with
     | None => ret (_whole_terms self)
     | Some o =>
         n <- list_len o ;;
         ret (if (n =? 0)%nat then _whole_terms self else o)
     end) w = (Ok o, w) /\
    items o w = options_or (items (_whole_terms self) w) (option_items options w) /\
    (_whole_terms self < length (lists w) -> option_valid options w ->
     o < length (lists w)).
Proof.
  destruct options as [o|]; simpl.
  - rewrite (bind_ok _ _ w (length (items o w)) w) by apply run_list_len.
    unfold options_or. destruct (length (items o w) =? 0)%nat; eauto.
  - eexists. split; [reflexivity|]. by split.
Qed.
Lemma match_words_value_eq cache word0 words1 options :
  match_words_value cache (word0 :: words1) options =
  let options := options_or cache options in
  let filtered :=
    List.filter (fun option => PyStr.contains word0 option) options in
  if (length filtered =? 0)%nat && negb (1 <? length (word0 :: words1))%nat
  then Some (take 3 options)
  else
    match (if (length filtered =? 0)%nat
           then match_words_value cache words1 options
           else Some filtered) with
    | None => None
    | Some remaining =>
        if (length (word0 :: words1) =? 1)%nat then Some (take 3 remaining)
        else if (length remaining <=? 3)%nat then Some remaining
        else
          match match_words_value cache words1 remaining with
          | None => None
          | Some results => backfill_value results (rev remaining)
          end
    end.
Proof. reflexivity. Qed.

Lemma length_alloc w l :
  length (lists (set_lists (lists w ++ [l]) w)) = S (length (lists w)).
Proof. rewrite lists_set_lists, length_app. simpl. lia. Qed.

Lemma extends_changed_at w w1 w2 r1 r2 :
  extends w w1 -> changed_at r1 r2 w1 w2 ->
  length (lists w) <= r1 -> length (lists w) <= r2 ->
  extends w w2.
Proof.
  intros (S1 & L1 & A1) (S2 & L2 & A2) H1 H2. split; [|split].
  - unfold same_but_lists in *.
    rewrite <- S1 at 2. rewrite <- S2. by rewrite !set_lists_twice.
  - lia.
  - intros i Hi. rewrite A2 by lia. by apply A1.
Qed.

Lemma match_words_refines self words : forall options w,
  words <> [] ->
  _whole_terms self < length (lists w) ->
  option_valid options w ->
  refines_at self words options w.
Proof.
  induction words as [|word0 words1 IH]; intros options w Hne Hwt Hopt; [done|].
  clear Hne. unfold refines_at.
  rewrite match_words_eq, match_words_value_eq.
  destruct (run_options_or self options w) as (o & Ho & Hitems & Hvalid).
  specialize (Hvalid Hwt Hopt).
  rewrite (bind_ok _ _ w o w Ho). rewrite <- Hitems. cbv zeta.
  set (cache := items (_whole_terms self) w).
  set (filtered := List.filter (fun option => PyStr.contains word0 option) (items o w)).
  set (w1 := set_lists (lists w ++ [filtered]) w).
  assert (E1 : extends w w1) by apply extends_alloc.
  assert (L1 : length (lists w1) = S (length (lists w))) by apply length_alloc.
  assert (Hf1 : items (length (lists w)) w1 = filtered) by apply items_alloc.
  assert (Ho1 : items o w1 = items o w) by (by apply items_extends).
  assert (Hc1 : items (_whole_terms self) w1 = cache) by (by apply items_extends).
  rewrite (bind_ok _ _ w (items o w) w) by apply run_get_list.
  rewrite (bind_ok _ _ w (length (lists w)) w1) by apply run_new_list.
  rewrite (bind_ok _ _ w1 (length filtered) w1) by (by rewrite run_list_len, Hf1).
  (* the continuation once [remaining_options] is settled *)
  assert (Tail : forall r w2 remaining,
    words1 <> [] ->
    extends w w2 -> length (lists w) <= r < length (lists w2) ->
    items r w2 = remaining ->
    exists w', extends w w' /\
      match (if (length remaining <=? 3)%nat then Some remaining
             else match match_words_value cache words1 remaining with
                  | None => None
                  | Some results => backfill_value results (rev remaining)
                  end) with
      | Some out =>
          exists r',
            (n <- list_len r ;;
             if (n <=? 3)%nat then ret r
             else
               results <- _match_words self words1 (Some r) ;;
               fuel <- list_len r ;;
               backfill (S fuel) results r ;;;
               ret results) w2 = (Ok r', w') /\
            length (lists w) <= r' < length (lists w') /\ items r' w' = out
      | None =>
          (n <- list_len r ;;
           if (n <=? 3)%nat then ret r
           else
             results <- _match_words self words1 (Some r) ;;
             fuel <- list_len r ;;
             backfill (S fuel) results r ;;;
             ret results) w2 = (Raise IndexError, w')
      end).
  { intros r w2 remaining Hne1 E2 Hr Hrem.
    rewrite (bind_ok _ _ w2 (length remaining) w2) by (by rewrite run_list_len, Hrem).
    destruct (length remaining <=? 3)%nat eqn:Hlen.
    { exists w2. split; [done|]. exists r. by split. }
    assert (Hwt2 : _whole_terms self < length (lists w2)) by (destruct E2 as (_ & ? & _); lia).
    destruct (IH (Some r) w2 Hne1 Hwt2) as (w3 & E3 & H3);
      [unfold option_valid; lia|].
    simpl option_items in H3. rewrite Hrem in H3.
    rewrite (items_extends w w2) in H3 by done. fold cache in H3.
    destruct (match_words_value cache words1 remaining) as [results|].
    2:{ exists w3. split; [by eapply extends_trans|]. by apply bind_raise. }
    destruct H3 as (r2 & Hrun & Hr2 & Hres).
    assert (Hrem3 : items r w3 = remaining)
      by (rewrite (items_extends w2 w3) by (done || lia); done).
    assert (L3 : length (lists w2) <= length (lists w3)) by apply E3.
    destruct (backfill_refines (S (length remaining)) (rev remaining) results w3 r2 r)
      as (w4 & C4 & H4);
      [lia | lia | lia | done | by rewrite rev_involutive
      | rewrite length_rev; lia |].
    exists w4. split.
    { eapply extends_changed_at; [eapply extends_trans; [exact E2|exact E3]|exact C4|lia|lia]. }
    rewrite (bind_ok _ _ w2 r2 w3 Hrun).
    rewrite (bind_ok _ _ w3 (length remaining) w3) by (by rewrite run_list_len, Hrem3).
    destruct (backfill_value results (rev remaining)) as [out|].
    - destruct H4 as (Hb & Hout). exists r2.
      rewrite (bind_ok _ _ w3 tt w4 Hb). split; [done|]. split; [|done].
      destruct C4 as (_ & L4 & _). destruct E2 as (_ & ? & _).
      destruct E3 as (_ & ? & _). lia.
    - by apply bind_raise. }
  destruct words1 as [|word1 words2].
  - (* the last word *)
    clear Tail IH.
    change (negb (1 <? length [word0])%nat) with true.
    change (length [word0] =? 1)%nat with true. rewrite andb_true_r.
    destruct (length filtered =? 0)%nat eqn:Hz.
    + (* it matched nothing: options[:3] *)
      set (w2 := set_lists (lists w1 ++ [take 3 (items o w)]) w1).
      exists w2. split; [eapply extends_trans; [exact E1|apply extends_alloc]|].
      exists (length (lists w1)).
      rewrite (bind_ok _ _ w1 (items o w) w1) by (by rewrite run_get_list, Ho1).
      split; [apply run_new_list|]. split.
      * unfold w2. rewrite length_alloc. lia.
      * apply items_alloc.
    + (* remaining_options[:3] *)
      set (w2 := set_lists (lists w1 ++ [take 3 filtered]) w1).
      exists w2. split; [eapply extends_trans; [exact E1|apply extends_alloc]|].
      exists (length (lists w1)).
      rewrite (bind_ok _ _ w1 (length (lists w)) w1) by reflexivity.
      rewrite (bind_ok _ _ w1 filtered w1) by (by rewrite run_get_list, Hf1).
      split; [apply run_new_list|]. split.
      * unfold w2. rewrite length_alloc. lia.
      * apply items_alloc.
  - (* more words follow *)
    assert (Hne1 : word1 :: words2 <> []) by done.
    replace (negb (1 <? length (word0 :: word1 :: words2))%nat) with false by done.
    replace (length (word0 :: word1 :: words2) =? 1)%nat with false by done.
    rewrite andb_false_r.
    destruct (length filtered =? 0)%nat eqn:Hz.
    + (* the word matched nothing: go on without it *)
      destruct (IH (Some o) w1 Hne1) as (w2 & E2 & H2);
        [lia | unfold option_valid; lia |].
      simpl option_items in H2. rewrite Hc1, Ho1 in H2.
      destruct (match_words_value cache (word1 :: words2) (items o w)) as [remaining|].
      2:{ exists w2. split; [by eapply extends_trans|]. by apply bind_raise. }
      destruct H2 as (r & Hrun & Hr & Hrem).
      destruct (Tail r w2 remaining Hne1) as (w' & E' & H'); try done.
      { by eapply extends_trans. }
      { lia. }
      exists w'. split; [done|].
      by rewrite (bind_ok _ _ w1 r w2 Hrun).
    + destruct (Tail (length (lists w)) w1 filtered Hne1) as (w' & E' & H');
        try done; [lia|].
      exists w'. split; [done|].
      by rewrite (bind_ok _ _ w1 (length (lists w)) w1) by reflexivity.
Qed.

(** *** What the value-level search returns *)

Lemma In_take {A} (x : A) n l : In x (take n l) -> In x l.
Proof.
  revert n. induction l as [|y l IH]; intros [|n]; simpl; try done.
  intros [->|H]; [by left | right; by eapply IH].
Qed.

Lemma backfill_value_bound rem_rev : forall results out,
  backfill_value results rem_rev = Some out ->
  length results <= 3 ->
  length out <= 3 /\
  (forall e, In e out -> In e results \/ In e rem_rev).
Proof.
  induction rem_rev as [rem_rev IH] using (induction_ltof1 _ (@length string)).
  unfold ltof in IH. intros results out.
  destruct rem_rev as [|next rest]; simpl;
    destruct (length results <? 3)%nat eqn:E; try done;
    try (intros [= <-]; split; [done | by left]).
  destruct (list_mem next results).
  - simpl. intros H Hlen. destruct (IH rest ltac:(simpl; lia) _ _ H Hlen) as [? Hin].
    split; [done|]. intros e He. destruct (Hin e He); [by left | right; by right].
  - simpl. destruct rest as [|x rest']; [done|]. intros H Hlen.
    apply Nat.ltb_lt in E.
    destruct (IH rest' ltac:(simpl; lia) _ _ H) as [? Hin].
    { rewrite length_app. simpl. lia. }
    split; [done|]. intros e He. destruct (Hin e He) as [Hr|Hr].
    + apply in_app_or in Hr. destruct Hr as [?|[<-|[]]]; [by left|].
      right. right. by left.
    + right. right. by right.
Qed.

Lemma options_or_idem cache options :
  options_or cache (options_or cache options) = options_or cache options.
Proof.
  unfold options_or. destruct (length options =? 0)%nat eqn:E; [|by rewrite E].
  by destruct (length cache =? 0)%nat.
Qed.

Lemma options_or_nonempty cache options :
  (length options =? 0)%nat = false -> options_or cache options = options.
Proof. unfold options_or. by intros ->. Qed.

(** On non-empty [words], the value-level search gives at most 3 entries, all
    taken from the candidates it was given. *)
Lemma match_words_value_bound cache words : forall options out,
  words <> [] ->
  match_words_value cache words options = Some out ->
  length out <= 3 /\
  (forall e, In e out -> In e (options_or cache options)).
Proof.
  induction words as [|word0 words1 IH]; intros options out Hne; [done|].
  rewrite match_words_value_eq. cbv zeta.
  set (opts := options_or cache options).
  set (filtered := List.filter _ opts).
  assert (Hfilt : forall e, In e filtered -> In e opts).
  { intros e He. apply filter_In in He. apply He. }
  assert (Tail : forall remaining,
    words1 <> [] ->
    (forall e, In e remaining -> In e opts) ->
    (if (length remaining <=? 3)%nat then Some remaining
     else match match_words_value cache words1 remaining with
          | None => None
          | Some results => backfill_value results (rev remaining)
          end) = Some out ->
    length out <= 3 /\ (forall e, In e out -> In e opts)).
  { intros remaining Hne1 Hsub.
    destruct (length remaining <=? 3)%nat eqn:Hlen.
    { intros [= <-]. apply Nat.leb_le in Hlen. by split. }
    destruct (match_words_value cache words1 remaining) as [results|] eqn:Hrec;
      [|done].
    destruct (IH _ _ Hne1 Hrec) as [Hl Hin].
    rewrite options_or_nonempty in Hin
      by (apply Nat.leb_gt in Hlen; apply Nat.eqb_neq; lia).
    intros Hb. destruct (backfill_value_bound _ _ _ Hb Hl) as [Hl' Hin'].
    split; [done|]. intros e He. destruct (Hin' e He) as [Hr|Hr].
    - apply Hsub. by apply Hin.
    - apply Hsub. by apply in_rev. }
  destruct words1 as [|word1 words2].
  - change (negb (1 <? length [word0])%nat) with true.
    change (length [word0] =? 1)%nat with true. rewrite andb_true_r.
    destruct (length filtered =? 0)%nat.
    + intros [= <-]. split; [rewrite length_take; lia|].
      intros e He. by eapply In_take.
    + intros [= <-]. split; [rewrite length_take; lia|].
      intros e He. apply Hfilt. by eapply In_take.
  - assert (Hne1 : word1 :: words2 <> []) by done.
    replace (negb (1 <? length (word0 :: word1 :: words2))%nat) with false by done.
    replace (length (word0 :: word1 :: words2) =? 1)%nat with false by done.
    rewrite andb_false_r.
    destruct (length filtered =? 0)%nat.
    + destruct (match_words_value cache (word1 :: words2) opts) as [remaining|] eqn:Hrec;
        [|done].
      destruct (IH _ _ Hne1 Hrec) as [Hl Hin].
      unfold opts in Hin. rewrite options_or_idem in Hin. fold opts in Hin.
      by apply Tail.
    + by apply Tail.
Qed.

(** *** Building the engine *)

Lemma engine_in_items self cache w :
  engine_in self cache w -> items (_whole_terms self) w = cache.
Proof. apply items_lookup. Qed.

Lemma engine_in_valid self cache w :
  engine_in self cache w -> _whole_terms self < length (lists w).
Proof. unfold engine_in. apply lookup_lt_Some. Qed.

Lemma engine_in_extends self cache w w' :
  engine_in self cache w -> extends w w' -> engine_in self cache w'.
Proof.
  intros H (_ & _ & A). unfold engine_in. rewrite A; [done|].
  by eapply engine_in_valid.
Qed.

Lemma lookup_items r w :
  r < length (lists w) -> lists w !! r = Some (items r w).
Proof.
  intros Hr. unfold items.
  destruct (lookup_lt_is_Some_2 _ _ Hr) as [l Hl]. by rewrite Hl.
Qed.

Lemma build_cache_run self dataset : forall w,
  _whole_terms self < length (lists w) ->
  _build_cache self dataset w =
  (Ok tt, set_lists (<[_whole_terms self :=
                        items (_whole_terms self) w ++ cache_of dataset]>
                       (lists w)) w).
Proof.
  induction dataset as [|i dataset IH]; intros w Hwt; simpl.
  - unfold ret. rewrite app_nil_r.
    rewrite list_insert_id by (by apply lookup_items).
    by rewrite set_lists_lists.
  - erewrite bind_ok by apply run_list_append.
    rewrite IH by (rewrite lists_set_lists, length_insert; done).
    rewrite items_put_eq by done. rewrite lists_set_lists, set_lists_twice.
    rewrite list_insert_insert_eq. by rewrite <- app_assoc.
Qed.

Lemma init_run dataset w :
  SchoolSearchEngine_init dataset w =
  (Ok (mk_SchoolSearchEngine (length (lists w))),
   set_lists (lists w ++ [cache_of dataset]) w).
Proof.
  unfold SchoolSearchEngine_init.
  erewrite bind_ok by apply run_new_list.
  erewrite bind_ok.
  2:{ apply build_cache_run. simpl _whole_terms. rewrite length_alloc. lia. }
  unfold ret. f_equal. simpl _whole_terms.
  rewrite items_alloc, lists_set_lists, set_lists_twice. simpl app.
  f_equal. rewrite insert_app_r_alt by lia. by rewrite Nat.sub_diag.
Qed.

(** A new engine holds the cache of its dataset. *)
Lemma init_engine_in dataset w :
  exists self w',
    SchoolSearchEngine_init dataset w = (Ok self, w') /\
    engine_in self (cache_of dataset) w' /\ extends w w'.
Proof.
  eexists _, _. split; [apply init_run|]. split; [|apply extends_alloc].
  unfold engine_in. simpl. rewrite lookup_app_r by lia.
  by rewrite Nat.sub_diag.
Qed.

(** The result of [_match_words] on non-empty [words] is the value-level
    one. *)
Lemma match_words_result self cache words options w :
  words <> [] ->
  engine_in self cache w ->
  option_valid options w ->
  result_of (_match_words self words options) w =
  match match_words_value cache words (option_items options w) with
  | Some out => Ok out
  | None => Raise IndexError
  end.
Proof.
  intros Hne He Hv.
  destruct (match_words_refines self words options w Hne) as (w' & E & H);
    [by eapply engine_in_valid | done |].
  rewrite (engine_in_items _ _ _ He) in H. unfold result_of.
  destruct (match_words_value cache words (option_items options w)).
  - destruct H as (r & -> & _ & <-). done.
  - by rewrite H.
Qed.

Lemma split_space_nonempty q : PyStr.split_space q <> [].
Proof.
  induction q as [|c q IH]; simpl; [done|].
  destruct (Ascii.eqb c " "); [done|]. by destruct (PyStr.split_space q).
Qed.

Lemma split_space_single q :
  PyStr.has_char " " q = false -> PyStr.split_space q = [q].
Proof.
  induction q as [|c q IH]; [done|].
  cbn [PyStr.has_char PyStr.split_space].
  rewrite (Ascii.eqb_sym " " c). destruct (Ascii.eqb c " "); [done|].
  intros H. by rewrite IH.
Qed.

(** [phrase] in terms of the value-level search: the list it returns is
    new, the objects of [w] are as they were, and only a failure adds to the
    log. *)
Lemma phrase_run self cache q w :
  engine_in self cache w ->
  exists r w',
    phrase self q w = (Ok r, w') /\
    length (lists w) <= r < length (lists w') /\
    (forall i, i < length (lists w) -> lists w' !! i = lists w !! i) /\
    match match_words_value cache (PyStr.split_space q) [] with
    | Some out => items r w' = out /\ extends w w'
    | None =>
        items r w' = [] /\
        exists w1, _match_words self (PyStr.split_space q) None w
                   = (Raise IndexError, w1) /\
        log w' = log w ++ [LogError "Search error."; LogException IndexError]
    end.
Proof.
  intros He. unfold phrase, try_except.
  destruct (match_words_refines self (PyStr.split_space q) None w)
    as (w1 & E & H); [apply split_space_nonempty | by eapply engine_in_valid | done |].
  rewrite (engine_in_items _ _ _ He) in H. simpl option_items in H.
  destruct (match_words_value cache (PyStr.split_space q) []) as [out|].
  - destruct H as (r & -> & Hr & Hout). exists r, w1.
    split; [done|]. split; [done|]. split; [apply E | done].
  - rewrite H. cbn [is_Exception].
    assert (A1 : forall i, i < length (lists w) -> lists w1 !! i = lists w !! i)
      by apply E.
    assert (L1 : length (lists w) <= length (lists w1)) by apply E.
    assert (S1 : same_but_lists w w1) by apply E.
    eexists _, _. split; [reflexivity|]. simpl.
    split; [rewrite length_app; simpl; lia|].
    split.
    { intros i Hi. rewrite lookup_app_l by lia. by apply A1. }
    split.
    { unfold items. simpl. rewrite lookup_app_r by lia.
      by rewrite Nat.sub_diag. }
    exists w1. split; [done|].
    assert (Hlog : log w = log w1) by (by rewrite <- S1).
    rewrite Hlog. by rewrite <- app_assoc.
Qed.

Lemma phrase_result self cache q w :
  engine_in self cache w ->
  result_of (phrase self q) w =
  Ok (default [] (match_words_value cache (PyStr.split_space q) [])).
Proof.
  intros He. destruct (phrase_run self cache q w He) as (r & w' & Hrun & _ & _ & H).
  unfold result_of. rewrite Hrun.
  destruct (match_words_value cache (PyStr.split_space q) []); simpl.
  - by destruct H as [-> _].
  - by destruct H as [-> _].
Qed.

Lemma filter_none {A} (f : A -> bool) l :
  (forall x, In x l -> f x = false) -> List.filter f l = [].
Proof.
  induction l as [|x l IH]; intros H; simpl; [done|].
  rewrite (H x) by (by left). apply IH. intros y Hy. apply H. by right.
Qed.

Lemma take_all {A} (l : list A) n : length l <= n -> take n l = l.
Proof. intros H. by apply take_ge. Qed.



(** The last word matched nothing: the first 3 candidates. *)
Lemma match_words_value_last_none cache word options :
  (forall e, In e (options_or cache options) -> PyStr.contains word e = false) ->
  match_words_value cache [word] options = Some (take 3 (options_or cache options)).
Proof.
  intros H. rewrite match_words_value_eq. cbv zeta.
  rewrite (filter_none (fun option => PyStr.contains word option) _ H).
  reflexivity.
Qed.


(** C2: for an engine whose cache is in the store and every query [q],
    [phrase] returns: it neither raises nor runs forever.  The list it
    returns has between 0 and 3 entries, each of them an element of the
    cache; when [_match_words] raises, the exception stops at [phrase] and
    the list is empty.  The cache is left as it was, so this holds for every
    later call too. *)
Theorem C2_phrase_returns_at_most_three_from_cache self cache q w :
  engine_in self cache w ->
  exists r w' res,
    phrase self q w = (Ok r, w') /\
    lists w' !! r = Some res /\
    length res <= 3 /\
    (forall e, In e res -> In e cache) /\
    engine_in self cache w' /\
    (forall e w1,
       _match_words self (PyStr.split_space q) None w = (Raise e, w1) ->
       res = []).
Proof.
  intros He.
  destruct (phrase_run self cache q w He) as (r & w' & Hrun & Hr & Hold & H).
  exists r, w', (items r w'). split; [done|].
  split; [apply lookup_items; lia|].
  assert (Hwt : _whole_terms self < length (lists w)) by (by eapply engine_in_valid).
  assert (He' : engine_in self cache w').
  { unfold engine_in. rewrite Hold by done. exact He. }
  destruct (match_words_value cache (PyStr.split_space q) []) as [out|] eqn:E.
  - destruct H as [-> Hext].
    destruct (match_words_value_bound _ _ _ _ (split_space_nonempty q) E)
      as [Hl Hin].
    split; [done|]. split.
    { intros e Hi. apply Hin in Hi. exact Hi. }
    split; [done|]. intros e w1 Hraise.
    destruct (match_words_refines self (PyStr.split_space q) None w
                (split_space_nonempty q) Hwt I) as (w2 & _ & H2).
    rewrite (engine_in_items _ _ _ He) in H2. simpl option_items in H2.
    rewrite E in H2. destruct H2 as (r2 & Hok & _). congruence.
  - destruct H as [-> _]. simpl. split; [lia|]. by split.
Qed.

(** C3: when the only word left matches no candidate, [_match_words]
    returns the first 3 candidates, in their order; so a query of a single
    word that no cache entry contains gives the first 3 cache entries, not
    an empty list. *)
Theorem C3_last_word_without_match_gives_first_three self cache w :
  engine_in self cache w ->
  (forall word options,
     option_valid options w ->
     (forall e, In e (options_or cache (option_items options w)) ->
                PyStr.contains word e = false) ->
     result_of (_match_words self [word] options) w =
     Ok (take 3 (options_or cache (option_items options w)))) /\
  (forall q,
     PyStr.has_char " " q = false ->
     (forall e, In e cache -> PyStr.contains q e = false) ->
     result_of (phrase self q) w = Ok (take 3 cache) /\
     (cache <> [] -> take 3 cache <> [])).
Proof.
  intros He. split.
  - intros word options Hv Hnone.
    rewrite (match_words_result self cache) by done.
    by rewrite match_words_value_last_none.
  - intros q Hq Hnone. split; [|by destruct cache].
    rewrite (phrase_result self cache) by done.
    rewrite split_space_single by done.
    rewrite match_words_value_last_none by done.
    by destruct cache.
Qed.


(** *** The backfill at work *)

(** C1: the backfill of [_match_words] at work on four schools whose
    entries all contain "lincoln".  For "lincoln east" the loop checks the
    entry of Lincoln West and adds the one of Lincoln South, then checks
    Lincoln North and adds Lincoln East, which the result already has.  For
    "lincoln west" the second [pop] of an iteration finds the list empty:
    [_match_words] raises [IndexError] and [phrase] gives the empty list. *)
Theorem C1_backfill_adds_the_entry_it_did_not_check :
  exists self w,
    SchoolSearchEngine_init lincoln_dataset init_world = (Ok self, w) /\
    engine_in self
      ["lincoln east springfield il"; "lincoln north springfield il";
       "lincoln south springfield il"; "lincoln west springfield il"]%string w /\
    result_of (phrase self "lincoln east") w =
      Ok ["lincoln east springfield il"; "lincoln south springfield il";
          "lincoln east springfield il"]%string /\
    result_of (_match_words self ["lincoln"; "west"]%string None) w =
      Raise IndexError /\
    result_of (phrase self "lincoln west") w = Ok [].
Proof.
  eexists _, _. split; [apply init_run|]. repeat split; vm_compute; reflexivity.
Qed.

(** *** Case *)










(** *** Dictionaries *)

Lemma dict_get_set_eq k v d : dict_get k (dict_set k v d) = Some v.
Proof.
  induction d as [|[k' v'] d IH]; simpl.
  - by rewrite String.eqb_refl.
  - destruct (String.eqb k k') eqn:E; simpl; rewrite E; [done | exact IH].
Qed.

Lemma dict_get_set_ne k k' v d :
  k <> k' -> dict_get k' (dict_set k v d) = dict_get k' d.
Proof.
  intros Hne. induction d as [|[k0 v0] d IH]; simpl.
  - apply String.eqb_neq in Hne. rewrite String.eqb_sym in Hne. by rewrite Hne.
  - destruct (String.eqb k k0) eqn:E; simpl; [|by rewrite IH].
    apply String.eqb_eq in E. subst k0.
    assert (Hf : String.eqb k' k = false) by (apply String.eqb_neq; congruence).
    by rewrite Hf.
Qed.

Lemma dict_set_set k v v' d : dict_set k v (dict_set k v' d) = dict_set k v d.
Proof.
  induction d as [|[k0 v0] d IH]; simpl.
  - by rewrite String.eqb_refl.
  - destruct (String.eqb k k0) eqn:E; simpl; rewrite E; [done|]. by rewrite IH.
Qed.

Lemma dict_sum_set k v d :
  dict_sum (dict_set k v d) = (dict_sum d - count_of k d + v)%Z.
Proof.
  unfold count_of. induction d as [|[k0 v0] d IH]; simpl; [lia|].
  destruct (String.eqb k k0) eqn:E; simpl; [lia|].
  unfold dict_sum in *. simpl. rewrite IH. lia.
Qed.

Lemma dict_sum_incr k d : dict_sum (dict_incr k d) = (dict_sum d + 1)%Z.
Proof. unfold dict_incr. rewrite dict_sum_set. lia. Qed.

Lemma count_of_incr_eq k d : count_of k (dict_incr k d) = (count_of k d + 1)%Z.
Proof. unfold dict_incr. unfold count_of at 1. by rewrite dict_get_set_eq. Qed.

Lemma count_of_incr_ne k k' d : k <> k' -> count_of k' (dict_incr k d) = count_of k' d.
Proof. intros H. unfold dict_incr, count_of. by rewrite dict_get_set_ne. Qed.

Lemma the_dict_set_dict r d w : the_dict r (set_dict r d w) = d.
Proof. by destruct r. Qed.

Lemma the_dict_set_dict_ne r r' d w :
  r <> r' -> the_dict r' (set_dict r d w) = the_dict r' w.
Proof. by destruct r, r'. Qed.

Lemma set_dict_twice r d d' w : set_dict r d (set_dict r d' w) = set_dict r d w.
Proof. by destruct r. Qed.

Lemma set_dict_the_dict r w : set_dict r (the_dict r w) w = w.
Proof. by destruct r, w. Qed.

(** The four statements [if k not in d: d[k] = 0; d[k] += 1] as one step. *)
Lemma run_incr_then {B} r k (rest : M B) w :
  (present <- dict_contains r k ;;
   (if negb present then dict_setitem r k 0%Z else ret tt) ;;;
   n <- dict_getitem r k ;;
   dict_setitem r k (n + 1)%Z ;;;
   rest) w
  = rest (set_dict r (dict_incr k (the_dict r w)) w).
Proof.
  unfold bind at 1. unfold dict_contains. unfold dict_incr, count_of.
  destruct (dict_get k (the_dict r w)) as [v|] eqn:E.
  - rewrite bool_decide_eq_true_2 by eauto. simpl negb. cbv iota.
    unfold bind at 1. unfold ret at 1. unfold bind at 1. unfold dict_getitem.
    rewrite E. unfold bind at 1. unfold dict_setitem. done.
  - rewrite bool_decide_eq_false_2 by (by intros [? ?]). simpl negb. cbv iota.
    unfold bind at 1. unfold dict_setitem at 1. unfold bind at 1.
    unfold dict_getitem. rewrite the_dict_set_dict, dict_get_set_eq.
    unfold bind at 1. unfold dict_setitem.
    by rewrite the_dict_set_dict, set_dict_twice, dict_set_set.
Qed.

Lemma run_increment_count_metadata {E} `{SearchableEnum E}
    (class_code : option E) r w :
  increment_count_metadata class_code r w =
  (Ok tt, match class_code with
          | None => w
          | Some code => set_dict r (dict_incr (name code) (the_dict r w)) w
          end).
Proof.
  destruct class_code as [code|]; [|done]. unfold increment_count_metadata.
  unfold bind at 1. unfold dict_contains. unfold dict_incr, count_of.
  destruct (dict_get (name code) (the_dict r w)) as [v|] eqn:Hget.
  - rewrite bool_decide_eq_true_2 by eauto. simpl negb. cbv iota.
    unfold bind at 1. unfold ret at 1. unfold bind at 1. unfold dict_getitem.
    rewrite Hget. unfold dict_setitem. done.
  - rewrite bool_decide_eq_false_2 by (by intros [? ?]). simpl negb. cbv iota.
    unfold bind at 1. unfold dict_setitem at 1. unfold bind at 1.
    unfold dict_getitem. rewrite the_dict_set_dict, dict_get_set_eq.
    unfold dict_setitem.
    by rewrite the_dict_set_dict, set_dict_twice, dict_set_set.
Qed.

(** *** [Search.search] *)

Lemma Search_search_filter {Obj} (l : list Obj) fields kwargs :
  Search_search l fields kwargs =
  List.filter (fun obj =>
    fold_left
      (fun matched fp =>
         match List.find (fun kv => String.eqb (fst fp) (fst kv)) kwargs with
         | Some kv => if negb (snd fp obj (snd kv)) then false else matched
         | None => matched
         end) fields true) l.
Proof.
  unfold Search_search.
  set (P := fun obj : Obj => fold_left _ fields true).
  enough (G : forall acc, fold_left
            (fun results obj => if P obj then results ++ [obj] else results) l acc
            = acc ++ List.filter P l) by apply (G []).
  induction l as [|x l IH]; intros acc; simpl; [by rewrite app_nil_r|].
  rewrite IH. destruct (P x); [|done]. by rewrite <- app_assoc.
Qed.

Lemma City_search l city state :
  Search_search l City_search_fields [("city", city); ("state", state)]%string =
  List.filter (City_matches city state) l.
Proof.
  rewrite Search_search_filter. apply filter_ext. intros obj.
  unfold City_matches. simpl.
  by destruct (String.eqb (City_city obj) city), (String.eqb (City_state obj) state).
Qed.

Lemma Agency_search l agency_id agency_name :
  Search_search l Agency_search_fields
    [("agency_id", agency_id); ("agency_name", agency_name)]%string =
  List.filter (Agency_matches agency_id agency_name) l.
Proof.
  rewrite Search_search_filter. apply filter_ext. intros obj.
  unfold Agency_matches. simpl.
  by destruct (String.eqb (Agency_agency_id obj) agency_id),
              (String.eqb (Agency_agency_name obj) agency_name).
Qed.

Lemma City_get_or_create_run city state w :
  String.length state = 2 ->
  City_get_or_create city state w =
  match List.filter (City_matches city state) (City_class_obj_list w) with
  | [] => City_init city state (City_counted city state w)
  | first :: _ => (Ok first, City_counted city state w)
  end.
Proof.
  intros Hlen. unfold City_get_or_create. rewrite Hlen.
  change (negb (2 =? 2)%nat) with false. cbv iota.
  unfold bind at 1. cbv beta iota. rewrite City_search.
  rewrite run_incr_then. rewrite run_incr_then.
  fold (City_counted city state w).
  by destruct (List.filter (City_matches city state) (City_class_obj_list w)).
Qed.

Lemma City_get_or_create_invalid city state w :
  String.length state <> 2 ->
  City_get_or_create city state w = (Raise ValueError, w).
Proof.
  intros Hlen. unfold City_get_or_create.
  apply Nat.eqb_neq in Hlen. by rewrite Hlen.
Qed.

Lemma Agency_get_or_create_run agency_id agency_name w :
  Agency_get_or_create agency_id agency_name w =
  match List.filter (Agency_matches agency_id agency_name) (Agency_class_obj_list w) with
  | [] => Agency_init agency_id agency_name w
  | first :: _ => (Ok first, w)
  end.
Proof.
  unfold Agency_get_or_create. unfold bind. rewrite Agency_search.
  by destruct (List.filter _ (Agency_class_obj_list w)).
Qed.

(** *** The registries *)

Lemma registry_ok_init : registry_ok init_world.
Proof. split; simpl; try constructor; intros ? []. Qed.

Lemma NoDup_map_In_eq {A B} (f : A -> B) l a b :
  List.NoDup (map f l) -> In a l -> In b l -> f a = f b -> a = b.
Proof.
  induction l as [|x l IH]; simpl; [done|].
  intros Hnd Ha Hb Hf. inversion Hnd as [|? ? Hx Hnd']; subst.
  destruct Ha as [->|Ha], Hb as [->|Hb]; try done.
  - exfalso. apply Hx. rewrite Hf. by apply in_map.
  - exfalso. apply Hx. rewrite <- Hf. by apply in_map.
  - by apply IH.
Qed.

Lemma NoDup_snoc {A} (l : list A) x :
  List.NoDup l -> ~ In x l -> List.NoDup (l ++ [x]).
Proof.
  intros Hl Hx. induction Hl as [|y l Hy Hl IH]; simpl.
  - constructor; [by intros [] | constructor].
  - constructor.
    + intros Hin. apply in_app_or in Hin as [Hin|[->|[]]]; [done|].
      apply Hx. by left.
    + apply IH. intros Hin. apply Hx. by right.
Qed.

Lemma City_matches_identity city state obj :
  City_matches city state obj = true <-> City_identity obj = (city, state).
Proof.
  unfold City_matches, City_identity. rewrite andb_true_iff, !String.eqb_eq.
  split; [by intros [-> ->] | by intros [= -> ->]].
Qed.

Lemma Agency_matches_identity agency_id agency_name obj :
  Agency_matches agency_id agency_name obj = true <->
  Agency_identity obj = (agency_id, agency_name).
Proof.
  unfold Agency_matches, Agency_identity. rewrite andb_true_iff, !String.eqb_eq.
  split; [by intros [-> ->] | by intros [= -> ->]].
Qed.

Lemma filter_head {A} (P : A -> bool) l x rest :
  List.filter P l = x :: rest -> In x l /\ P x = true.
Proof.
  intros H. apply filter_In. rewrite H. by left.
Qed.

Lemma filter_nil_not_In {A} (P : A -> bool) l x :
  List.filter P l = [] -> In x l -> P x = false.
Proof.
  intros H Hx. destruct (P x) eqn:E; [|done].
  assert (Hi : In x (List.filter P l)) by (apply filter_In; by split).
  by rewrite H in Hi.
Qed.

(** [w'] has the registries, tallies and the rest of [w], but for the two
    request counters of [City]. *)
Lemma City_counted_fields city state w :
  let w' := City_counted city state w in
  City_class_obj_list w' = City_class_obj_list w /\
  Agency_class_obj_list w' = Agency_class_obj_list w /\
  next_oid w' = next_oid w /\
  counts_city w' = dict_incr city (counts_city w) /\
  counts_state w' = dict_incr state (counts_state w) /\
  locale_code_count w' = locale_code_count w /\
  urban_code_count w' = urban_code_count w /\
  status_code_count w' = status_code_count w.
Proof. by repeat split. Qed.

Lemma registry_ok_counted city state w :
  registry_ok w -> registry_ok (City_counted city state w).
Proof. intros [? ? ? ? ? ?]. by split. Qed.

(** What a call of [City.get_or_create] with a 2-character state does. *)
Lemma City_get_or_create_spec city state w :
  String.length state = 2 ->
  exists inst w',
    City_get_or_create city state w = (Ok inst, w') /\
    In inst (City_class_obj_list w') /\
    City_identity inst = (city, state) /\
    (exists new, City_class_obj_list w' = City_class_obj_list w ++ new) /\
    Agency_class_obj_list w' = Agency_class_obj_list w /\
    (registry_ok w -> registry_ok w') /\
    counts_city w' = dict_incr city (counts_city w) /\
    counts_state w' = dict_incr state (counts_state w) /\
    locale_code_count w' = locale_code_count w /\
    urban_code_count w' = urban_code_count w /\
    status_code_count w' = status_code_count w.
Proof.
  intros Hlen. rewrite City_get_or_create_run by done.
  destruct (List.filter (City_matches city state) (City_class_obj_list w))
    as [|first rest] eqn:Hf.
  - (* no instance yet: a new one *)
    eexists _, _. split; [reflexivity|]. simpl.
    split; [apply in_or_app; right; by left|]. split; [done|].
    split; [by eexists|]. split; [done|]. split; [|done].
    intros [H1 H2 H3 H4 H5 H6]. split; simpl; try done.
    + rewrite map_app. apply NoDup_snoc; [done|]. simpl.
      intros Hin. apply in_map_iff in Hin as (c & Hc & Hin).
      apply (proj2 (City_matches_identity city state c)) in Hc.
      by rewrite (filter_nil_not_In _ _ _ Hf Hin) in Hc.
    + rewrite map_app. apply NoDup_snoc; [done|]. simpl.
      intros Hin. apply in_map_iff in Hin as (c & Hc & Hin).
      apply H5 in Hin. lia.
    + intros c Hin. apply in_app_or in Hin as [Hin|[<-|[]]]; simpl.
      * apply H5 in Hin. lia.
      * lia.
    + intros a Hin. apply H6 in Hin. lia.
  - (* the instance is there *)
    destruct (filter_head _ _ _ _ Hf) as [Hin Hm].
    apply City_matches_identity in Hm.
    eexists _, _. split; [reflexivity|]. simpl.
    split; [done|]. split; [done|]. split; [exists []; by rewrite app_nil_r|].
    split; [done|]. split; [|done]. apply registry_ok_counted.
Qed.

(** What a call of [Agency.get_or_create] does. *)
Lemma Agency_get_or_create_spec agency_id agency_name w :
  exists inst w',
    Agency_get_or_create agency_id agency_name w = (Ok inst, w') /\
    In inst (Agency_class_obj_list w') /\
    Agency_identity inst = (agency_id, agency_name) /\
    (exists new, Agency_class_obj_list w' = Agency_class_obj_list w ++ new) /\
    City_class_obj_list w' = City_class_obj_list w /\
    (registry_ok w -> registry_ok w') /\
    counts_city w' = counts_city w /\
    counts_state w' = counts_state w /\
    locale_code_count w' = locale_code_count w /\
    urban_code_count w' = urban_code_count w /\
    status_code_count w' = status_code_count w.
Proof.
  rewrite Agency_get_or_create_run.
  destruct (List.filter (Agency_matches agency_id agency_name) (Agency_class_obj_list w))
    as [|first rest] eqn:Hf.
  - eexists _, _. split; [reflexivity|]. simpl.
    split; [apply in_or_app; right; by left|]. split; [done|].
    split; [by eexists|]. split; [done|]. split; [|done].
    intros [H1 H2 H3 H4 H5 H6]. split; simpl; try done.
    + rewrite map_app. apply NoDup_snoc; [done|]. simpl.
      intros Hin. apply in_map_iff in Hin as (c & Hc & Hin).
      apply (proj2 (Agency_matches_identity agency_id agency_name c)) in Hc.
      by rewrite (filter_nil_not_In _ _ _ Hf Hin) in Hc.
    + rewrite map_app. apply NoDup_snoc; [done|]. simpl.
      intros Hin. apply in_map_iff in Hin as (c & Hc & Hin).
      apply H6 in Hin. lia.
    + intros c Hin. apply H5 in Hin. lia.
    + intros a Hin. apply in_app_or in Hin as [Hin|[<-|[]]]; simpl.
      * apply H6 in Hin. lia.
      * lia.
  - destruct (filter_head _ _ _ _ Hf) as [Hin Hm].
    apply Agency_matches_identity in Hm.
    eexists _, _. split; [reflexivity|].
    split; [done|]. split; [done|]. split; [exists []; by rewrite app_nil_r|].
    done.
Qed.

(** *** Constructing a [School] *)

Lemma run_convert_int raw w :
  convert_type builtin_int raw false w = (Ok (converted py_int raw), w).
Proof.
  unfold convert_type, try_except, bind, builtin_int, converted.
  by destruct (py_int raw).
Qed.

Lemma run_convert_float raw w :
  convert_type builtin_float raw false w = (Ok (converted py_float raw), w).
Proof.
  unfold convert_type, try_except, bind, builtin_float, converted.
  by destruct (py_float raw).
Qed.

Lemma run_find_val {E} `{SearchableEnum E} raw w :
  find_val (converted py_int raw) w = (Ok (resolve raw), w).
Proof.
  unfold find_val, try_except, bind, Enum_call, converted, resolve.
  destruct (py_int raw) as [n|]; [|done].
  by destruct (List.find (fun m => Z.eqb (value m) n) members).
Qed.

Lemma run_tally {E} `{SearchableEnum E} (code : option E) r w :
  increment_count_metadata code r w = (Ok tt, tallied code r w).
Proof. apply run_increment_count_metadata. Qed.

Lemma School_init_run sid agency_id agency_name name city state lat long
    locale_code urban_code status_code w :
  School_init sid agency_id agency_name name city state lat long
    locale_code urban_code status_code w =
  match Agency_get_or_create agency_id agency_name w with
  | (Ok agency, w1) =>
      match City_get_or_create city state w1 with
      | (Ok the_city, w2) =>
          (Ok (mk_School sid name agency the_city
                 (converted py_float lat) (converted py_float long)
                 (resolve locale_code) (resolve urban_code)
                 (resolve status_code)),
           tallied (resolve (E:=SchoolStatusCodes) status_code)
             School__status_code_count
             (tallied (resolve (E:=UrbanLocaleCodes) urban_code)
                School__urban_code_count
                (tallied (resolve (E:=LocaleCodes) locale_code)
                   School__locale_code_count w2)))
      | (Raise e, w2) => (Raise e, w2)
      | (Diverge, w2) => (Diverge, w2)
      end
  | (Raise e, w1) => (Raise e, w1)
  | (Diverge, w1) => (Diverge, w1)
  end.
Proof.
  unfold School_init. unfold bind at 1.
  destruct (Agency_get_or_create agency_id agency_name w) as [[agency| |] w1];
    try done.
  unfold bind at 1.
  destruct (City_get_or_create city state w1) as [[the_city| |] w2]; try done.
  rewrite (bind_ok _ _ _ _ _ (run_convert_float lat w2)).
  rewrite (bind_ok _ _ _ _ _ (run_convert_float long w2)).
  rewrite (bind_ok _ _ _ _ _ (run_convert_int locale_code w2)).
  rewrite (bind_ok _ _ _ _ _ (run_find_val locale_code w2)).
  rewrite (bind_ok _ _ _ _ _ (run_tally _ _ w2)).
  rewrite (bind_ok _ _ _ _ _ (run_convert_int urban_code _)).
  rewrite (bind_ok _ _ _ _ _ (run_find_val urban_code _)).
  rewrite (bind_ok _ _ _ _ _ (run_tally _ _ _)).
  rewrite (bind_ok _ _ _ _ _ (run_convert_int status_code _)).
  rewrite (bind_ok _ _ _ _ _ (run_find_val status_code _)).
  rewrite (bind_ok _ _ _ _ _ (run_tally _ _ _)).
  reflexivity.
Qed.

(** The three tallies touch nothing but their own dictionary. *)
Lemma tallied3_fields (lc : option LocaleCodes) (uc : option UrbanLocaleCodes)
    (sc : option SchoolStatusCodes) w :
  let w' := tallied sc School__status_code_count
              (tallied uc School__urban_code_count
                 (tallied lc School__locale_code_count w)) in
  City_class_obj_list w' = City_class_obj_list w /\
  Agency_class_obj_list w' = Agency_class_obj_list w /\
  next_oid w' = next_oid w /\
  counts_city w' = counts_city w /\
  counts_state w' = counts_state w /\
  locale_code_count w' = counted_code lc (locale_code_count w) /\
  urban_code_count w' = counted_code uc (urban_code_count w) /\
  status_code_count w' = counted_code sc (status_code_count w).
Proof. destruct lc, uc, sc; by repeat split. Qed.

Lemma registry_ok_fields w w' :
  City_class_obj_list w' = City_class_obj_list w ->
  Agency_class_obj_list w' = Agency_class_obj_list w ->
  next_oid w' = next_oid w ->
  registry_ok w -> registry_ok w'.
Proof.
  intros Hc Ha Hn [? ? ? ? ? ?]. split; rewrite ?Hc, ?Ha, ?Hn; done.
Qed.

(** One call of the process. *)
Lemma do_call_step c w :
  exists o w',
    do_call c w = (o, w') /\
    o <> Diverge /\
    (registry_ok w -> registry_ok w') /\
    (exists new, City_class_obj_list w' = City_class_obj_list w ++ new) /\
    (exists new, Agency_class_obj_list w' = Agency_class_obj_list w ++ new) /\
    counts_city w' =
      fold_left (fun d cs => dict_incr (fst cs) d) (counted_invocations c)
        (counts_city w) /\
    locale_code_count w' =
      match school_of o with
      | Some s => counted_code (School_locale_code s) (locale_code_count w)
      | None => locale_code_count w
      end /\
    urban_code_count w' =
      match school_of o with
      | Some s => counted_code (School_urban_code s) (urban_code_count w)
      | None => urban_code_count w
      end /\
    status_code_count w' =
      match school_of o with
      | Some s => counted_code (School_status_code s) (status_code_count w)
      | None => status_code_count w
      end.
Proof.
  destruct c as [city state | agency_id agency_name
                | sid agency_id agency_name name city state lat long lc uc sc];
    unfold do_call, counted_invocations, City_invocations; simpl List.filter.
  - destruct (Nat.eqb_spec (String.length state) 2) as [Hlen|Hlen].
    + destruct (City_get_or_create_spec city state w Hlen)
        as (inst & w' & Hrun & _ & _ & Hc & Ha & Hok & Hcc & _ & Hl & Hu & Hs).
      rewrite (bind_ok _ _ _ _ _ Hrun). eexists _, _. split; [reflexivity|].
      split; [done|]. split; [done|]. split; [done|].
      split; [exists []; by rewrite app_nil_r|]. by simpl.
    + rewrite (bind_raise _ _ _ _ _ (City_get_or_create_invalid city state w Hlen)).
      eexists _, _. split; [reflexivity|]. split; [done|]. split; [done|].
      split; [exists []; by rewrite app_nil_r|].
      split; [exists []; by rewrite app_nil_r|]. by simpl.
  - destruct (Agency_get_or_create_spec agency_id agency_name w)
      as (inst & w' & Hrun & _ & _ & Ha & Hc & Hok & Hcc & _ & Hl & Hu & Hs).
    rewrite (bind_ok _ _ _ _ _ Hrun). eexists _, _. split; [reflexivity|].
    split; [done|]. split; [done|].
    split; [exists []; by rewrite app_nil_r|]. split; [done|]. by simpl.
  - destruct (Agency_get_or_create_spec agency_id agency_name w)
      as (agency & w1 & Hrun1 & _ & _ & Ha1 & Hc1 & Hok1 & Hcc1 & _ & Hl1 & Hu1 & Hs1).
    unfold bind at 1. rewrite School_init_run, Hrun1.
    destruct (Nat.eqb_spec (String.length state) 2) as [Hlen|Hlen].
    + destruct (City_get_or_create_spec city state w1 Hlen)
        as (the_city & w2 & Hrun2 & _ & _ & Hc2 & Ha2 & Hok2 & Hcc2 & _ & Hl2 & Hu2 & Hs2).
      rewrite Hrun2.
      destruct (tallied3_fields (resolve lc) (resolve uc) (resolve sc) w2)
        as (Tc & Ta & Tn & Tcc & _ & Tl & Tu & Ts).
      eexists _, _. split; [reflexivity|]. split; [done|]. split.
      { intros Hok. eapply registry_ok_fields; [exact Tc|exact Ta|exact Tn|].
        by apply Hok2, Hok1. }
      split; [rewrite Tc, <- Hc1; exact Hc2|].
      split; [rewrite Ta, Ha2; exact Ha1|].
      split; [rewrite Tcc, Hcc2, Hcc1; done|].
      simpl. rewrite Tl, Tu, Ts, Hl2, Hu2, Hs2, Hl1, Hu1, Hs1. done.
    + rewrite (City_get_or_create_invalid city state w1 Hlen).
      eexists _, _. split; [reflexivity|]. split; [done|]. split; [done|].
      split; [exists []; by rewrite app_nil_r|]. split; [done|]. by simpl.
Qed.

(** *** A process, call after call *)

Lemma run_calls_cons c cs w :
  run_calls (c :: cs) w =
  (fst (do_call c w) :: fst (run_calls cs (snd (do_call c w))),
   snd (run_calls cs (snd (do_call c w)))).
Proof.
  simpl. destruct (do_call c w) as [o w1]. simpl.
  by destruct (run_calls cs w1).
Qed.

Lemma run_calls_spec cs : forall w,
  let os := fst (run_calls cs w) in
  let w' := snd (run_calls cs w) in
  (registry_ok w -> registry_ok w') /\
  (exists new, City_class_obj_list w' = City_class_obj_list w ++ new) /\
  (exists new, Agency_class_obj_list w' = Agency_class_obj_list w ++ new) /\
  counts_city w' =
    fold_left (fun d cs => dict_incr (fst cs) d)
      (flat_map counted_invocations cs) (counts_city w) /\
  locale_code_count w' =
    fold_left (fun d s => counted_code (School_locale_code s) d)
      (schools_of os) (locale_code_count w) /\
  urban_code_count w' =
    fold_left (fun d s => counted_code (School_urban_code s) d)
      (schools_of os) (urban_code_count w) /\
  status_code_count w' =
    fold_left (fun d s => counted_code (School_status_code s) d)
      (schools_of os) (status_code_count w).
Proof.
  induction cs as [|c cs IH]; intros w.
  - simpl. split; [done|]. split; [exists []; by rewrite app_nil_r|].
    split; [exists []; by rewrite app_nil_r|]. done.
  - cbv zeta. rewrite run_calls_cons. cbn [fst snd].
    destruct (do_call_step c w)
      as (o & w1 & Hrun & _ & Hok & [nc Hc] & [na Ha] & Hcc & Hl & Hu & Hs).
    rewrite Hrun. cbn [fst snd].
    destruct (IH w1) as (Hok' & [nc' Hc'] & [na' Ha'] & Hcc' & Hl' & Hu' & Hs').
    split; [by intros ?; apply Hok', Hok|].
    split; [exists (nc ++ nc'); by rewrite Hc', Hc, app_assoc|].
    split; [exists (na ++ na'); by rewrite Ha', Ha, app_assoc|].
    split.
    { rewrite Hcc', Hcc. simpl flat_map. by rewrite fold_left_app. }
    unfold schools_of in *. cbn [omap].
    rewrite Hl', Hu', Hs', Hl, Hu, Hs.
    destruct o as [[c0|a0|s0]| |]; done.
Qed.

Lemma count_of_fold_incr city invocations : forall d,
  count_of city (fold_left (fun d cs => dict_incr (fst cs) d) invocations d) =
  (count_of city d +
   Z.of_nat (length (List.filter (fun cs : string * string => String.eqb (fst cs) city)
                       invocations)))%Z.
Proof.
  induction invocations as [|[c s] invocations IH]; intros d; simpl; [lia|].
  rewrite IH. destruct (String.eqb_spec c city) as [->|Hne].
  - rewrite count_of_incr_eq. simpl length. lia.
  - rewrite count_of_incr_ne by done. lia.
Qed.


(** C5: in a process that has made any calls, a [get_or_create] call (of
    [City] with a 2-character state, of [Agency] with any arguments)
    returns an instance, and the same call made again after any further
    calls returns that very instance: the same object, with the same
    [oid].  All along, each registry holds at most one instance per
    identity, and its instances are distinct objects. *)
Theorem C5_get_or_create_returns_the_one_instance (before between : list call) :
  let w0 := snd (run_calls before init_world) in
  (forall city state,
     String.length state = 2 ->
     exists inst w1 w3,
       City_get_or_create city state w0 = (Ok inst, w1) /\
       City_get_or_create city state (snd (run_calls between w1)) = (Ok inst, w3)) /\
  (forall agency_id agency_name,
     exists inst w1 w3,
       Agency_get_or_create agency_id agency_name w0 = (Ok inst, w1) /\
       Agency_get_or_create agency_id agency_name (snd (run_calls between w1))
       = (Ok inst, w3)) /\
  List.NoDup (map City_identity (City_class_obj_list w0)) /\
  List.NoDup (map Agency_identity (Agency_class_obj_list w0)) /\
  List.NoDup (map City_oid (City_class_obj_list w0)) /\
  List.NoDup (map Agency_oid (Agency_class_obj_list w0)).
Proof.
  intros w0.
  assert (Hok0 : registry_ok w0).
  { destruct (run_calls_spec before init_world) as (Hok & _).
    apply Hok, registry_ok_init. }
  split; [|split; [|by destruct Hok0]].
  - intros city state Hlen.
    destruct (City_get_or_create_spec city state w0 Hlen)
      as (inst & w1 & Hrun & Hin & Hid & _ & _ & Hok1 & _).
    exists inst, w1.
    destruct (run_calls_spec between w1) as (Hok2 & [new Hc] & _).
    set (w2 := snd (run_calls between w1)) in *.
    specialize (Hok2 (Hok1 Hok0)).
    assert (Hin2 : In inst (City_class_obj_list w2))
      by (rewrite Hc; apply in_or_app; by left).
    rewrite (City_get_or_create_run city state w2 Hlen).
    destruct (List.filter (City_matches city state) (City_class_obj_list w2))
      as [|first rest] eqn:Hf.
    + apply (proj2 (City_matches_identity city state inst)) in Hid.
      by rewrite (filter_nil_not_In _ _ _ Hf Hin2) in Hid.
    + destruct (filter_head _ _ _ _ Hf) as [Hinf Hm].
      apply City_matches_identity in Hm.
      assert (first = inst) as ->.
      { eapply (NoDup_map_In_eq City_identity); try done.
        - apply Hok2.
        - by rewrite Hm, Hid. }
      by eexists.
  - intros agency_id agency_name.
    destruct (Agency_get_or_create_spec agency_id agency_name w0)
      as (inst & w1 & Hrun & Hin & Hid & _ & _ & Hok1 & _).
    exists inst, w1.
    destruct (run_calls_spec between w1) as (Hok2 & _ & [new Ha] & _).
    set (w2 := snd (run_calls between w1)) in *.
    specialize (Hok2 (Hok1 Hok0)).
    assert (Hin2 : In inst (Agency_class_obj_list w2))
      by (rewrite Ha; apply in_or_app; by left).
    rewrite (Agency_get_or_create_run agency_id agency_name w2).
    destruct (List.filter (Agency_matches agency_id agency_name)
                (Agency_class_obj_list w2)) as [|first rest] eqn:Hf.
    + apply (proj2 (Agency_matches_identity agency_id agency_name inst)) in Hid.
      by rewrite (filter_nil_not_In _ _ _ Hf Hin2) in Hid.
    + destruct (filter_head _ _ _ _ Hf) as [Hinf Hm].
      apply Agency_matches_identity in Hm.
      assert (first = inst) as ->.
      { eapply (NoDup_map_In_eq Agency_identity); try done.
        - apply Hok2.
        - by rewrite Hm, Hid. }
      by eexists.
Qed.

Lemma filter_all {A} (P : A -> bool) l :
  (forall x, In x l -> P x = true) -> List.filter P l = l.
Proof.
  induction l as [|x l IH]; intros H; simpl; [done|].
  rewrite (H x) by (by left). f_equal. apply IH. intros y Hy. apply H. by right.
Qed.

Lemma flat_map_counted calls :
  flat_map counted_invocations calls =
  List.filter (fun cs : string * string => (String.length (snd cs) =? 2)%nat)
    (flat_map City_invocations calls).
Proof.
  induction calls as [|c calls IH]; simpl; [done|].
  by rewrite List.filter_app, IH.
Qed.

(** After any calls, the counter of a city name is the number of
    [City.get_or_create] invocations with that name that passed the check of
    the state. *)
Lemma counts_city_run_calls calls city :
  count_of city (counts_city (snd (run_calls calls init_world))) =
  Z.of_nat (length
    (List.filter (fun cs : string * string => String.eqb (fst cs) city)
       (List.filter (fun cs : string * string => (String.length (snd cs) =? 2)%nat)
          (flat_map City_invocations calls)))).
Proof.
  destruct (run_calls_spec calls init_world) as (_ & _ & _ & -> & _).
  rewrite count_of_fold_incr, flat_map_counted. simpl counts_city.
  unfold count_of at 1. simpl. lia.
Qed.

(** C6: a call of [City.get_or_create] with a 2-character state returns an
    instance and adds exactly 1 to the counter of its city name and 1 to the
    counter of its state, every other counter staying as it was, whether the
    instance was there or not.  So after any calls whose invocations all have
    a 2-character state, the counter of a city name is the number of
    invocations made with that name. *)
Theorem C6_city_counters_count_requests :
  (forall w city state,
     String.length state = 2 ->
     exists inst w',
       City_get_or_create city state w = (Ok inst, w') /\
       count_of city (counts_city w') = (count_of city (counts_city w) + 1)%Z /\
       count_of state (counts_state w') = (count_of state (counts_state w) + 1)%Z /\
       (forall c, c <> city ->
          count_of c (counts_city w') = count_of c (counts_city w)) /\
       (forall s, s <> state ->
          count_of s (counts_state w') = count_of s (counts_state w))) /\
  (forall calls city,
     (forall c s, In (c, s) (flat_map City_invocations calls) ->
                  String.length s = 2) ->
     count_of city (counts_city (snd (run_calls calls init_world))) =
     Z.of_nat (length
       (List.filter (fun cs : string * string => String.eqb (fst cs) city)
          (flat_map City_invocations calls)))).
Proof.
  split.
  - intros w city state Hlen.
    destruct (City_get_or_create_spec city state w Hlen)
      as (inst & w' & Hrun & _ & _ & _ & _ & _ & Hcc & Hcs & _).
    exists inst, w'. split; [done|]. rewrite Hcc, Hcs.
    split; [apply count_of_incr_eq|]. split; [apply count_of_incr_eq|].
    split; intros ? ?; by apply count_of_incr_ne.
  - intros calls city Hvalid. rewrite counts_city_run_calls.
    rewrite (filter_all (fun cs : string * string => (String.length (snd cs) =? 2)%nat));
      [done|].
    intros [c s] Hin. apply Nat.eqb_eq. by eapply Hvalid.
Qed.

(** C7: with a state that is not 2 characters long, [City.get_or_create]
    raises [ValueError] and leaves the whole state as it was: no instance,
    no registration, no count.  The [School] constructor that made the call
    raises the same error, and has then changed neither the [City] registry
    nor the counters. *)
Theorem C7_invalid_state_raises_and_changes_nothing w city state :
  String.length state <> 2 ->
  City_get_or_create city state w = (Raise ValueError, w) /\
  (forall sid agency_id agency_name name lat long lc uc sc,
     exists w',
       School_init sid agency_id agency_name name city state lat long lc uc sc w
       = (Raise ValueError, w') /\
       City_class_obj_list w' = City_class_obj_list w /\
       counts_city w' = counts_city w /\
       counts_state w' = counts_state w).
Proof.
  intros Hlen. split; [by apply City_get_or_create_invalid|].
  intros sid agency_id agency_name name lat long lc uc sc.
  destruct (Agency_get_or_create_spec agency_id agency_name w)
    as (agency & w1 & Hrun & _ & _ & _ & Hc & _ & Hcc & Hcs & _).
  exists w1. rewrite School_init_run, Hrun.
  by rewrite (City_get_or_create_invalid city state w1 Hlen).
Qed.


Lemma find_key_None {V} name (l : list (string * V)) :
  ~ In name (map fst l) ->
  List.find (fun kv => String.eqb name (fst kv)) l = None.
Proof.
  induction l as [|[k v] l IH]; simpl; [done|]. intros H.
  destruct (String.eqb_spec name k) as [->|Hne]; [exfalso; apply H; by left|].
  apply IH. intros Hin. apply H. by right.
Qed.

Lemma find_key_Some {V} name (d : V) (l : list (string * V)) :
  List.NoDup (map fst l) -> In (name, d) l ->
  List.find (fun kv => String.eqb name (fst kv)) l = Some (name, d).
Proof.
  induction l as [|[k v] l IH]; simpl; [done|]. intros Hnd Hin.
  inversion Hnd as [|? ? Hk Hnd']; subst.
  destruct Hin as [[= -> ->]|Hin]; [by rewrite String.eqb_refl|].
  destruct (String.eqb_spec name k) as [->|Hne]; [|by apply IH].
  exfalso. apply Hk. change k with (fst (k, d)). by apply in_map.
Qed.

Lemma counts_lookup_keys cls : List.NoDup (map fst (_counts_lookup cls)).
Proof.
  destruct cls; simpl; repeat constructor; simpl; intuition discriminate.
Qed.

(** C9: [get_count_metadata] never raises.  With a name that is not a key
    of the class's [_counts_lookup] it returns an empty list and logs one
    warning; with a key it returns the dictionary object under that key,
    the one the tallies are made in, and changes nothing; with no name it
    returns the list of all the dictionaries of the class. *)
Theorem C9_get_count_metadata_never_raises cls w :
  (forall name,
     ~ In name (map fst (_counts_lookup cls)) ->
     get_count_metadata cls (Some name) w =
     (Ok (ResList []),
      set_log (log w ++
        [LogWarning
           ("`" ++ name ++
            "` was not found to be a valid code name in School metadata. " ++
            "Options are: " ++ PyStr.join " " (map fst (_counts_lookup cls)))%string])
        w)) /\
  (forall name d,
     In (name, d) (_counts_lookup cls) ->
     get_count_metadata cls (Some name) w = (Ok (ResDict d), w)) /\
  get_count_metadata cls None w =
    (Ok (ResList (map snd (_counts_lookup cls))), w) /\
  (get_count_metadata cls_School (Some "locale"%string) w
     = (Ok (ResDict School__locale_code_count), w) /\
   get_count_metadata cls_City (Some "city"%string) w
     = (Ok (ResDict City__counts_city), w) /\
   forall sid agency_id agency_name name city state lat long lc uc sc s w',
     School_init sid agency_id agency_name name city state lat long lc uc sc w
     = (Ok s, w') ->
     the_dict School__locale_code_count w' =
       counted_code (School_locale_code s) (the_dict School__locale_code_count w) /\
     count_of city (the_dict City__counts_city w') =
       (count_of city (the_dict City__counts_city w) + 1)%Z).
Proof.
  split; [|split; [|split]].
  - intros name Hnot. unfold get_count_metadata.
    by rewrite find_key_None.
  - intros name d Hin. unfold get_count_metadata.
    by rewrite (find_key_Some name d) by (apply counts_lookup_keys || done).
  - done.
  - split; [done|]. split; [done|].
    intros sid agency_id agency_name name city state lat long lc uc sc s w'.
    rewrite School_init_run.
    destruct (Agency_get_or_create_spec agency_id agency_name w)
      as (agency & w1 & -> & _ & _ & _ & _ & _ & Hcc1 & _ & Hl1 & _).
    destruct (Nat.eqb_spec (String.length state) 2) as [Hlen|Hlen].
    + destruct (City_get_or_create_spec city state w1 Hlen)
        as (the_city & w2 & -> & _ & _ & _ & _ & _ & Hcc2 & _ & Hl2 & _).
      destruct (tallied3_fields (resolve lc) (resolve uc) (resolve sc) w2)
        as (_ & _ & _ & Tcc & _ & Tl & _).
      intros [= <- <-]. simpl the_dict. simpl School_locale_code.
      rewrite Tl, Tcc, Hl2, Hcc2, Hl1, Hcc1. split; [done|].
      apply count_of_incr_eq.
    + by rewrite (City_get_or_create_invalid city state w1 Hlen).
Qed.

(** *** The classification codes *)

Lemma find_val_int {E} `{SearchableEnum E} n w :
  find_val (inl n) w =
  (Ok (List.find (fun m => Z.eqb (value m) n) members), w).
Proof.
  unfold find_val, try_except, bind, Enum_call.
  by destruct (List.find (fun m => Z.eqb (value m) n) members).
Qed.

(** X1: looking a member of a code class up by its value gives the member
    back; a value that is found is the value of the member found; a value
    that is still a string is never found; and the lookup never raises,
    whatever it is given. *)
Theorem X1_find_val_round_trip :
  (forall (m : LocaleCodes) w, find_val (inl (value m)) w = (Ok (Some m), w)) /\
  (forall (m : UrbanLocaleCodes) w,
     find_val (inl (value m)) w = (Ok (Some m), w)) /\
  (forall (m : SchoolStatusCodes) w,
     find_val (inl (value m)) w = (Ok (Some m), w)) /\
  (forall E (HE : SearchableEnum E) n (m : E) w w',
     find_val (inl n) w = (Ok (Some m), w') ->
     value m = n /\ In m members /\ w' = w) /\
  (forall E (HE : SearchableEnum E) raw w,
     find_val (E:=E) (inr raw) w = (Ok None, w)) /\
  (forall E (HE : SearchableEnum E) val w,
     exists code, find_val (E:=E) val w = (Ok code, w)).
Proof.
  split; [|split; [|split; [|split; [|split]]]].
  - intros m w. rewrite find_val_int. by destruct m.
  - intros m w. rewrite find_val_int. by destruct m.
  - intros m w. rewrite find_val_int. by destruct m.
  - intros E HE n m w w'. rewrite find_val_int. intros [= Hf <-].
    apply find_some in Hf as [Hin Hv]. apply Z.eqb_eq in Hv. done.
  - done.
  - intros E HE [n|raw] w; [|by eexists].
    rewrite find_val_int. by eexists.
Qed.





(** *** [Search.search] with any keywords *)

Lemma search_fold_fields {Obj} (fields : list (string * (Obj -> string -> bool)))
    kwargs obj : forall matched,
  fold_left
    (fun matched fp =>
       match List.find (fun kv => String.eqb (fst fp) (fst kv)) kwargs with
       | Some kv => if negb (snd fp obj (snd kv)) then false else matched
       | None => matched
       end) fields matched = true <->
  matched = true /\
  forall field p v, In (field, p) fields -> kwarg field kwargs = Some v ->
                    p obj v = true.
Proof.
  induction fields as [|[f p] fields IH]; intros matched; simpl.
  - split; [intros ->; split; [done | by intros ? ? ? []] | by intros [-> _]].
  - rewrite IH. unfold kwarg. simpl.
    destruct (List.find (fun kv => String.eqb f (fst kv)) kwargs) as [kv|] eqn:Hf.
    + destruct (p obj (snd kv)) eqn:Hp; simpl.
      * split.
        -- intros [-> H]. split; [done|]. intros field q v [[= <- <-]|Hin] Hv.
           ++ rewrite Hf in Hv. simpl in Hv. by injection Hv as <-.
           ++ by eapply H.
        -- intros [-> H]. split; [done|]. intros field q v Hin. apply H. by right.
      * split; [by intros [? _]|]. intros [_ H].
        specialize (H f p (snd kv) (or_introl eq_refl)).
        rewrite Hf in H. simpl in H. rewrite Hp in H. by specialize (H eq_refl).
    + split.
      * intros [-> H]. split; [done|]. intros field q v [[= <- <-]|Hin] Hv.
        -- by rewrite Hf in Hv.
        -- by eapply H.
      * intros [-> H]. split; [done|]. intros field q v Hin. apply H. by right.
Qed.

Lemma filter_sublist {A} (P : A -> bool) l : sublist (List.filter P l) l.
Proof.
  induction l as [|x l IH]; simpl; [constructor|].
  destruct (P x); by constructor.
Qed.

(** X3: [search] returns, in the order of the registry, exactly the
    instances that pass the test of every search field for which a keyword
    was given: a field without keyword tests nothing, a keyword that is no
    search field is ignored, and a call without keywords returns all
    instances. *)
Theorem X3_search_tests_the_given_fields {Obj} (class_obj_list : list Obj)
    (search_fields : list (string * (Obj -> string -> bool)))
    (kwargs : list (string * string)) :
  (forall obj,
     In obj (Search_search class_obj_list search_fields kwargs) <->
     In obj class_obj_list /\
     forall field p v, In (field, p) search_fields ->
                       kwarg field kwargs = Some v -> p obj v = true) /\
  sublist (Search_search class_obj_list search_fields kwargs) class_obj_list /\
  Search_search class_obj_list search_fields [] = class_obj_list /\
  (forall k v,
     ~ In k (map fst search_fields) ->
     Search_search class_obj_list search_fields ((k, v) :: kwargs) =
     Search_search class_obj_list search_fields kwargs).
Proof.
  split; [|split; [|split]].
  - intros obj. rewrite Search_search_filter, filter_In, search_fold_fields.
    tauto.
  - rewrite Search_search_filter. apply filter_sublist.
  - rewrite Search_search_filter. apply filter_all. intros obj _.
    apply search_fold_fields. split; [done|]. by intros ? ? ? _ [=].
  - intros k v Hk. rewrite !Search_search_filter. apply filter_ext_in.
    intros obj _. apply eq_true_iff_eq. rewrite !search_fold_fields.
    assert (Hkw : forall field p, In (field, p) search_fields ->
              kwarg field ((k, v) :: kwargs) = kwarg field kwargs).
    { intros field p Hin. unfold kwarg. simpl.
      destruct (String.eqb_spec field k) as [->|]; [|done].
      exfalso. apply Hk. change k with (fst (k, p)). by apply in_map. }
    split; intros [? H]; (split; [done|]); intros field p v' Hin Hv.
    + eapply H; [done|]. by rewrite (Hkw _ _ Hin).
    + eapply H; [done|]. by rewrite <- (Hkw _ _ Hin).
Qed.
(** *** What a [School] construction needs *)


(** *** The registries as lists of first requests *)

Lemma pair_eqb_eq a b : pair_eqb a b = true <-> a = b.
Proof.
  destruct a, b. unfold pair_eqb. simpl.
  rewrite andb_true_iff, !String.eqb_eq. split; [by intros [-> ->] | by intros [= -> ->]].
Qed.

Lemma existsb_pair_eqb x l : existsb (pair_eqb x) l = true <-> In x l.
Proof.
  rewrite existsb_exists. split.
  - intros (y & Hy & He). apply pair_eqb_eq in He. by subst.
  - intros H. exists x. split; [done|]. by apply pair_eqb_eq.
Qed.

Lemma In_add_first x y acc : In y (add_first x acc) <-> y = x \/ In y acc.
Proof.
  unfold add_first. destruct (existsb (pair_eqb x) acc) eqn:E.
  - apply existsb_pair_eqb in E. split; [by right|]. by intros [->|].
  - rewrite in_app_iff. simpl. split; [intros [|[|[]]]; auto|].
    intros [->|]; auto.
Qed.

Lemma In_fold_add_first l : forall acc y,
  In y (fold_left (fun acc x => add_first x acc) l acc) <-> In y l \/ In y acc.
Proof.
  induction l as [|x l IH]; intros acc y; simpl; [tauto|].
  rewrite IH, In_add_first. split; [intros [|[->|]]|intros [[->|]|]]; auto.
Qed.

Lemma NoDup_add_first x acc : List.NoDup acc -> List.NoDup (add_first x acc).
Proof.
  intros H. unfold add_first. destruct (existsb (pair_eqb x) acc) eqn:E; [done|].
  apply NoDup_snoc; [done|]. intros Hin. apply existsb_pair_eqb in Hin. congruence.
Qed.

Lemma NoDup_fold_add_first l : forall acc,
  List.NoDup acc -> List.NoDup (fold_left (fun acc x => add_first x acc) l acc).
Proof.
  induction l as [|x l IH]; intros acc H; simpl; [done|].
  by apply IH, NoDup_add_first.
Qed.

Lemma City_filter_add_first city state l :
  map City_identity
    (match List.filter (City_matches city state) l with
     | [] => l ++ [mk_City 0 city state]
     | _ => l
     end) = add_first (city, state) (map City_identity l).
Proof.
  unfold add_first.
  destruct (List.filter (City_matches city state) l) as [|first rest] eqn:Hf.
  - destruct (existsb (pair_eqb (city, state)) (map City_identity l)) eqn:E.
    + apply existsb_pair_eqb, in_map_iff in E as (c & Hc & Hin).
      apply (proj2 (City_matches_identity city state c)) in Hc.
      by rewrite (filter_nil_not_In _ _ _ Hf Hin) in Hc.
    + by rewrite map_app.
  - destruct (filter_head _ _ _ _ Hf) as [Hin Hm].
    apply City_matches_identity in Hm.
    assert (E : existsb (pair_eqb (city, state)) (map City_identity l) = true).
    { apply existsb_pair_eqb. rewrite <- Hm. by apply in_map. }
    by rewrite E.
Qed.

Lemma Agency_filter_add_first agency_id agency_name l :
  map Agency_identity
    (match List.filter (Agency_matches agency_id agency_name) l with
     | [] => l ++ [mk_Agency 0 agency_id agency_name]
     | _ => l
     end) = add_first (agency_id, agency_name) (map Agency_identity l).
Proof.
  unfold add_first.
  destruct (List.filter (Agency_matches agency_id agency_name) l)
    as [|first rest] eqn:Hf.
  - destruct (existsb (pair_eqb (agency_id, agency_name)) (map Agency_identity l))
      eqn:E.
    + apply existsb_pair_eqb, in_map_iff in E as (c & Hc & Hin).
      apply (proj2 (Agency_matches_identity agency_id agency_name c)) in Hc.
      by rewrite (filter_nil_not_In _ _ _ Hf Hin) in Hc.
    + by rewrite map_app.
  - destruct (filter_head _ _ _ _ Hf) as [Hin Hm].
    apply Agency_matches_identity in Hm.
    assert (E : existsb (pair_eqb (agency_id, agency_name))
                  (map Agency_identity l) = true).
    { apply existsb_pair_eqb. rewrite <- Hm. by apply in_map. }
    by rewrite E.
Qed.

(** The fields of the state a call of [City.get_or_create] with a
    2-character state leaves. *)
Lemma City_get_or_create_fields city state w :
  String.length state = 2 ->
  let w' := snd (City_get_or_create city state w) in
  map City_identity (City_class_obj_list w') =
    add_first (city, state) (map City_identity (City_class_obj_list w)) /\
  Agency_class_obj_list w' = Agency_class_obj_list w /\
  counts_city w' = dict_incr city (counts_city w) /\
  counts_state w' = dict_incr state (counts_state w) /\
  locale_code_count w' = locale_code_count w /\
  urban_code_count w' = urban_code_count w /\
  status_code_count w' = status_code_count w.
Proof.
  intros Hlen. cbv zeta. rewrite City_get_or_create_run by done.
  rewrite <- City_filter_add_first.
  destruct (List.filter (City_matches city state) (City_class_obj_list w));
    simpl; [|done].
  by rewrite !map_app.
Qed.

Lemma Agency_get_or_create_fields agency_id agency_name w :
  let w' := snd (Agency_get_or_create agency_id agency_name w) in
  map Agency_identity (Agency_class_obj_list w') =
    add_first (agency_id, agency_name)
      (map Agency_identity (Agency_class_obj_list w)) /\
  City_class_obj_list w' = City_class_obj_list w /\
  counts_city w' = counts_city w /\
  counts_state w' = counts_state w /\
  locale_code_count w' = locale_code_count w /\
  urban_code_count w' = urban_code_count w /\
  status_code_count w' = status_code_count w.
Proof.
  cbv zeta. rewrite Agency_get_or_create_run.
  rewrite <- Agency_filter_add_first.
  destruct (List.filter (Agency_matches agency_id agency_name)
              (Agency_class_obj_list w)); simpl; [|done].
  by rewrite !map_app.
Qed.

Lemma snd_bind_ret {A B} (m : M A) (f : A -> B) w :
  snd (bind m (fun a => ret (f a)) w) = snd (m w).
Proof. unfold bind. by destruct (m w) as [[a|e|] w']. Qed.

(** One call, on the identities registered and the counter of states. *)
Lemma do_call_registry c w :
  let w' := snd (do_call c w) in
  map City_identity (City_class_obj_list w') =
    fold_left (fun acc x => add_first x acc) (counted_invocations c)
      (map City_identity (City_class_obj_list w)) /\
  map Agency_identity (Agency_class_obj_list w') =
    fold_left (fun acc x => add_first x acc) (Agency_invocations c)
      (map Agency_identity (Agency_class_obj_list w)) /\
  counts_state w' =
    fold_left (fun d cs => dict_incr (snd cs) d) (counted_invocations c)
      (counts_state w).
Proof.
  destruct c as [city state | agency_id agency_name
                | sid agency_id agency_name name city state lat long lc uc sc];
    unfold do_call, counted_invocations, City_invocations, Agency_invocations;
    simpl List.filter; cbv zeta; rewrite !snd_bind_ret.
  - destruct (Nat.eqb_spec (String.length state) 2) as [Hlen|Hlen].
    + destruct (City_get_or_create_fields city state w Hlen)
        as (Hc & Ha & _ & Hs & _).
      simpl. by rewrite Hc, Ha, Hs.
    + by rewrite (City_get_or_create_invalid city state w Hlen).
  - destruct (Agency_get_or_create_fields agency_id agency_name w)
      as (Ha & Hc & _ & Hs & _).
    simpl. by rewrite Hc, Ha, Hs.
  - destruct (Agency_get_or_create_fields agency_id agency_name w)
      as (Ha1 & Hc1 & _ & Hs1 & _).
    destruct (Agency_get_or_create_spec agency_id agency_name w)
      as (agency & w1 & Hrun1 & _).
    rewrite Hrun1 in Hc1, Ha1, Hs1. cbn [snd] in *.
    rewrite School_init_run, Hrun1.
    destruct (Nat.eqb_spec (String.length state) 2) as [Hlen|Hlen].
    + destruct (City_get_or_create_fields city state w1 Hlen)
        as (Hc2 & Ha2 & _ & Hs2 & _).
      destruct (City_get_or_create_spec city state w1 Hlen)
        as (the_city & w2 & Hrun2 & _).
      rewrite Hrun2 in Hc2, Ha2, Hs2. cbn [snd] in *. rewrite Hrun2.
      destruct (tallied3_fields (resolve lc) (resolve uc) (resolve sc) w2)
        as (Tc & Ta & _ & _ & Ts & _).
      cbn [snd]. simpl fold_left.
      by rewrite Tc, Ta, Ts, Hc2, Ha2, Hs2, Hc1, Ha1, Hs1.
    + rewrite (City_get_or_create_invalid city state w1 Hlen). cbn [snd].
      simpl. by rewrite Hc1, Ha1, Hs1.
Qed.

Lemma run_calls_registry calls : forall w,
  let w' := snd (run_calls calls w) in
  map City_identity (City_class_obj_list w') =
    fold_left (fun acc x => add_first x acc)
      (flat_map counted_invocations calls)
      (map City_identity (City_class_obj_list w)) /\
  map Agency_identity (Agency_class_obj_list w') =
    fold_left (fun acc x => add_first x acc)
      (flat_map Agency_invocations calls)
      (map Agency_identity (Agency_class_obj_list w)) /\
  counts_state w' =
    fold_left (fun d cs => dict_incr (snd cs) d)
      (flat_map counted_invocations calls) (counts_state w).
Proof.
  induction calls as [|c calls IH]; intros w; [done|].
  cbv zeta. rewrite run_calls_cons. cbn [snd flat_map].
  destruct (do_call_registry c w) as (Hc & Ha & Hs).
  destruct (IH (snd (do_call c w))) as (Hc' & Ha' & Hs').
  rewrite Hc', Ha', Hs', Hc, Ha, Hs, !fold_left_app. done.
Qed.

(** *** The counters as dictionaries *)

Lemma In_keys_dict_set k k' v d :
  In k (map fst (dict_set k' v d)) <-> k = k' \/ In k (map fst d).
Proof.
  induction d as [|[k0 v0] d IH]; simpl.
  - split; [intros [<-|[]]; by left | intros [->|[]]; by left].
  - destruct (String.eqb_spec k' k0) as [->|Hne]; simpl.
    + split; [intros [<-|H]; auto | intros [->|[<-|H]]; auto].
    + rewrite IH. split; [intros [<-|[->|H]]; auto | intros [->|[<-|H]]; auto].
Qed.

Lemma NoDup_keys_dict_set k v d :
  List.NoDup (map fst d) -> List.NoDup (map fst (dict_set k v d)).
Proof.
  induction d as [|[k0 v0] d IH]; simpl; intros H.
  - constructor; [by intros [] | constructor].
  - inversion H as [|? ? Hk Hd]; subst.
    destruct (String.eqb_spec k k0) as [->|Hne]; simpl; [by constructor|].
    constructor; [|by apply IH].
    rewrite In_keys_dict_set. intros [->|Hin]; done.
Qed.

Lemma Forall_dict_set (P : string * Z -> Prop) k v d :
  P (k, v) -> Forall P d -> Forall P (dict_set k v d).
Proof.
  intros Hv. induction d as [|[k0 v0] d IH]; simpl; intros H.
  - by constructor.
  - inversion H as [|? ? H0 Hd]; subst.
    destruct (String.eqb_spec k k0) as [->|Hne]; constructor; auto.
Qed.

Lemma count_of_nonneg d k :
  Forall (fun kv : string * Z => (1 <= snd kv)%Z) d -> (0 <= count_of k d)%Z.
Proof.
  unfold count_of. induction d as [|[k0 v0] d IH]; simpl; intros H; [done|].
  inversion H as [|? ? H0 Hd]; subst. simpl in H0.
  destruct (String.eqb k k0); simpl; [lia | by apply IH].
Qed.

Lemma dict_ok_nil : dict_ok [].
Proof. split; constructor. Qed.

Lemma dict_ok_incr k d : dict_ok d -> dict_ok (dict_incr k d).
Proof.
  intros [Hk Hv]. split; [by apply NoDup_keys_dict_set|].
  apply Forall_dict_set; [|done]. simpl.
  pose proof (count_of_nonneg d k Hv). lia.
Qed.

Lemma dict_ok_count k d :
  dict_ok d -> ((1 <= count_of k d)%Z <-> In k (map fst d)).
Proof.
  intros [_ Hv]. unfold count_of.
  induction d as [|[k0 v0] d IH]; simpl; [split; [lia | done]|].
  inversion Hv as [|? ? H0 Hd]; subst. simpl in H0.
  destruct (String.eqb_spec k k0) as [->|Hne]; simpl.
  - split; [by left | lia].
  - rewrite (IH Hd). split; [by right | by intros [->|]].
Qed.

Lemma fold_incr_spec {A} (f : A -> string) l : forall d,
  dict_ok d ->
  let d' := fold_left (fun d x => dict_incr (f x) d) l d in
  dict_ok d' /\
  dict_sum d' = (dict_sum d + Z.of_nat (length l))%Z /\
  (forall k, In k (map fst d') <-> In k (map f l) \/ In k (map fst d)) /\
  (forall k, count_of k d' =
             (count_of k d +
              Z.of_nat (length (List.filter (fun x => String.eqb (f x) k) l)))%Z).
Proof.
  induction l as [|x l IH]; intros d Hd; simpl.
  - split; [done|]. split; [lia|]. split; [tauto|]. intros k. lia.
  - destruct (IH (dict_incr (f x) d) (dict_ok_incr _ _ Hd)) as (H1 & H2 & H3 & H4).
    split; [done|]. split; [rewrite H2, dict_sum_incr; lia|]. split.
    + intros k. rewrite H3. unfold dict_incr. rewrite In_keys_dict_set.
      split; [intros [|[->|]]|intros [[->|]|]]; auto.
    + intros k. rewrite H4. destruct (String.eqb_spec (f x) k) as [->|Hne].
      * rewrite count_of_incr_eq. simpl length. lia.
      * rewrite count_of_incr_ne by done. lia.
Qed.

Lemma counted_code_ok {E} `{SearchableEnum E} (code : option E) d :
  dict_ok d -> dict_ok (counted_code code d).
Proof. destruct code; [apply dict_ok_incr | done]. Qed.

Lemma fold_counted_ok {E} `{SearchableEnum E} (code : School -> option E) l :
  forall d, dict_ok d ->
  dict_ok (fold_left (fun d s => counted_code (code s) d) l d).
Proof.
  induction l as [|s l IH]; intros d Hd; simpl; [done|].
  by apply IH, counted_code_ok.
Qed.

(** The schools a process constructed are those of its [School] rows with a
    2-character state. *)
Lemma do_call_constructed c w :
  map (fun s => City_identity (School_city s)) (schools_of [fst (do_call c w)])
  = constructed c.
Proof.
  destruct c as [city state | agency_id agency_name
                | sid agency_id agency_name name city state lat long lc uc sc];
    unfold do_call, schools_of, constructed.
  - unfold bind. by destruct (City_get_or_create city state w) as [[a|e|] w'].
  - unfold bind. by destruct (Agency_get_or_create agency_id agency_name w) as [[a|e|] w'].
  - unfold bind at 1. rewrite School_init_run.
    destruct (Agency_get_or_create_spec agency_id agency_name w)
      as (agency & w1 & -> & _).
    destruct (Nat.eqb_spec (String.length state) 2) as [Hlen|Hlen].
    + destruct (City_get_or_create_spec city state w1 Hlen)
        as (the_city & w2 & -> & _ & Hid & _).
      simpl. by rewrite Hid.
    + by rewrite (City_get_or_create_invalid city state w1 Hlen).
Qed.

Lemma schools_of_cons o os :
  schools_of (o :: os) = schools_of [o] ++ schools_of os.
Proof. unfold schools_of. simpl. by destruct o as [[c|a|s]|e|]. Qed.

Lemma run_calls_constructed calls : forall w,
  map (fun s => City_identity (School_city s))
    (schools_of (fst (run_calls calls w)))
  = flat_map constructed calls.
Proof.
  induction calls as [|c calls IH]; intros w; [done|].
  rewrite run_calls_cons. cbn [fst flat_map].
  rewrite schools_of_cons, map_app, do_call_constructed. by rewrite IH.
Qed.

Lemma constructed_counted c :
  sublist (constructed c) (counted_invocations c).
Proof.
  destruct c; unfold constructed, counted_invocations; simpl;
    try apply sublist_nil_l.
  destruct (String.length state =? 2)%nat; repeat constructor.
Qed.

Lemma flat_map_sublist {A B} (f g : A -> list B) l :
  (forall x, sublist (f x) (g x)) -> sublist (flat_map f l) (flat_map g l).
Proof.
  intros H. induction l as [|x l IH]; simpl; [constructor|].
  by apply sublist_app.
Qed.

(** X6: after any calls, the counts of the city counter and those of the
    state counter both sum to the number of [City.get_or_create] requests
    that passed the check of the state.  That number is at least the number
    of [City] instances and at least the number of schools constructed. *)
Theorem X6_counters_sum_to_the_requests (calls : list call) :
  let w := snd (run_calls calls init_world) in
  let requests := length (flat_map counted_invocations calls) in
  dict_sum (counts_city w) = Z.of_nat requests /\
  dict_sum (counts_state w) = Z.of_nat requests /\
  length (City_class_obj_list w) <= requests /\
  length (schools_of (fst (run_calls calls init_world))) <= requests.
Proof.
  intros w requests.
  destruct (run_calls_spec calls init_world) as (_ & _ & _ & Hcc & _).
  destruct (run_calls_registry calls init_world) as (Hc & _ & Hs).
  fold w in Hcc, Hc, Hs. simpl in Hcc, Hc, Hs.
  destruct (fold_incr_spec fst (flat_map counted_invocations calls) [] dict_ok_nil)
    as (_ & Hsum1 & _).
  destruct (fold_incr_spec snd (flat_map counted_invocations calls) [] dict_ok_nil)
    as (_ & Hsum2 & _).
  split; [by rewrite Hcc, Hsum1|]. split; [by rewrite Hs, Hsum2|]. split.
  - rewrite <- (length_map City_identity), Hc.
    assert (G : forall l acc,
      length (fold_left (fun acc x => add_first x acc) l acc)
      <= length acc + length l).
    { induction l as [|x l IH]; intros acc; simpl; [lia|].
      etransitivity; [apply IH|]. unfold add_first.
      destruct (existsb (pair_eqb x) acc); rewrite ?length_app; simpl; lia. }
    apply (G _ []).
  - rewrite <- (length_map (fun s => City_identity (School_city s))).
    rewrite run_calls_constructed. apply sublist_length.
    apply flat_map_sublist, constructed_counted.
Qed.

(** X7: after any calls, each of the five counters has no key twice and no
    count below 1 (the 0 a new key is given is never left there), the keys of
    the city counter are the city names of the registered [City] instances,
    and the keys of the state counter are their states. *)
Theorem X7_counters_are_well_formed (calls : list call) :
  let w := snd (run_calls calls init_world) in
  (forall r, dict_ok (the_dict r w)) /\
  (forall city,
     In city (map fst (counts_city w)) <->
     exists c, In c (City_class_obj_list w) /\ City_city c = city) /\
  (forall state,
     In state (map fst (counts_state w)) <->
     exists c, In c (City_class_obj_list w) /\ City_state c = state).
Proof.
  intros w.
  destruct (run_calls_spec calls init_world) as (_ & _ & _ & Hcc & Hl & Hu & Hst).
  destruct (run_calls_registry calls init_world) as (Hc & _ & Hs).
  fold w in Hcc, Hl, Hu, Hst, Hc, Hs. simpl in Hcc, Hl, Hu, Hst, Hc, Hs.
  destruct (fold_incr_spec fst (flat_map counted_invocations calls) [] dict_ok_nil)
    as (Hok1 & _ & Hk1 & _).
  destruct (fold_incr_spec snd (flat_map counted_invocations calls) [] dict_ok_nil)
    as (Hok2 & _ & Hk2 & _).
  assert (Hreg : forall id, In id (map City_identity (City_class_obj_list w)) <->
                            In id (flat_map counted_invocations calls)).
  { intros id. rewrite Hc, In_fold_add_first. simpl. tauto. }
  split; [|split].
  - intros []; simpl.
    + by rewrite Hcc.
    + by rewrite Hs.
    + rewrite Hl. apply fold_counted_ok, dict_ok_nil.
    + rewrite Hu. apply fold_counted_ok, dict_ok_nil.
    + rewrite Hst. apply fold_counted_ok, dict_ok_nil.
  - intros city. rewrite Hcc, Hk1. simpl. rewrite in_map_iff. split.
    + intros [([c s] & <- & Hin)|[]]. apply Hreg, in_map_iff in Hin as (x & Hx & Hin).
      exists x. split; [done|]. by injection Hx.
    + intros (c & Hin & <-). left. exists (City_identity c). split; [done|].
      apply Hreg. by apply in_map.
  - intros state. rewrite Hs, Hk2. simpl. rewrite in_map_iff. split.
    + intros [([c s] & <- & Hin)|[]]. apply Hreg, in_map_iff in Hin as (x & Hx & Hin).
      exists x. split; [done|]. by injection Hx.
    + intros (c & Hin & <-). left. exists (City_identity c). split; [done|].
      apply Hreg. by apply in_map.
Qed.
(** *** The city with the most schools *)

Lemma find_max_fold data : forall r0,
  let r := fold_left
    (fun result kv =>
       if (max_count result <? snd kv)%Z
       then mk_max_schools (snd kv) (fst kv)
       else result) data r0 in
  (max_count r0 <= max_count r)%Z /\
  (forall k v, In (k, v) data -> (v <= max_count r)%Z) /\
  ((r = r0 /\ forall k v, In (k, v) data -> (v <= max_count r0)%Z) \/
   ((max_count r0 < max_count r)%Z /\
    exists before after,
      data = before ++ (max_city r, max_count r) :: after /\
      forall k v, In (k, v) before -> (v < max_count r)%Z)).
Proof.
  induction data as [|[k v] data IH]; intros r0; simpl.
  - split; [lia|]. split; [by intros ? ? []|]. left. split; [done | by intros ? ? []].
  - set (r1 := if (max_count r0 <? v)%Z then mk_max_schools v k else r0).
    assert (H1 : (max_count r0 <= max_count r1)%Z /\ (v <= max_count r1)%Z).
    { unfold r1. destruct (Z.ltb_spec (max_count r0) v); simpl; lia. }
    destruct (IH r1) as (Hle & Hall & Hcase). cbv zeta in *.
    set (r := fold_left _ data r1) in *.
    split; [lia|]. split.
    { intros k' v' [[= <- <-]|Hin]; [lia | by eapply Hall]. }
    destruct Hcase as [[Hr Hall1]|(Hlt & before & after & Hd & Hb)].
    + unfold r1 in *. destruct (Z.ltb_spec (max_count r0) v).
      * right. rewrite Hr. simpl. split; [lia|].
        exists [], data. split; [done | by intros ? ? []].
      * left. split; [done|]. intros k' v' [[= <- <-]|Hin]; [lia | by eapply Hall1].
    + right. split; [lia|]. exists ((k, v) :: before), after.
      split; [by rewrite Hd|].
      intros k' v' [[= <- <-]|Hin]; [lia | by eapply Hb].
Qed.

(** X8: [find_max_schools_in_city] returns a count that no count of the
    data exceeds.  When no count is above 0 (so also for no data) it returns
    count 0 and the empty city name; otherwise the city and count it returns
    are an item of the data, the first one with the largest count. *)
Theorem X8_find_max_is_the_first_largest (data : dict) :
  let r := find_max_schools_in_city data in
  (forall k v, In (k, v) data -> (v <= max_count r)%Z) /\
  ((forall k v, In (k, v) data -> (v <= 0)%Z) ->
   r = mk_max_schools 0 EmptyString) /\
  ((exists k v, In (k, v) data /\ (0 < v)%Z) ->
   exists before after,
     data = before ++ (max_city r, max_count r) :: after /\
     forall k v, In (k, v) before -> (v < max_count r)%Z).
Proof.
  intros r. destruct (find_max_fold data (mk_max_schools 0 EmptyString))
    as (Hle & Hall & Hcase). fold (find_max_schools_in_city data) in *.
  fold r in Hle, Hall, Hcase. simpl in Hle, Hcase.
  split; [exact Hall|]. split.
  - intros Hnone. destruct Hcase as [[Hr _]|(Hlt & before & after & Hd & _)];
      [done|].
    assert (Hin : In (max_city r, max_count r) data)
      by (rewrite Hd; apply in_or_app; right; by left).
    apply Hnone in Hin. lia.
  - intros (k & v & Hin & Hv).
    destruct Hcase as [[_ Hall0]|(_ & before & after & Hd & Hb)].
    + apply Hall0 in Hin. lia.
    + by exists before, after.
Qed.

(** *** Occurrence counts of a dataset *)

Lemma occurrence_count_loop_run (fn : School -> M string)
    (f : School -> option string) schools :
  (forall x w, exists e,
     fn x w = (match f x with Some v => Ok v | None => Raise e end, w)) ->
  forall results w,
  _occurrence_count_loop fn schools results w =
  (Ok (fold_left (fun d v => dict_incr v d) (omap f schools) results), w).
Proof.
  intros Hfn. induction schools as [|x schools IH]; intros results w; [done|].
  cbn [_occurrence_count_loop omap].
  destruct (Hfn x w) as [e Hx].
  assert (Htry :
    try_except
      (val <- fn x ;;
       let results0 :=
         if negb (bool_decide (is_Some (dict_get val results)))
         then dict_set val 0%Z results else results in
       match dict_get val results0 with
       | Some n => ret (dict_set val (n + 1)%Z results0)
       | None => ret results0
       end) (fun _ => true) (fun _ => ret results) w
    = (Ok (match f x with
           | Some v => dict_incr v results
           | None => results
           end), w)).
  { unfold try_except, bind. rewrite Hx. destruct (f x) as [v|]; [|done].
    unfold dict_incr, count_of.
    destruct (dict_get v results) as [n|] eqn:Hg.
    - rewrite bool_decide_eq_true_2 by eauto. simpl. by rewrite Hg.
    - rewrite bool_decide_eq_false_2 by (by intros [? ?]). simpl.
      by rewrite dict_get_set_eq, dict_set_set. }
  rewrite (bind_ok _ _ _ _ _ Htry), IH. simpl. by destruct (f x).
Qed.

Lemma fold_incr_map {A} (f : A -> string) l : forall d,
  fold_left (fun d v => dict_incr v d) (map f l) d =
  fold_left (fun d x => dict_incr (f x) d) l d.
Proof. induction l as [|x l IH]; intros d; simpl; [done | by rewrite IH]. Qed.

Lemma omap_Some_map {A B} (f : A -> B) (l : list A) :
  omap (fun x => Some (f x)) l = map f l.
Proof. induction l as [|x l IH]; [done|]. simpl. by f_equal. Qed.

Lemma state_occurrence_count_run self w :
  state_occurrence_count self w =
  (Ok (fold_left (fun d x => dict_incr (City_state (School_city x)) d)
         (SchoolDataSet_schools self) []), w).
Proof.
  unfold state_occurrence_count, _occurrence_count.
  rewrite (occurrence_count_loop_run _
             (fun x => Some (City_state (School_city x))))
    by (intros x w0; by exists ValueError).
  by rewrite omap_Some_map, fold_incr_map.
Qed.

Lemma city_occurrence_count_run self w :
  city_occurrence_count self w =
  (Ok (fold_left (fun d x => dict_incr (City_city (School_city x)) d)
         (SchoolDataSet_schools self) []), w).
Proof.
  unfold city_occurrence_count, _occurrence_count.
  rewrite (occurrence_count_loop_run _
             (fun x => Some (City_city (School_city x))))
    by (intros x w0; by exists ValueError).
  by rewrite omap_Some_map, fold_incr_map.
Qed.

Lemma metro_occurrence_count_run self w :
  metro_occurrence_count self w =
  (Ok (fold_left (fun d v => dict_incr v d)
         (omap locale_name (SchoolDataSet_schools self)) []), w).
Proof.
  unfold metro_occurrence_count, _occurrence_count.
  apply occurrence_count_loop_run. intros x w0. exists AttributeError.
  unfold locale_name. by destruct (School_locale_code x).
Qed.

Lemma filter_omap_length {A B} (f : A -> option B) (P : B -> bool) l :
  length (List.filter P (omap f l)) =
  length (List.filter (fun x => match f x with
                                | Some v => P v
                                | None => false
                                end) l).
Proof.
  induction l as [|x l IH]; [done|]. simpl.
  destruct (f x) as [v|]; [|exact IH]. simpl.
  destruct (P v); simpl; [f_equal|]; exact IH.
Qed.

Lemma resolved_locale_length schools :
  length (omap locale_name schools) =
  length (resolved School_locale_code schools).
Proof.
  unfold resolved, locale_name.
  induction schools as [|x l IH]; [done|]. simpl.
  destruct (School_locale_code x); simpl; [f_equal|]; exact IH.
Qed.

(** X9: the occurrence counts of a dataset never raise and change nothing.
    The count of a state (a city name) is the number of the dataset's
    schools in that state (city), and the counts sum to the number of
    schools.  The count of a locale name is the number of schools with
    that classification; a school without locale classification is left out
    without error, so these counts sum to the number of schools that have
    one. *)
Theorem X9_occurrence_counts_count_the_schools (self : SchoolDataSet) (w : world) :
  exists by_state by_city by_metro,
    state_occurrence_count self w = (Ok by_state, w) /\
    city_occurrence_count self w = (Ok by_city, w) /\
    metro_occurrence_count self w = (Ok by_metro, w) /\
    (forall state,
       count_of state by_state =
       Z.of_nat (length (List.filter
         (fun x => String.eqb (City_state (School_city x)) state)
         (SchoolDataSet_schools self)))) /\
    (forall city,
       count_of city by_city =
       Z.of_nat (length (List.filter
         (fun x => String.eqb (City_city (School_city x)) city)
         (SchoolDataSet_schools self)))) /\
    (forall n,
       count_of n by_metro =
       Z.of_nat (length (List.filter (has_locale_name n)
         (SchoolDataSet_schools self)))) /\
    dict_sum by_state = Z.of_nat (SchoolDataSet_len self) /\
    dict_sum by_city = Z.of_nat (SchoolDataSet_len self) /\
    dict_sum by_metro =
      Z.of_nat (length (resolved School_locale_code (SchoolDataSet_schools self))).
Proof.
  eexists _, _, _.
  split; [apply state_occurrence_count_run|].
  split; [apply city_occurrence_count_run|].
  split; [apply metro_occurrence_count_run|].
  set (schools := SchoolDataSet_schools self).
  destruct (fold_incr_spec (fun x => City_state (School_city x)) schools []
              dict_ok_nil) as (_ & Hs1 & _ & Hc1).
  destruct (fold_incr_spec (fun x => City_city (School_city x)) schools []
              dict_ok_nil) as (_ & Hs2 & _ & Hc2).
  destruct (fold_incr_spec (fun v : string => v) (omap locale_name schools) []
              dict_ok_nil) as (_ & Hs3 & _ & Hc3).
  cbv zeta in *.
  split; [intros state; by rewrite Hc1|].
  split; [intros city; by rewrite Hc2|].
  split.
  { intros n. rewrite Hc3, filter_omap_length. done. }
  split; [by rewrite Hs1|]. split; [by rewrite Hs2|].
  rewrite Hs3. simpl. by rewrite resolved_locale_length.
Qed.

(** *** The counters of the classes and the counts of the dataset *)

Lemma fold_counted_locale schools : forall d,
  fold_left (fun d s => counted_code (School_locale_code s) d) schools d =
  fold_left (fun d v => dict_incr v d) (omap locale_name schools) d.
Proof.
  induction schools as [|x l IH]; intros d; simpl; [done|].
  rewrite IH. unfold locale_name. by destruct (School_locale_code x).
Qed.

Lemma counted_constructed c :
  is_School_call c = true -> counted_invocations c = constructed c.
Proof. by destruct c. Qed.

Lemma flat_map_ext_Forall {A B} (f g : A -> list B) l :
  (forall x, In x l -> f x = g x) -> flat_map f l = flat_map g l.
Proof.
  induction l as [|x l IH]; intros H; simpl; [done|].
  rewrite (H x) by (by left). f_equal. apply IH. intros y Hy. apply H. by right.
Qed.

(** X10: the counts of the dataset and the counters of the classes agree.
    After any calls, the locale counts of the schools constructed are the
    locale tally of [School], item by item.  When every call is a [School]
    construction, as in loading a file, the state counts and the city counts
    of those schools are the state counter and the city counter of [City]. *)
Theorem X10_dataset_counts_agree_with_class_counters (calls : list call) :
  let self := mk_SchoolDataSet
                (schools_of (fst (run_calls calls init_world))) [] in
  let w := snd (run_calls calls init_world) in
  metro_occurrence_count self w = (Ok (locale_code_count w), w) /\
  ((forall c, In c calls -> is_School_call c = true) ->
   state_occurrence_count self w = (Ok (counts_state w), w) /\
   city_occurrence_count self w = (Ok (counts_city w), w)).
Proof.
  intros self w.
  destruct (run_calls_spec calls init_world) as (_ & _ & _ & Hcc & Hl & _).
  destruct (run_calls_registry calls init_world) as (_ & _ & Hs).
  fold w in Hcc, Hl, Hs. simpl in Hcc, Hl, Hs. split.
  - rewrite metro_occurrence_count_run, Hl. simpl.
    by rewrite fold_counted_locale.
  - intros Hall.
    assert (Hinv : flat_map counted_invocations calls =
                   map (fun s => City_identity (School_city s))
                     (SchoolDataSet_schools self)).
    { simpl. rewrite run_calls_constructed. apply flat_map_ext_Forall.
      intros c Hc. by apply counted_constructed, Hall. }
    rewrite state_occurrence_count_run, city_occurrence_count_run, Hs, Hcc, Hinv.
    split; f_equal; f_equal.
    + by rewrite <- (fold_incr_map snd), map_map, fold_incr_map.
    + by rewrite <- (fold_incr_map fst), map_map, fold_incr_map.
Qed.
(** *** The log and the output do not matter to the data *)

Lemma with_io_id w : with_io (log w) (stdout w) w = w.
Proof. by destruct w. Qed.

Lemma data_part_with_io l s w : data_part (with_io l s w) = data_part w.
Proof. reflexivity. Qed.

Lemma with_io_data_part w : with_io (log w) (stdout w) (data_part w) = w.
Proof. by destruct w. Qed.

Lemma Agency_get_or_create_with_io agency_id agency_name l s w :
  Agency_get_or_create agency_id agency_name (with_io l s w) =
  (fst (Agency_get_or_create agency_id agency_name w),
   with_io l s (snd (Agency_get_or_create agency_id agency_name w))).
Proof.
  rewrite !Agency_get_or_create_run. simpl Agency_class_obj_list.
  by destruct (List.filter _ (Agency_class_obj_list w)).
Qed.

Lemma City_get_or_create_with_io city state l s w :
  City_get_or_create city state (with_io l s w) =
  (fst (City_get_or_create city state w),
   with_io l s (snd (City_get_or_create city state w))).
Proof.
  destruct (Nat.eqb_spec (String.length state) 2) as [Hlen|Hlen].
  - rewrite !City_get_or_create_run by done. simpl City_class_obj_list.
    by destruct (List.filter _ (City_class_obj_list w)).
  - by rewrite !City_get_or_create_invalid.
Qed.

Lemma tallied_with_io {E} `{SearchableEnum E} (code : option E) r l s w :
  tallied code r (with_io l s w) = with_io l s (tallied code r w).
Proof. destruct code; [|done]. by destruct r. Qed.

Lemma School_init_with_io sid agency_id agency_name sname city state lat long
    lc uc sc l s w :
  School_init sid agency_id agency_name sname city state lat long lc uc sc
    (with_io l s w) =
  (fst (School_init sid agency_id agency_name sname city state lat long lc uc sc w),
   with_io l s
     (snd (School_init sid agency_id agency_name sname city state lat long
             lc uc sc w))).
Proof.
  rewrite !School_init_run, Agency_get_or_create_with_io.
  destruct (Agency_get_or_create agency_id agency_name w) as [[agency|e|] w1];
    try done.
  cbn [fst snd]. rewrite City_get_or_create_with_io.
  destruct (City_get_or_create city state w1) as [[the_city|e|] w2]; try done.
  cbn [fst snd]. by rewrite !tallied_with_io.
Qed.

Lemma do_call_with_io c l s w :
  do_call c (with_io l s w) =
  (fst (do_call c w), with_io l s (snd (do_call c w))).
Proof.
  destruct c as [city state|agency_id agency_name
                 |sid agency_id agency_name sname city state lat long
                    locale_code urban_code status_code];
    unfold do_call, bind.
  - rewrite City_get_or_create_with_io.
    by destruct (City_get_or_create city state w) as [[a|e|] w1].
  - rewrite Agency_get_or_create_with_io.
    by destruct (Agency_get_or_create agency_id agency_name w) as [[a|e|] w1].
  - rewrite School_init_with_io.
    by destruct (School_init sid agency_id agency_name sname city state lat long
                   locale_code urban_code status_code w) as [[a|e|] w1].
Qed.

Lemma run_calls_with_io calls : forall l s w,
  run_calls calls (with_io l s w) =
  (fst (run_calls calls w), with_io l s (snd (run_calls calls w))).
Proof.
  induction calls as [|c calls IH]; intros l s w; [done|].
  rewrite !run_calls_cons, do_call_with_io. cbn [fst snd]. by rewrite IH.
Qed.


Lemma run_calls_app calls1 calls2 w :
  run_calls (calls1 ++ calls2) w =
  (fst (run_calls calls1 w) ++ fst (run_calls calls2 (snd (run_calls calls1 w))),
   snd (run_calls calls2 (snd (run_calls calls1 w)))).
Proof.
  revert w. induction calls1 as [|c calls1 IH]; intros w.
  - simpl. by destruct (run_calls calls2 w).
  - rewrite <- app_comm_cons, !run_calls_cons. cbn [fst snd]. by rewrite IH.
Qed.

Lemma schools_of_app os1 os2 :
  schools_of (os1 ++ os2) = schools_of os1 ++ schools_of os2.
Proof.
  induction os1 as [|o os1 IH]; [done|].
  change ((o :: os1) ++ os2) with (o :: (os1 ++ os2)).
  rewrite (schools_of_cons o os1), (schools_of_cons o (os1 ++ os2)).
  by rewrite IH, app_assoc.
Qed.

(** *** Loading a file *)

Lemma School_init_total sid agency_id agency_name sname city state lat long
    lc uc sc w :
  (String.length state = 2 ->
   exists s w',
     School_init sid agency_id agency_name sname city state lat long lc uc sc w
     = (Ok s, w')) /\
  (String.length state <> 2 ->
   School_init sid agency_id agency_name sname city state lat long lc uc sc w
   = (Raise ValueError, snd (Agency_get_or_create agency_id agency_name w))).
Proof.
  destruct (Agency_get_or_create_spec agency_id agency_name w)
    as (agency & w1 & Hrun1 & _).
  split; intros Hlen; rewrite School_init_run, Hrun1.
  - destruct (City_get_or_create_spec city state w1 Hlen)
      as (the_city & w2 & -> & _).
    by eexists _, _.
  - by rewrite (City_get_or_create_invalid city state w1 Hlen).
Qed.

Lemma with_io_with_io l s l' s' w :
  with_io l s (with_io l' s' w) = with_io l s w.
Proof. reflexivity. Qed.

Lemma log_with_io l s w : log (with_io l s w) = l.
Proof. reflexivity. Qed.

Lemma stdout_with_io l s w : stdout (with_io l s w) = s.
Proof. reflexivity. Qed.

Lemma log_run_calls calls w : log (snd (run_calls calls w)) = log w.
Proof.
  rewrite <- (with_io_data_part w) at 1. by rewrite run_calls_with_io.
Qed.

Lemma stdout_run_calls calls w : stdout (snd (run_calls calls w)) = stdout w.
Proof.
  rewrite <- (with_io_data_part w) at 1. by rewrite run_calls_with_io.
Qed.

Lemma run_calls_School sid agency_id agency_name sname city state lat long
    lc uc sc w :
  let r := School_init sid agency_id agency_name sname city state lat long
             lc uc sc w in
  run_calls [Call_School sid agency_id agency_name sname city state lat long
               lc uc sc] w =
  ([match fst r with
    | Ok s => Ok (I_School s)
    | Raise e => Raise e
    | Diverge => Diverge
    end], snd r).
Proof.
  intros r. rewrite run_calls_cons. cbn [run_calls fst snd do_call].
  rewrite snd_bind_ret. fold r. unfold bind. fold r.
  by destruct r as [[s|e|] w1].
Qed.

(** One turn of the loop of [load_csv] on a reader that has an event left. *)
Lemma load_csv_loop_cons env fuel self ev reader read_count w :
  load_csv_loop env (S fuel) self (ev :: reader) read_count w =
  load_csv_loop env fuel
    (mk_SchoolDataSet
       (SchoolDataSet_schools self
        ++ schools_of (fst (run_calls (row_calls ev) w)))
       (SchoolDataSet__lookup_nces_id self))
    reader (S read_count)
    (with_io (log w ++ row_warnings env ev)
       (stdout w ++ [read_count_line (S read_count)])
       (snd (run_calls (row_calls ev) w))).
Proof.
  assert (Hself : mk_SchoolDataSet (SchoolDataSet_schools self ++ [])
                    (SchoolDataSet__lookup_nces_id self) = self)
    by (rewrite app_nil_r; by destruct self).
  assert (Hw1 : forall text,
             snd (stdout_write text w)
             = with_io (log w) (stdout w ++ [text]) w)
    by (intros text; by destruct w).
  assert (Hskip :
    load_csv_loop env fuel self reader (S read_count)
      (with_io (log w) (stdout w ++ [read_count_line (S read_count)]) w) =
    load_csv_loop env fuel
      (mk_SchoolDataSet (SchoolDataSet_schools self ++ [])
         (SchoolDataSet__lookup_nces_id self))
      reader (S read_count)
      (with_io (log w ++ [])
         (stdout w ++ [read_count_line (S read_count)]) w))
    by (by rewrite Hself, app_nil_r).
  cbn [load_csv_loop]. rewrite Hw1.
  destruct ev as [line|]; unfold _read_line; cbn [reader_next].
  2:{ cbn [row_calls row_warnings run_calls fst snd].
      change (schools_of []) with (@nil School). by rewrite Hself. }
  destruct line as [|sid [|agency_id [|agency_name [|sname [|city [|state
    [|lat [|long [|lc [|uc [|sc [|extra line]]]]]]]]]]]];
    try exact Hskip.
  cbn [row_calls row_warnings].
  rewrite School_init_with_io, run_calls_School. cbn [fst snd].
  destruct (Nat.eqb_spec (String.length state) 2) as [Hlen|Hlen].
  - destruct (proj1 (School_init_total sid agency_id agency_name sname city
                       state lat long lc uc sc w) Hlen) as (s & w' & ->).
    cbn [fst snd]. by rewrite app_nil_r.
  - rewrite (proj2 (School_init_total sid agency_id agency_name sname city
                      state lat long lc uc sc w) Hlen).
    cbn [fst snd].
    change (schools_of [Raise ValueError]) with (@nil School).
    by rewrite Hself.
Qed.

(** The loop of [load_csv] ends when the reader does.  By then it has
    constructed a [School] from every row of 11 fields, printed a count for
    every turn, and logged a warning for every event it could not use. *)
Lemma load_csv_loop_run env reader : forall fuel self read_count w,
  length reader < fuel ->
  load_csv_loop env fuel self reader read_count w =
  (Return tt,
   mk_SchoolDataSet
     (SchoolDataSet_schools self
      ++ schools_of (fst (run_calls (flat_map row_calls reader) w)))
     (SchoolDataSet__lookup_nces_id self),
   with_io (log w ++ flat_map (row_warnings env) reader)
     (stdout w
      ++ map read_count_line (seq (S read_count) (S (length reader))))
     (snd (run_calls (flat_map row_calls reader) w))).
Proof.
  induction reader as [|ev reader IH]; intros fuel self read_count w Hfuel;
    (destruct fuel as [|fuel]; [simpl in Hfuel; lia|]).
  - assert (Hself : mk_SchoolDataSet (SchoolDataSet_schools self ++ [])
                      (SchoolDataSet__lookup_nces_id self) = self)
      by (rewrite app_nil_r; by destruct self).
    cbn [flat_map run_calls fst snd schools_of omap list_omap length seq map].
    rewrite Hself, app_nil_r. cbn [load_csv_loop _read_line reader_next].
    by destruct w.
  - rewrite load_csv_loop_cons, IH by (simpl in Hfuel; lia).
    cbn [flat_map SchoolDataSet_schools SchoolDataSet__lookup_nces_id].
    rewrite (run_calls_app (row_calls ev)), run_calls_with_io.
    cbn [fst snd]. rewrite schools_of_app, with_io_with_io, app_assoc.
    f_equal. rewrite log_with_io, stdout_with_io.
    change (length (ev :: reader)) with (S (length reader)).
    cbn [seq map]. by rewrite <- !app_assoc.
Qed.

(** [load_csv] on a file whose header can be read. *)
Lemma load_csv_run env self filepath has_header reader body w :
  fs env filepath = Some reader ->
  reader_body has_header reader = Some body ->
  load_csv env self filepath has_header w =
  (Return tt,
   mk_SchoolDataSet
     (SchoolDataSet_schools self
      ++ schools_of (fst (run_calls (flat_map row_calls body) w)))
     (SchoolDataSet__lookup_nces_id self),
   with_io
     (log w ++ LogInfo ("Processing " ++ filepath ++ "...")%string
            :: flat_map (row_warnings env) body)
     (stdout w ++ map read_count_line (seq 1 (S (length body)))
             ++ [read_count_note])
     (snd (run_calls (flat_map row_calls body) w))).
Proof.
  intros Hfs Hbody. unfold load_csv. rewrite Hfs.
  set (w1 := snd (log_emit _ w)).
  assert (Hnext : exists h, (if has_header then reader_next reader
                             else (Return [], reader)) = (Return h, body)).
  { destruct has_header; simpl in Hbody.
    - destruct reader as [|[h|] reader']; try done.
      injection Hbody as <-. by exists h.
    - injection Hbody as <-. by exists []. }
  assert (Hw1 : w1 = with_io
                  (log w ++ [LogInfo ("Processing " ++ filepath ++ "...")%string])
                  (stdout w) w)
    by (subst w1; by destruct w).
  destruct Hnext as [h ->].
  rewrite (load_csv_loop_run env body (S (length body)) self 0 w1)
    by apply Nat.lt_succ_diag_r.
  clearbody w1. subst w1.
  rewrite run_calls_with_io, log_with_io, stdout_with_io.
  cbn [fst snd]. rewrite with_io_with_io.
  f_equal. unfold print. cbn [snd].
  change (set_stdout ?s (with_io ?l ?s' ?x)) with (with_io l s x).
  rewrite stdout_with_io. by rewrite <- !app_assoc.
Qed.

(** X11: loading a file constructs a [School] from every row of 11 fields
    after the header, in the order of the file.  When the file is there and
    its header can be read, [load_csv] returns; it has appended to the
    dataset the schools whose construction succeeded, and it leaves the
    registries, the counters and the tallies as those constructions leave
    them.  Rows of another length, and text that cannot be decoded, construct
    nothing. *)
Theorem X11_load_csv_constructs_a_School_per_full_row
    env self filepath has_header reader body w :
  fs env filepath = Some reader ->
  reader_body has_header reader = Some body ->
  exists w',
    load_csv env self filepath has_header w =
    (Return tt,
     mk_SchoolDataSet
       (SchoolDataSet_schools self
        ++ schools_of (fst (run_calls (flat_map row_calls body) w)))
       (SchoolDataSet__lookup_nces_id self),
     w') /\
    data_part w' = data_part (snd (run_calls (flat_map row_calls body) w)).
Proof.
  intros Hfs Hbody. eexists.
  split; [exact (load_csv_run env self filepath has_header reader body w
                   Hfs Hbody)|].
  apply data_part_with_io.
Qed.



Lemma row_calls_School ev c : In c (row_calls ev) -> is_School_call c = true.
Proof.
  destruct ev as [line|]; [|done].
  destruct line as [|sid [|agency_id [|agency_name [|sname [|city [|state
    [|lat [|long [|lc [|uc [|sc [|extra line]]]]]]]]]]]]; try done.
  by intros [<-|[]].
Qed.

Lemma constructed_row_calls body :
  length (flat_map constructed (flat_map row_calls body)) =
  length (List.filter accepted body).
Proof.
  induction body as [|ev body IH]; [done|].
  cbn [flat_map List.filter]. rewrite flat_map_app, length_app, IH.
  destruct ev as [line|]; [|done].
  destruct line as [|sid [|agency_id [|agency_name [|sname [|city [|state
    [|lat [|long [|lc [|uc [|sc [|extra line]]]]]]]]]]]]; try done.
  cbn [row_calls flat_map constructed accepted].
  by destruct (String.length state =? 2)%nat.
Qed.

(** X14: a file loaded into a new dataset by a new process.  The dataset
    holds one school for every row of 11 fields whose state has 2 characters.
    The counts of the state counter and of the city counter each sum to that
    number, and the counts the dataset computes from its schools are the
    counters [City] and [School] kept while the file was read. *)
Theorem X14_loaded_dataset_agrees_with_the_counters
    env filepath has_header reader body :
  fs env filepath = Some reader ->
  reader_body has_header reader = Some body ->
  let r := load_csv env SchoolDataSet_init filepath has_header init_world in
  let self := snd (fst r) in
  let w := snd r in
  SchoolDataSet_len self = length (List.filter accepted body) /\
  dict_sum (counts_state w) = Z.of_nat (SchoolDataSet_len self) /\
  dict_sum (counts_city w) = Z.of_nat (SchoolDataSet_len self) /\
  state_occurrence_count self w = (Ok (counts_state w), w) /\
  city_occurrence_count self w = (Ok (counts_city w), w) /\
  metro_occurrence_count self w = (Ok (locale_code_count w), w).
Proof.
  intros Hfs Hbody r self w. subst self w r.
  rewrite (load_csv_run env SchoolDataSet_init filepath has_header reader body
             init_world Hfs Hbody).
  cbn [fst snd]. set (rows := flat_map row_calls body).
  set (w := with_io _ _ _). set (self := mk_SchoolDataSet _ _).
  destruct (run_calls_spec rows init_world) as (_ & _ & _ & Hcc & Hl & _).
  destruct (run_calls_registry rows init_world) as (_ & _ & Hs).
  simpl in Hcc, Hl, Hs.
  change (counts_state w) with (counts_state (snd (run_calls rows init_world))).
  change (counts_city w) with (counts_city (snd (run_calls rows init_world))).
  change (locale_code_count w)
    with (locale_code_count (snd (run_calls rows init_world))).
  assert (Hinv : flat_map counted_invocations rows =
                 map (fun s => City_identity (School_city s))
                   (SchoolDataSet_schools self)).
  { subst self. cbn [SchoolDataSet_schools SchoolDataSet_init app].
    rewrite run_calls_constructed. apply flat_map_ext_Forall.
    intros c Hc. apply counted_constructed.
    apply in_flat_map in Hc as (ev & _ & Hc). by apply (row_calls_School ev). }
  assert (Hlen : SchoolDataSet_len self = length (List.filter accepted body)).
  { unfold SchoolDataSet_len.
    rewrite <- (length_map (fun s => City_identity (School_city s))), <- Hinv.
    rewrite <- constructed_row_calls. fold rows. f_equal.
    apply flat_map_ext_Forall. intros c Hc. apply counted_constructed.
    apply in_flat_map in Hc as (ev & _ & Hc). by apply (row_calls_School ev). }
  assert (Hreq : length (flat_map counted_invocations rows)
                 = SchoolDataSet_len self).
  { unfold SchoolDataSet_len. by rewrite Hinv, length_map. }
  destruct (fold_incr_spec fst (flat_map counted_invocations rows) [] dict_ok_nil)
    as (_ & Hsum1 & _).
  destruct (fold_incr_spec snd (flat_map counted_invocations rows) [] dict_ok_nil)
    as (_ & Hsum2 & _).
  split; [done|].
  split; [by rewrite Hs, Hsum2, Hreq|].
  split; [by rewrite Hcc, Hsum1, Hreq|].
  rewrite state_occurrence_count_run, city_occurrence_count_run,
    metro_occurrence_count_run, Hs, Hcc, Hl, Hinv.
  split; [|split]; f_equal.
  - by rewrite <- (fold_incr_map snd), map_map, fold_incr_map.
  - by rewrite <- (fold_incr_map fst), map_map, fold_incr_map.
  - subst self. cbn [SchoolDataSet_schools SchoolDataSet_init app].
    by rewrite fold_counted_locale.
Qed.

(** *** More on the search *)

Lemma same_but_lists_log w w1 :
  set_lists (lists w) w1 = w -> set_lists (lists w) (set_log (log w) w1) = w.
Proof.
  intros S1. assert (Hlog : log w = log w1) by (by rewrite <- S1).
  rewrite Hlog. rewrite <- S1 at 2. by destruct w1.
Qed.

(** [phrase] returns a new list object; it leaves every list object as it
    was, and changes nothing else but the log. *)
Lemma phrase_frame self cache q w :
  engine_in self cache w ->
  exists r w',
    phrase self q w = (Ok r, w') /\
    length (lists w) <= r < length (lists w') /\
    (forall i, i < length (lists w) -> lists w' !! i = lists w !! i) /\
    set_lists (lists w) (set_log (log w) w') = w /\
    items r w' = default [] (match_words_value cache (PyStr.split_space q) []).
Proof.
  intros He. unfold phrase, try_except.
  destruct (match_words_refines self (PyStr.split_space q) None w)
    as (w1 & E & H); [apply split_space_nonempty | by eapply engine_in_valid | done |].
  rewrite (engine_in_items _ _ _ He) in H. simpl option_items in H.
  destruct E as (S1 & L1 & A1). unfold same_but_lists in S1.
  destruct (match_words_value cache (PyStr.split_space q) []) as [out|].
  - destruct H as (r & -> & Hr & Hout). exists r, w1.
    split; [done|]. split; [done|]. split; [done|]. split; [|done].
    by apply same_but_lists_log.
  - rewrite H. cbn [is_Exception].
    eexists _, _. split; [reflexivity|]. simpl.
    split; [rewrite length_app; simpl; lia|].
    split.
    { intros i Hi. rewrite lookup_app_l by lia. by apply A1. }
    split.
    { by apply (same_but_lists_log w w1). }
    unfold items. simpl. rewrite lookup_app_r by lia.
    by rewrite Nat.sub_diag.
Qed.

Lemma phrase_frame_engine self cache q w r w' :
  engine_in self cache w -> phrase self q w = (Ok r, w') ->
  engine_in self cache w' /\ SEARCH w' = SEARCH w /\ stdout w' = stdout w /\
  r <> _whole_terms self.
Proof.
  intros He Hrun.
  destruct (phrase_frame self cache q w He) as (r0 & w0 & Hrun0 & Hr & A & F & _).
  rewrite Hrun in Hrun0. injection Hrun0 as <- <-.
  assert (Hv := engine_in_valid _ _ _ He).
  split; [unfold engine_in; rewrite A by done; exact He|].
  split; [by rewrite <- F|]. split; [by rewrite <- F|]. lia.
Qed.




(** X15: the first word decides when an entry contains it.  Every entry the
    search then returns contains the first word; and when the phrase is that
    one word, or at most three entries contain it, the search returns the
    first three entries that contain it, whatever the other words are. *)
Theorem X15_first_word_that_matches_decides self cache q w word0 rest :
  engine_in self cache w ->
  PyStr.split_space q = word0 :: rest ->
  let found := List.filter (fun e => PyStr.contains word0 e) cache in
  found <> [] ->
  exists out,
    result_of (phrase self q) w = Ok out /\
    (forall e, In e out -> In e cache /\ PyStr.contains word0 e = true) /\
    (rest = [] \/ length found <= 3 -> out = take 3 found).
Proof.
  intros He Hq found Hfound.
  rewrite (phrase_result self cache q w He), Hq.
  eexists. split; [reflexivity|].
  assert (Hin : forall e, In e found ->
                          In e cache /\ PyStr.contains word0 e = true)
    by (intros e; apply filter_In).
  rewrite match_words_value_eq. cbv zeta.
  change (options_or cache []) with cache. fold found.
  assert (E0 : (length found =? 0)%nat = false)
    by (apply Nat.eqb_neq; by destruct found).
  rewrite E0. cbn [andb].
  destruct rest as [|word1 rest].
  { cbn [length Nat.eqb default]. split; [|done].
    intros e He'. by apply Hin, (In_take e 3). }
  change (length (word0 :: word1 :: rest) =? 1)%nat with false.
  destruct (length found <=? 3)%nat eqn:E3.
  { apply Nat.leb_le in E3. cbn [default]. split; [done|].
    intros _. by rewrite take_all. }
  apply Nat.leb_gt in E3. split; [|intros [?|?]; [done | lia]].
  destruct (match_words_value cache (word1 :: rest) found) as [results|] eqn:Hr;
    [|done].
  destruct (match_words_value_bound cache (word1 :: rest) found results)
    as [Hlen Hsub]; [done | done |].
  rewrite (options_or_nonempty cache found E0) in Hsub.
  destruct (backfill_value results (rev found)) as [out|] eqn:Hb; [|done].
  destruct (backfill_value_bound _ _ _ Hb Hlen) as [_ Hout].
  cbn [default]. intros e He'. apply Hin.
  destruct (Hout e He') as [H|H]; [by apply Hsub | by apply in_rev].
Qed.


(** X17: searches do not disturb the cache or one another.  Each search
    returns a list object of its own, never the cache; a second search leaves
    the list the first one returned as it was, and gives what it would have
    given had the first not been made. *)
Theorem X17_searches_do_not_disturb_one_another self cache q1 q2 w :
  engine_in self cache w ->
  exists r1 w1 r2 w2,
    phrase self q1 w = (Ok r1, w1) /\
    phrase self q2 w1 = (Ok r2, w2) /\
    r1 <> r2 /\ r1 <> _whole_terms self /\ r2 <> _whole_terms self /\
    items r1 w2 = items r1 w1 /\
    result_of (phrase self q2) w = Ok (items r2 w2) /\
    engine_in self cache w2.
Proof.
  intros He.
  destruct (phrase_frame self cache q1 w He)
    as (r1 & w1 & Hrun1 & Hr1 & A1 & F1 & Hout1).
  destruct (phrase_frame_engine self cache q1 w r1 w1 He Hrun1)
    as (He1 & _ & _ & Hne1).
  destruct (phrase_frame self cache q2 w1 He1)
    as (r2 & w2 & Hrun2 & Hr2 & A2 & F2 & Hout2).
  destruct (phrase_frame_engine self cache q2 w1 r2 w2 He1 Hrun2)
    as (He2 & _ & _ & Hne2).
  exists r1, w1, r2, w2.
  split; [done|]. split; [done|]. split; [lia|]. split; [done|].
  split; [done|]. split.
  - unfold items. rewrite A2 by lia. done.
  - split; [|done]. by rewrite (phrase_result self cache q2 w He), Hout2.
Qed.

(** *** The console *)

Lemma phrase_frame_data self cache q w r w' :
  engine_in self cache w -> phrase self q w = (Ok r, w') ->
  data_only w' = data_only w.
Proof.
  intros He Hrun.
  destruct (phrase_frame self cache q w He) as (r0 & w0 & Hrun0 & _ & _ & F & _).
  rewrite Hrun in Hrun0. injection Hrun0 as <- <-.
  rewrite <- F at 1. reflexivity.
Qed.







(** *** [search_schools] *)





(** *** [print_counts] and [main] *)

Lemma print_items_run items : forall w,
  print_items items w
  = (Ok tt, set_stdout (stdout w ++ map item_line items) w).
Proof.
  induction items as [|[k v] items IH]; intros w.
  - simpl. rewrite app_nil_r. by destruct w.
  - cbn [print_items map]. unfold bind at 1. unfold print at 1.
    rewrite IH. cbn [stdout set_stdout]. by rewrite <- app_assoc.
Qed.

Lemma set_stdout_twice s s' w : set_stdout s (set_stdout s' w) = set_stdout s w.
Proof. reflexivity. Qed.

Lemma print_counts_run dataset w :
  print_counts dataset w
  = (Ok tt, set_stdout (stdout w ++ counts_lines dataset w) w).
Proof.
  unfold print_counts.
  unfold bind at 1. unfold print at 1.
  unfold bind at 1. unfold print at 1.
  unfold bind at 1.
  change (get_count_metadata cls_City (Some "state"%string))
    with (ret (A := counts_result) (ResDict City__counts_state)).
  unfold ret at 1. unfold bind at 1. unfold items_of at 1.
  unfold bind at 1. rewrite print_items_run.
  unfold bind at 1. unfold print at 1.
  unfold bind at 1. unfold print at 1.
  unfold bind at 1.
  change (get_count_metadata cls_School (Some "locale"%string))
    with (ret (A := counts_result) (ResDict School__locale_code_count)).
  unfold ret at 1. unfold bind at 1. unfold items_of at 1.
  unfold bind at 1. rewrite print_items_run.
  unfold bind at 1. unfold print at 1.
  unfold bind at 1.
  change (get_count_metadata cls_City (Some "city"%string))
    with (ret (A := counts_result) (ResDict City__counts_city)).
  unfold ret at 1. unfold bind at 1. unfold items_of at 1.
  unfold bind at 1. unfold print at 1. unfold bind at 1. unfold print at 1.
  cbn [fst snd stdout set_stdout the_dict counts_state locale_code_count
       counts_city City_class_obj_list].
  rewrite !set_stdout_twice. f_equal. f_equal. unfold counts_lines.
  rewrite <- !app_assoc. reflexivity.
Qed.

(** *** The engine and the list objects do not matter to the data either *)

Lemma Agency_get_or_create_with_engine agency_id agency_name l s w :
  Agency_get_or_create agency_id agency_name (with_engine l s w) =
  (fst (Agency_get_or_create agency_id agency_name w),
   with_engine l s (snd (Agency_get_or_create agency_id agency_name w))).
Proof.
  rewrite !Agency_get_or_create_run. simpl Agency_class_obj_list.
  by destruct (List.filter _ (Agency_class_obj_list w)).
Qed.

Lemma City_get_or_create_with_engine city state l s w :
  City_get_or_create city state (with_engine l s w) =
  (fst (City_get_or_create city state w),
   with_engine l s (snd (City_get_or_create city state w))).
Proof.
  destruct (Nat.eqb_spec (String.length state) 2) as [Hlen|Hlen].
  - rewrite !City_get_or_create_run by done. simpl City_class_obj_list.
    by destruct (List.filter _ (City_class_obj_list w)).
  - by rewrite !City_get_or_create_invalid.
Qed.

Lemma tallied_with_engine {E} `{SearchableEnum E} (code : option E) r l s w :
  tallied code r (with_engine l s w) = with_engine l s (tallied code r w).
Proof. destruct code; [|done]. by destruct r. Qed.

Lemma School_init_with_engine sid agency_id agency_name sname city state lat long
    lc uc sc l s w :
  School_init sid agency_id agency_name sname city state lat long lc uc sc
    (with_engine l s w) =
  (fst (School_init sid agency_id agency_name sname city state lat long lc uc sc w),
   with_engine l s
     (snd (School_init sid agency_id agency_name sname city state lat long
             lc uc sc w))).
Proof.
  rewrite !School_init_run, Agency_get_or_create_with_engine.
  destruct (Agency_get_or_create agency_id agency_name w) as [[agency|e|] w1];
    try done.
  cbn [fst snd]. rewrite City_get_or_create_with_engine.
  destruct (City_get_or_create city state w1) as [[the_city|e|] w2]; try done.
  cbn [fst snd]. by rewrite !tallied_with_engine.
Qed.

Lemma do_call_with_engine c l s w :
  do_call c (with_engine l s w) =
  (fst (do_call c w), with_engine l s (snd (do_call c w))).
Proof.
  destruct c as [city state|agency_id agency_name
                 |sid agency_id agency_name sname city state lat long
                    locale_code urban_code status_code];
    unfold do_call, bind.
  - rewrite City_get_or_create_with_engine.
    by destruct (City_get_or_create city state w) as [[a|e|] w1].
  - rewrite Agency_get_or_create_with_engine.
    by destruct (Agency_get_or_create agency_id agency_name w) as [[a|e|] w1].
  - rewrite School_init_with_engine.
    by destruct (School_init sid agency_id agency_name sname city state lat long
                   locale_code urban_code status_code w) as [[a|e|] w1].
Qed.

Lemma run_calls_with_engine calls : forall l s w,
  run_calls calls (with_engine l s w) =
  (fst (run_calls calls w), with_engine l s (snd (run_calls calls w))).
Proof.
  induction calls as [|c calls IH]; intros l s w; [done|].
  rewrite !run_calls_cons, do_call_with_engine. cbn [fst snd]. by rewrite IH.
Qed.

Lemma SEARCH_run_calls calls w : SEARCH (snd (run_calls calls w)) = SEARCH w.
Proof.
  assert (Hw : with_engine (SEARCH w) (lists w) w = w) by (by destruct w).
  rewrite <- Hw at 1. by rewrite run_calls_with_engine.
Qed.

Lemma lists_run_calls calls w : lists (snd (run_calls calls w)) = lists w.
Proof.
  assert (Hw : with_engine (SEARCH w) (lists w) w = w) by (by destruct w).
  rewrite <- Hw at 1. by rewrite run_calls_with_engine.
Qed.


(** X21: [print_counts] does not raise and writes nothing to the log: the
    three names it asks [get_count_metadata] for are names of counters.  It
    changes nothing but the output, to which it adds seven lines and one line
    for every state and every locale counted.  But for the first line, what
    it prints is read from the counters of the classes, not from the dataset
    it is given. *)
Theorem X21_print_counts_only_prints dataset w :
  print_counts dataset w
  = (Ok tt, set_stdout (stdout w ++ counts_lines dataset w) w) /\
  length (counts_lines dataset w)
  = 7 + length (counts_state w) + length (locale_code_count w) /\
  forall dataset',
    tl (counts_lines dataset' w) = tl (counts_lines dataset w).
Proof.
  split; [apply print_counts_run|]. split; [|done].
  unfold counts_lines. rewrite !length_app, !length_map. simpl. lia.
Qed.



(** X23: the data and the search do not meet.  Constructing schools, cities
    and agencies leaves the engine, the list objects, the log and the output
    as they were, and neither the instances it gives nor the data it leaves
    depend on them.  A search leaves the registries, the counters, the
    tallies, the engine and the output as they were. *)
Theorem X23_data_and_search_do_not_meet :
  (forall calls w,
     let w' := snd (run_calls calls w) in
     SEARCH w' = SEARCH w /\ lists w' = lists w /\
     log w' = log w /\ stdout w' = stdout w) /\
  (forall calls w1 w2,
     data_only w1 = data_only w2 ->
     fst (run_calls calls w1) = fst (run_calls calls w2) /\
     data_only (snd (run_calls calls w1))
     = data_only (snd (run_calls calls w2))) /\
  (forall self cache q w,
     engine_in self cache w ->
     let w' := snd (phrase self q w) in
     data_only w' = data_only w /\ SEARCH w' = SEARCH w /\
     stdout w' = stdout w).
Proof.
  split; [|split].
  - intros calls w w'. subst w'.
    by rewrite SEARCH_run_calls, lists_run_calls, log_run_calls,
      stdout_run_calls.
  - intros calls w1 w2 Hd.
    assert (Hw : forall w, w = with_io (log w) (stdout w)
                               (with_engine (SEARCH w) (lists w) (data_only w)))
      by (intros w; by destruct w).
    rewrite (Hw w1), (Hw w2), Hd.
    by rewrite !run_calls_with_io, !run_calls_with_engine.
  - intros self cache q w He w'. subst w'.
    destruct (phrase_frame self cache q w He) as (r & w' & Hrun & _).
    destruct (phrase_frame_engine self cache q w r w' He Hrun)
      as (_ & Hs & Ho & _).
    rewrite Hrun. cbn [snd].
    split; [exact (phrase_frame_data self cache q w r w' He Hrun)|done].
Qed.

End Program.

(** ** The properties at concrete inputs *)

(** [phrase] on the engine of [lincoln_dataset]. *)
Lemma C2_witness :
  let self := mk_SchoolSearchEngine 0 in
  let w := snd (SchoolSearchEngine_init (@lincoln_dataset unit) init_world) in
  engine_in self (cache_of (@lincoln_dataset unit)) w /\
  exists r w' res,
    phrase self "lincoln north" w = (Ok r, w') /\
    lists w' !! r = Some res /\
    length res <= 3 /\
    (forall e, In e res -> In e (cache_of (@lincoln_dataset unit))) /\
    engine_in self (cache_of (@lincoln_dataset unit)) w' /\
    (forall e w1,
       _match_words self (PyStr.split_space "lincoln north") None w
       = (Raise e, w1) -> res = []).
Proof.
  intros self w. split; [reflexivity|].
  apply (C2_phrase_returns_at_most_three_from_cache self _ "lincoln north" w).
  reflexivity.
Defined.

(** A word that no entry of the cache of [mixed_dataset] contains. *)
Lemma C3_witness :
  let self := mk_SchoolSearchEngine 0 in
  let w := snd (SchoolSearchEngine_init (@mixed_dataset unit) init_world) in
  engine_in self (cache_of (@mixed_dataset unit)) w /\
  PyStr.has_char " " "xyz123nomatch" = false /\
  result_of (_match_words self ["xyz123nomatch"%string] None) w =
    Ok ["adams springfield il"; "baker springfield il";
        "clark springfield il"]%string /\
  result_of (phrase self "xyz123nomatch") w =
    Ok ["adams springfield il"; "baker springfield il";
        "clark springfield il"]%string.
Proof.
  intros self w. split; [reflexivity|]. split; [reflexivity|].
  destruct (C3_last_word_without_match_gives_first_three self
              (cache_of (@mixed_dataset unit)) w eq_refl) as [H1 H2].
  split.
  - apply (H1 "xyz123nomatch"%string None I).
    intros e [<-|[<-|[<-|[<-|[]]]]]; reflexivity.
  - apply (H2 "xyz123nomatch"%string eq_refl).
    intros e [<-|[<-|[<-|[<-|[]]]]]; reflexivity.
Defined.


(** The same arguments again, after a [School] construction and with other
    calls in between. *)
Lemma C5_witness :
  let before := [Call_School "1" "A1" "District" "Lincoln" "Springfield" "IL"
                   "39.8" "-89.6" "1" "11" "1"]%string in
  let between := [Call_City_get_or_create "Shelbyville" "IL";
                  Call_Agency_get_or_create "A2" "County"]%string in
  let w0 := snd (run_calls decimal_int no_float before init_world) in
  String.length "IL" = 2 /\
  (exists inst w1 w3,
     City_get_or_create "Springfield" "IL" w0 = (Ok inst, w1) /\
     City_get_or_create "Springfield" "IL"
       (snd (run_calls decimal_int no_float between w1)) = (Ok inst, w3)) /\
  (exists inst w1 w3,
     Agency_get_or_create "A1" "District" w0 = (Ok inst, w1) /\
     Agency_get_or_create "A1" "District"
       (snd (run_calls decimal_int no_float between w1)) = (Ok inst, w3)).
Proof.
  intros before between w0. split; [reflexivity|].
  destruct (C5_get_or_create_returns_the_one_instance decimal_int no_float
              before between) as (HC & HA & _).
  split.
  - apply (HC "Springfield"%string "IL"%string). reflexivity.
  - apply (HA "A1"%string "District"%string).
Defined.

(** Two requests for Springfield, one through a [School] construction. *)
Lemma C6_witness :
  let calls := [Call_School "1" "A1" "District" "Lincoln" "Springfield" "IL"
                  "39.8" "-89.6" "1" "11" "1";
                Call_City_get_or_create "Springfield" "IL";
                Call_City_get_or_create "Shelbyville" "IL"]%string in
  String.length "IL" = 2 /\
  (exists inst w',
     City_get_or_create "Springfield" "IL" init_world = (Ok inst, w') /\
     count_of "Springfield" (counts_city w') = 1%Z /\
     count_of "IL" (counts_state w') = 1%Z) /\
  count_of "Springfield"
    (counts_city (snd (run_calls decimal_int no_float calls init_world))) = 2%Z.
Proof.
  intros calls. split; [reflexivity|].
  destruct (C6_city_counters_count_requests decimal_int no_float) as [H1 H2].
  split.
  - destruct (H1 init_world "Springfield"%string "IL"%string eq_refl)
      as (inst & w' & Hrun & Hc & Hs & _).
    exists inst, w'. split; [exact Hrun|]. split; [exact Hc | exact Hs].
  - apply (H2 calls "Springfield"%string).
    intros c s [[= <- <-]|[[= <- <-]|[[= <- <-]|[]]]]; reflexivity.
Defined.

(** A state of three characters. *)
Lemma C7_witness :
  String.length "ILL" <> 2 /\
  City_get_or_create "Springfield" "ILL" init_world
    = (Raise ValueError, init_world) /\
  exists w',
    School_init decimal_int no_float "1" "A1" "District" "Lincoln"
      "Springfield" "ILL" "39.8" "-89.6" "1" "11" "1" init_world
    = (Raise ValueError, w') /\
    City_class_obj_list w' = [] /\ counts_city w' = [] /\ counts_state w' = [].
Proof.
  assert (H : String.length "ILL" <> 2) by (simpl; lia).
  split; [exact H|].
  destruct (C7_invalid_state_raises_and_changes_nothing decimal_int no_float
              init_world "Springfield" "ILL" H) as [H1 H2].
  split; [exact H1|].
  apply (H2 "1" "A1" "District" "Lincoln" "39.8" "-89.6" "1" "11" "1")%string.
Defined.

(** An unknown name, a known one, and no name. *)
Lemma C9_witness :
  ~ In "bogus"%string (map fst (_counts_lookup cls_School)) /\
  In ("state"%string, City__counts_state) (_counts_lookup cls_City) /\
  get_count_metadata cls_School (Some "bogus"%string) init_world =
    (Ok (ResList []),
     set_log
       [LogWarning
          "`bogus` was not found to be a valid code name in School metadata. Options are: locale urban status"]
       init_world) /\
  get_count_metadata cls_City (Some "state"%string) init_world =
    (Ok (ResDict City__counts_state), init_world) /\
  get_count_metadata cls_School None init_world =
    (Ok (ResList [School__locale_code_count; School__urban_code_count;
                  School__status_code_count]), init_world).
Proof.
  assert (Hno : ~ In "bogus"%string (map fst (_counts_lookup cls_School))).
  { simpl. intros [H|[H|[H|[]]]]; discriminate H. }
  assert (Hin : In ("state"%string, City__counts_state) (_counts_lookup cls_City)).
  { simpl. right. left. reflexivity. }
  split; [exact Hno|]. split; [exact Hin|].
  destruct (C9_get_count_metadata_never_raises decimal_int no_float
              cls_School init_world) as (H1 & _ & H3 & _).
  destruct (C9_get_count_metadata_never_raises decimal_int no_float
              cls_City init_world) as (_ & H2 & _).
  split; [exact (H1 "bogus"%string Hno)|].
  split; [exact (H2 "state"%string City__counts_state Hin) | exact H3].
Defined.


(** Two rows with the same agency and city: the schools share one [Agency]
    and one [City] instance, Springfield was requested twice, and each
    resolved code is tallied under its name (9 is no status code). *)
Example two_rows_share_agency_and_city :
  let calls :=
    [Call_School "1" "A1" "District" "Lincoln" "Springfield" "IL"
       "39.8" "-89.6" "1" "11" "1";
     Call_School "2" "A1" "District" "Jefferson" "Springfield" "IL"
       "39.7" "-89.5" "3" "13" "9"]%string in
  let r := run_calls decimal_int no_float calls init_world in
  map (fun s => (Agency_oid (School_agency s), City_oid (School_city s)))
    (schools_of (fst r)) = [(0, 1); (0, 1)] /\
  length (Agency_class_obj_list (snd r)) = 1 /\
  length (City_class_obj_list (snd r)) = 1 /\
  counts_city (snd r) = [("Springfield"%string, 2%Z)] /\
  counts_state (snd r) = [("IL"%string, 2%Z)] /\
  locale_code_count (snd r) =
    [("LARGE_CITY"%string, 1%Z); ("URBAN_FRINGE_LARGE_CITY"%string, 1%Z)] /\
  urban_code_count (snd r) =
    [("CITY_LARGE"%string, 1%Z); ("CITY_SMALL"%string, 1%Z)] /\
  status_code_count (snd r) = [("OPERATIONAL"%string, 1%Z)].
Proof. repeat split; vm_compute; reflexivity. Qed.

(** Cities of one state, asked for by state alone and with a keyword that
    is no search field. *)
Lemma X3_witness :
  let cities := [mk_City 0 "Springfield" "IL"; mk_City 1 "Salem" "OR";
                 mk_City 2 "Peoria" "IL"]%string in
  ~ In "zip"%string (map fst City_search_fields) /\
  Search_search cities City_search_fields
    [("zip", "62701"); ("state", "IL")]%string =
  Search_search cities City_search_fields [("state", "IL")]%string.
Proof.
  intros cities.
  assert (H : ~ In "zip"%string (map fst City_search_fields)).
  { simpl. intros [H|[H|[]]]; discriminate H. }
  split; [exact H|].
  exact (proj2 (proj2 (proj2 (X3_search_tests_the_given_fields cities
           City_search_fields [("state", "IL")]%string)))
           "zip"%string "62701"%string H).
Defined.

(** A found value is the value of the member found. *)
Lemma X1_witness :
  find_val (E:=UrbanLocaleCodes) (inl 33%Z) init_world
    = (Ok (Some TIWN_REMOTE), init_world) /\
  value TIWN_REMOTE = 33%Z.
Proof.
  assert (H : find_val (E:=UrbanLocaleCodes) (inl 33%Z) init_world
              = (Ok (Some TIWN_REMOTE), init_world)) by reflexivity.
  split; [exact H|].
  exact (proj1 (proj1 (proj2 (proj2 (proj2 X1_find_val_round_trip)))
           UrbanLocaleCodes _ 33%Z TIWN_REMOTE init_world init_world H)).
Defined.



(** Two rows of one state: the dataset counts are the class counters. *)
Lemma X10_witness :
  let calls :=
    [Call_School "1" "A1" "District" "Lincoln" "Springfield" "IL"
       "39.8" "-89.6" "1" "11" "1";
     Call_School "2" "A1" "District" "Central" "Peoria" "IL"
       "40.7" "-89.6" "x" "13" "2"]%string in
  let self := mk_SchoolDataSet
                (schools_of (fst (run_calls decimal_int no_float calls init_world)))
                [] in
  let w := snd (run_calls decimal_int no_float calls init_world) in
  (forall c, In c calls -> is_School_call c = true) /\
  state_occurrence_count self w = (Ok [("IL"%string, 2%Z)], w) /\
  counts_state w = [("IL"%string, 2%Z)].
Proof.
  intros calls self w.
  assert (H : forall c, In c calls -> is_School_call c = true).
  { intros c [<-|[<-|[]]]; reflexivity. }
  split; [exact H|].
  destruct (proj2 (X10_dataset_counts_agree_with_class_counters decimal_int
                     no_float calls) H) as [Hs _].
  split; [|reflexivity].
  exact Hs.
Defined.

(** A positive count: the first largest item. *)
Lemma X8_witness :
  let data := [("Salem", 2); ("Peoria", 5); ("Springfield", 5)]%string%Z in
  (exists k v, In (k, v) data /\ (0 < v)%Z) /\
  find_max_schools_in_city data = mk_max_schools 5 "Peoria" /\
  exists before after,
    data = (before ++ ("Peoria"%string, 5%Z) :: after)%list /\
    forall k v, In (k, v) before -> (v < 5)%Z.
Proof.
  intros data.
  assert (H : exists k v, In (k, v) data /\ (0 < v)%Z).
  { exists "Salem"%string, 2%Z. split; [left; reflexivity | reflexivity]. }
  split; [exact H|]. split; [reflexivity|].
  exact (proj2 (proj2 (X8_find_max_is_the_first_largest data)) H).
Defined.

(** The sample file: two schools, one agency instance for both. *)
Lemma X11_witness :
  fs sample_env "school_data.csv" = Some sample_reader /\
  reader_body true sample_reader = Some (tl sample_reader) /\
  exists (self' : SchoolDataSet) (w' : world),
    load_csv decimal_int no_float sample_env SchoolDataSet_init
      "school_data.csv" true init_world = (Return tt, self', w') /\
    map School_name (SchoolDataSet_schools self') = ["Lincoln"; "East"]%string /\
    map Agency_identity (Agency_class_obj_list w')
    = [("A1", "District"); ("A2", "County")]%string.
Proof.
  assert (Hfs : fs sample_env "school_data.csv" = Some sample_reader)
    by reflexivity.
  assert (Hbody : reader_body true sample_reader = Some (tl sample_reader))
    by reflexivity.
  split; [exact Hfs|]. split; [exact Hbody|].
  destruct (X11_load_csv_constructs_a_School_per_full_row decimal_int no_float
              sample_env SchoolDataSet_init "school_data.csv" true
              sample_reader (tl sample_reader) init_world Hfs Hbody)
    as (w' & Hrun & Hdata).
  eexists _, w'. split; [exact Hrun|]. split; [reflexivity|].
  change (Agency_class_obj_list w')
    with (Agency_class_obj_list (data_part w')).
  rewrite Hdata. reflexivity.
Defined.


(** The sample file: two schools, both of one state. *)
Lemma X14_witness :
  fs sample_env "school_data.csv" = Some sample_reader /\
  reader_body true sample_reader = Some (tl sample_reader) /\
  let r := load_csv decimal_int no_float sample_env SchoolDataSet_init
             "school_data.csv" true init_world in
  SchoolDataSet_len (snd (fst r)) = 2 /\
  state_occurrence_count (snd (fst r)) (snd r)
  = (Ok [("IL"%string, 2%Z)], snd r).
Proof.
  assert (Hfs : fs sample_env "school_data.csv" = Some sample_reader)
    by reflexivity.
  assert (Hbody : reader_body true sample_reader = Some (tl sample_reader))
    by reflexivity.
  split; [exact Hfs|]. split; [exact Hbody|].
  destruct (X14_loaded_dataset_agrees_with_the_counters decimal_int no_float
              sample_env "school_data.csv" true
              sample_reader (tl sample_reader) Hfs Hbody)
    as (Hlen & _ & _ & Hstate & _).
  split; [exact Hlen|]. exact Hstate.
Defined.

(** Only one entry contains [east]: the second word is not looked at. *)
Lemma X15_witness :
  let self := mk_SchoolSearchEngine 0 in
  let w := snd (SchoolSearchEngine_init (@lincoln_dataset unit) init_world) in
  engine_in self (cache_of (@lincoln_dataset unit)) w /\
  PyStr.split_space "east nomatchword" = ["east"; "nomatchword"]%string /\
  result_of (phrase self "east nomatchword") w
  = Ok ["lincoln east springfield il"%string].
Proof.
  intros self w.
  assert (He : engine_in self (cache_of (@lincoln_dataset unit)) w)
    by reflexivity.
  assert (Hq : PyStr.split_space "east nomatchword"
               = ["east"; "nomatchword"]%string) by reflexivity.
  assert (Hfound : List.filter (fun e => PyStr.contains "east" e)
                     (cache_of (@lincoln_dataset unit)) <> [])
    by (vm_compute; discriminate).
  split; [exact He|]. split; [exact Hq|].
  destruct (X15_first_word_that_matches_decides self _ "east nomatchword" w
              "east" ["nomatchword"%string] He Hq Hfound)
    as (out & Hrun & _ & Hout).
  rewrite Hrun, Hout; [reflexivity|]. right. vm_compute. lia.
Defined.


(** A search that fails, then one that does not. *)
Lemma X17_witness :
  let self := mk_SchoolSearchEngine 0 in
  let w := snd (SchoolSearchEngine_init (@lincoln_dataset unit) init_world) in
  engine_in self (cache_of (@lincoln_dataset unit)) w /\
  exists r1 w1 r2 w2,
    phrase self "lincoln west" w = (Ok r1, w1) /\
    phrase self "north" w1 = (Ok r2, w2) /\
    r1 <> r2 /\
    items r1 w2 = items r1 w1 /\
    result_of (phrase self "north") w = Ok (items r2 w2).
Proof.
  intros self w.
  assert (He : engine_in self (cache_of (@lincoln_dataset unit)) w)
    by reflexivity.
  split; [exact He|].
  destruct (X17_searches_do_not_disturb_one_another self _
              "lincoln west" "north" w He)
    as (r1 & w1 & r2 & w2 & H1 & H2 & Hne & _ & _ & Hitems & Hres & _).
  exists r1, w1, r2, w2.
  split; [exact H1|]. split; [exact H2|]. split; [exact Hne|].
  split; [exact Hitems | exact Hres].
Defined.


